(** Outage log of a transmitter site: record validation and availability
    roll-ups (RW_Outage_app.py).

    The development embeds the validators ([validate_time_input],
    [validate_required_fields], [check_duplicate_entry]), the aggregator
    ([build_comprehensive_summary]) and the parts of the Streamlit pages that
    call them (the two form handlers, the sidebar status and the full-year
    projection), and proves the properties the specification states about
    them.

    Conventions of the embedding.
    - A pandas DataFrame is the list of its rows, in index order.
    - The [Date] cell of a row is [None] when [pd.to_datetime(...,
      errors="coerce")] yields NaT for it, and the calendar date otherwise.
    - The [Failure Type] cell is [None] for an empty (NaN) cell.
    - A Python [str] is held as the string of the UTF-8 bytes of its code
      points.
    - [Downtime (minutes)] is an int64 column: its "sum" wraps around at
      2^63 ([wrap64]), its "mean" is computed in floating point.
    - Python floats are read as exact rationals ([Q]): rounding of the
      float64 operations is not part of the model.  Results on [Q] are stated
      up to [==].
    - The streamlit cache in front of the aggregator and the Excel file
      behind [save_data] are outside the model: [save_data] succeeds, and
      the reload that follows a save returns the saved rows sorted by date,
      a permutation of them. *)

From Stdlib Require Import ZArith QArith String Ascii List Lia OrdersEx.
From stdpp Require Import base list sorting strings.

Open Scope Z_scope.

(* ================================================================== *)
(** * Calendar *)

(** Month of a date; [month_num] is [.dt.month], [strftime_B] is
    [.dt.strftime("%B")] in the C locale. *)
Inductive Month : Set :=
  | January | February | March | April | May | June
  | July | August | September | October | November | December.

Definition month_num (m : Month) : Z :=
  match m with
  | January => 1 | February => 2 | March => 3 | April => 4
  | May => 5 | June => 6 | July => 7 | August => 8
  | September => 9 | October => 10 | November => 11 | December => 12
  end.

Definition strftime_B (m : Month) : string :=
  match m with
  | January => "January" | February => "February" | March => "March"
  | April => "April" | May => "May" | June => "June" | July => "July"
  | August => "August" | September => "September" | October => "October"
  | November => "November" | December => "December"
  end.

(** A calendar date ([datetime.date], or the date part of a Timestamp). *)
Record date : Set := mkdate { year : Z; month : Month; day : Z }.

(** [datetime.date] comparison: by (year, month, day). *)
Definition date_leb (a b : date) : bool :=
  (year a <? year b)
  || ((year a =? year b)
      && ((month_num (month a) <? month_num (month b))
          || ((month_num (month a) =? month_num (month b))
              && (day a <=? day b)))).

(** pandas' [is_leapyear] (ccalendar): [(year & 0x3) == 0 and
    ((year % 100) != 0 or (year % 400) == 0)]. *)
Definition is_leapyear (y : Z) : bool :=
  (Z.land y 3 =? 0) && (negb (y mod 100 =? 0) || (y mod 400 =? 0)).

(** pandas' [days_per_month_table]: twelve entries for common years
    followed by twelve for leap years. *)
Definition days_per_month_table : list Z :=
  [31; 28; 31; 30; 31; 30; 31; 31; 30; 31; 30; 31;
   31; 29; 31; 30; 31; 30; 31; 31; 30; 31; 30; 31].

(** pandas' [get_days_in_month]: what [pd.Period("YYYY-MM").days_in_month]
    returns.  [mon] is a month number in 1..12. *)
Definition get_days_in_month (y mon : Z) : Z :=
  nth (Z.to_nat (12 * (if is_leapyear y then 1 else 0) + mon - 1))
      days_per_month_table 0.

(** [pd.Period(f"{year}").is_leap_year]. *)
Definition Period_is_leap_year (y : Z) : bool := is_leapyear y.

(** CPython's [datetime]: day counts behind [date.toordinal] and date
    subtraction. *)
Definition py_is_leap (y : Z) : bool :=
  (y mod 4 =? 0) && (negb (y mod 100 =? 0) || (y mod 400 =? 0)).

Definition days_before_year (y : Z) : Z :=
  let y' := y - 1 in
  y' * 365 + y' / 4 - y' / 100 + y' / 400.

Definition DAYS_BEFORE_MONTH (m : Month) : Z :=
  match m with
  | January => 0 | February => 31 | March => 59 | April => 90
  | May => 120 | June => 151 | July => 181 | August => 212
  | September => 243 | October => 273 | November => 304 | December => 334
  end.

Definition days_before_month (y : Z) (m : Month) : Z :=
  DAYS_BEFORE_MONTH m
  + (if (2 <? month_num m) && py_is_leap y then 1 else 0).

Definition toordinal (d : date) : Z :=
  days_before_year (year d) + days_before_month (year d) (month d) + day d.

(** [(a - b).days] for two dates. *)
Definition date_sub_days (a b : date) : Z := toordinal a - toordinal b.

(* ================================================================== *)
(** * Time of day *)

(** A [datetime.time] as the [st.time_input] widgets (step 60) deliver it and
    the log stores it: hour and minute. *)
Record time : Set := mktime { hour : Z; minute : Z }.

(** [datetime.time] comparison: by (hour, minute). *)
Definition time_ltb (a b : time) : bool :=
  (hour a <? hour b) || ((hour a =? hour b) && (minute a <? minute b)).

Definition time_leb (a b : time) : bool :=
  (hour a <? hour b) || ((hour a =? hour b) && (minute a <=? minute b)).

(** The values a [datetime.time] can hold. *)
Definition valid_time (t : time) : Prop :=
  0 <= hour t < 24 /\ 0 <= minute t < 60.

(* ================================================================== *)
(** * The outage log *)

(** One row of the "Downtime Log" sheet.  The display column
    "Downtime (hh:mm)" is not modelled; no computation reads it. *)
Record outage : Type := mkoutage {
  Date : option date;
  Start_Time : time;
  End_Time : time;
  Downtime_minutes : Z;
  Failure_Type : option string;
  Remarks : string
}.

Definition DataFrame : Type := list outage.

(** [df.empty] *)
Definition empty {A} (df : list A) : bool :=
  match df with [] => true | _ :: _ => false end.

(* ================================================================== *)
(** * Validation functions *)

Definition validate_time_input (start_time end_time : time) (d : date)
  : bool * string :=
  if time_leb end_time start_time then
    (false, "End time must be after start time"%string)
  else
    let start_minutes := hour start_time * 60 + minute start_time in
    let end_minutes := hour end_time * 60 + minute end_time in
    let broadcast_start := 4 * 60 + 30 in
    let broadcast_end := 22 * 60 in
    if (start_minutes <? broadcast_start) || (broadcast_end <? end_minutes)
    then
      (false,
       "Times must be within broadcast hours (4:30 AM - 10:00 PM)"%string)
    else (true, ""%string).

(** White space in the sense of [str.strip()]: the 29 code points for
    which [str.isspace()] holds, recognised by the bytes of their UTF-8
    encodings.  One byte: U+0009-000D and U+001C-0020. *)
Definition isspace1 (c : ascii) : bool :=
  let n := nat_of_ascii c in
  ((9 <=? n) && (n <=? 13) || (28 <=? n) && (n <=? 32))%nat.

(** Two bytes: U+0085 (C2 85) and U+00A0 (C2 A0). *)
Definition isspace2 (c1 c2 : ascii) : bool :=
  let n1 := nat_of_ascii c1 in
  let n2 := nat_of_ascii c2 in
  ((n1 =? 194) && ((n2 =? 133) || (n2 =? 160)))%nat.

(** Three bytes: U+1680 (E1 9A 80), U+2000-200A (E2 80 80-8A), U+2028,
    U+2029 and U+202F (E2 80 A8, A9 and AF), U+205F (E2 81 9F) and U+3000
    (E3 80 80). *)
Definition isspace3 (c1 c2 c3 : ascii) : bool :=
  let n1 := nat_of_ascii c1 in
  let n2 := nat_of_ascii c2 in
  let n3 := nat_of_ascii c3 in
  ((n1 =? 225) && (n2 =? 154) && (n3 =? 128)
   || (n1 =? 226) && (n2 =? 128)
      && ((128 <=? n3) && (n3 <=? 138)
          || (n3 =? 168) || (n3 =? 169) || (n3 =? 175))
   || (n1 =? 226) && (n2 =? 129) && (n3 =? 159)
   || (n1 =? 227) && (n2 =? 128) && (n3 =? 128))%nat.

(** [str.lstrip()]: the string without its leading white-space
    characters. *)
Fixpoint lstrip (s : string) : string :=
  match s with
  | EmptyString => EmptyString
  | String c1 s1 =>
      if isspace1 c1 then lstrip s1
      else
        match s1 with
        | EmptyString => s
        | String c2 s2 =>
            if isspace2 c1 c2 then lstrip s2
            else
              match s2 with
              | EmptyString => s
              | String c3 s3 => if isspace3 c1 c2 c3 then lstrip s3 else s
              end
        end
  end.

(** [str.rstrip()]: the string without its trailing white-space
    characters; what is left of a string of white space only is empty,
    and any other string keeps its first byte. *)
Fixpoint rstrip (s : string) : string :=
  match s with
  | EmptyString => EmptyString
  | String c s' =>
      if (lstrip s =? "")%string then EmptyString else String c (rstrip s')
  end.

Definition strip (s : string) : string := rstrip (lstrip s).

(** Python truthiness of an optional string: [None] and [""] are false. *)
Definition truthy_str (s : option string) : bool :=
  match s with
  | None => false
  | Some s => negb (s =? "")%string
  end.

(** Python truthiness of an optional date or time: only [None] is false. *)
Definition present {A} (o : option A) : bool :=
  match o with Some _ => true | None => false end.

(** The arguments are [None] when the widget delivered nothing. *)
Definition validate_required_fields
    (d : option date) (start_time end_time : option time)
    (failure_type : option string) : bool * string :=
  if negb (present d) then (false, "Date is required"%string)
  else if negb (present start_time) then
    (false, "Start time is required"%string)
  else if negb (present end_time) then
    (false, "End time is required"%string)
  else if negb (truthy_str failure_type)
          || (match failure_type with
              | Some s => (strip s =? "")%string
              | None => false
              end) then
    (false, "Failure type is required"%string)
  else (true, ""%string).

#[global] Instance Month_eq_dec : EqDecision Month.
Proof. solve_decision. Defined.

#[global] Instance date_eq_dec : EqDecision date.
Proof. solve_decision. Defined.

(** The loop over [same_date_entries.iterrows()]: the first overlapping row
    ends it with [True]. *)
Fixpoint overlap_loop (start_time end_time : time) (rows : list outage)
  : bool :=
  match rows with
  | [] => false
  | row :: rest =>
      let existing_start := Start_Time row in
      let existing_end := End_Time row in
      if time_ltb start_time existing_end
         && time_ltb existing_start end_time
      then true
      else overlap_loop start_time end_time rest
  end.

Definition check_duplicate_entry
    (df : DataFrame) (d : date) (start_time end_time : time) : bool :=
  if empty df then false
  else
    let target_date := d in
    let same_date_entries :=
      filter (fun row => Date row = Some target_date) df in
    overlap_loop start_time end_time same_date_entries.

(* ================================================================== *)
(** * Column aggregations *)

(** The sum of a column as an integer of any size. *)
Definition exact_sum (l : list Z) : Z := foldr Z.add 0 l.

(** The value an int64 holds after an overflow: the representative of [x]
    modulo 2^64 in [-2^63, 2^63). *)
Definition wrap64 (x : Z) : Z := (x + 2 ^ 63) mod 2 ^ 64 - 2 ^ 63.

(** "sum" of an int64 column: the additions wrap around. *)
Definition col_sum (l : list Z) : Z := wrap64 (exact_sum l).

(** "count": the number of cells that are not null. *)
Definition col_count {A} (l : list (option A)) : Z :=
  Z.of_nat (length (filter (fun c => is_Some c) l)).

(** [len(...)] *)
Definition len {A} (l : list A) : Z := Z.of_nat (length l).

(** "mean"; NaN ([None]) on an empty column.  The cells are added as
    floats, so this sum does not wrap. *)
Definition col_mean (l : list Z) : option Q :=
  match l with
  | [] => None
  | _ :: _ => Some (inject_Z (exact_sum l) / inject_Z (len l))%Q
  end.

(** "max" and "min"; NaN ([None]) on an empty column. *)
Definition col_max (l : list Z) : option Z :=
  match l with
  | [] => None
  | x :: xs => Some (foldr Z.max x xs)
  end.

Definition col_min (l : list Z) : option Z :=
  match l with
  | [] => None
  | x :: xs => Some (foldr Z.min x xs)
  end.

(* ================================================================== *)
(** * groupby *)

Section groupby.
Context {R K : Type} `{EqDecision K}.
Variable leb : K -> K -> bool.
Variable key : R -> K.

(** The group keys, each once, in sorted order ([sort=True]). *)
Definition group_keys (df : list R) : list K :=
  merge_sort (fun a b => Is_true (leb a b)) (remove_dups (key <$> df)).

(** The rows of one group, in the order of the frame. *)
Definition get_group (df : list R) (k : K) : list R :=
  filter (fun r => key r = k) df.

Definition groupby (df : list R) : list (K * list R) :=
  (fun k => (k, get_group df k)) <$> group_keys df.
End groupby.

(* ================================================================== *)
(** * The aggregator *)

Definition BROADCAST_HOURS_PER_DAY : Q := 17.5%Q.

(** A row of [df_copy]: a row of the log whose date parsed, with the date. *)
Definition dated : Type := date * outage.

(** [pd.to_datetime(..., errors="coerce")] followed by
    [dropna(subset=['Date'])]. *)
Definition dropna_Date (df : DataFrame) : list dated :=
  omap (fun row => match Date row with
                   | Some d => Some (d, row)
                   | None => None
                   end) df.

(** The derived columns of [df_copy]. *)
Definition col_Month (r : dated) : string := strftime_B (month (fst r)).
Definition col_Year (r : dated) : Z := year (fst r).
Definition col_Month_Num (r : dated) : Z := month_num (month (fst r)).
Definition col_Downtime (g : list dated) : list Z :=
  (fun r => Downtime_minutes (snd r)) <$> g.
Definition col_Failure_Type (g : list dated) : list (option string) :=
  (fun r => Failure_Type (snd r)) <$> g.

(** Tuple order of the keys ["Year", "Month", "Month_Num"]; strings compare
    character by character. *)
Definition monthly_key : Type := Z * string * Z.

#[global] Instance monthly_key_eq_dec : EqDecision monthly_key.
Proof. unfold monthly_key. apply _. Defined.

Definition monthly_key_of (r : dated) : monthly_key :=
  (col_Year r, col_Month r, col_Month_Num r).

Definition monthly_key_leb (a b : monthly_key) : bool :=
  let '(y1, m1, n1) := a in
  let '(y2, m2, n2) := b in
  match y1 ?= y2 with
  | Lt => true
  | Gt => false
  | Eq => match String_as_OT.compare m1 m2 with
          | Lt => true
          | Gt => false
          | Eq => n1 <=? n2
          end
  end.

Module Monthly.
(** A row of [monthly_summary] before [Month_Num] is dropped. *)
Record row : Type := mkrow {
  Year : Z;
  Month : string;
  Month_Num : Z;
  Total_Downtime_Minutes : Z;
  Failure_Count : Z;
  Avg_Downtime_Per_Failure : Q;
  Days_in_Month : Z;
  Total_Broadcast_Minutes : Q;
  Availability : Q
}.
End Monthly.

Module MonthlyOut.
(** A row of the monthly summary as returned. *)
Record row : Type := mkrow {
  Year : Z;
  Month : string;
  Total_Downtime_Minutes : Z;
  Failure_Count : Z;
  Avg_Downtime_Per_Failure : Q;
  Days_in_Month : Z;
  Total_Broadcast_Minutes : Q;
  Availability : Q
}.
End MonthlyOut.

Module Yearly.
Record row : Type := mkrow {
  Year : Z;
  Total_Downtime_Minutes : Z;
  Failure_Count : Z;
  Avg_Downtime_Per_Failure : Q;
  Max_Downtime : Z;
  Min_Downtime : Z;
  Days_in_Year : Z;
  Total_Broadcast_Minutes : Q;
  Availability : Q;
  Max_Downtime_hours : Q;
  Min_Downtime_hours : Q
}.
End Yearly.

(** [((budget - downtime) / budget) * 100] *)
Definition availability_pct (total_broadcast_minutes : Q) (downtime : Z) : Q :=
  ((total_broadcast_minutes - inject_Z downtime) / total_broadcast_minutes
   * 100)%Q.

(** [days * BROADCAST_HOURS_PER_DAY * 60] *)
Definition broadcast_minutes (days : Z) : Q :=
  (inject_Z days * BROADCAST_HOURS_PER_DAY * 60)%Q.

(** One group of the monthly [groupby(...).agg(...)] with the metric
    columns added; an empty group gives no row. *)
Definition monthly_agg (kg : monthly_key * list dated) : option Monthly.row :=
  let '((y, m, n), g) := kg in
  avg ← col_mean (col_Downtime g);
  let total := col_sum (col_Downtime g) in
  let days := get_days_in_month y n in
  let budget := broadcast_minutes days in
  Some {| Monthly.Year := y;
          Monthly.Month := m;
          Monthly.Month_Num := n;
          Monthly.Total_Downtime_Minutes := total;
          Monthly.Failure_Count := col_count (col_Failure_Type g);
          Monthly.Avg_Downtime_Per_Failure := avg;
          Monthly.Days_in_Month := days;
          Monthly.Total_Broadcast_Minutes := budget;
          Monthly.Availability := availability_pct budget total |}.

(** The group key a row of the monthly summary carries. *)
Definition monthly_row_key (r : Monthly.row) : monthly_key :=
  (Monthly.Year r, Monthly.Month r, Monthly.Month_Num r).

(** Order of [sort_values(["Year", "Month_Num"])]. *)
Definition by_Year_Month_Num (a b : Monthly.row) : bool :=
  match Monthly.Year a ?= Monthly.Year b with
  | Lt => true
  | Gt => false
  | Eq => Monthly.Month_Num a <=? Monthly.Month_Num b
  end.

(** [.drop("Month_Num", axis=1)] *)
Definition drop_Month_Num (r : Monthly.row) : MonthlyOut.row :=
  {| MonthlyOut.Year := Monthly.Year r;
     MonthlyOut.Month := Monthly.Month r;
     MonthlyOut.Total_Downtime_Minutes := Monthly.Total_Downtime_Minutes r;
     MonthlyOut.Failure_Count := Monthly.Failure_Count r;
     MonthlyOut.Avg_Downtime_Per_Failure := Monthly.Avg_Downtime_Per_Failure r;
     MonthlyOut.Days_in_Month := Monthly.Days_in_Month r;
     MonthlyOut.Total_Broadcast_Minutes := Monthly.Total_Broadcast_Minutes r;
     MonthlyOut.Availability := Monthly.Availability r |}.

Definition monthly_rows (df_copy : list dated) : list Monthly.row :=
  omap monthly_agg (groupby monthly_key_leb monthly_key_of df_copy).

Definition monthly_sorted (df_copy : list dated) : list Monthly.row :=
  merge_sort (fun a b => Is_true (by_Year_Month_Num a b))
             (monthly_rows df_copy).

Definition monthly_summary (df_copy : list dated) : list MonthlyOut.row :=
  drop_Month_Num <$> monthly_sorted df_copy.

(** One group of the yearly [groupby(["Year"]).agg(...)] with the metric
    columns added. *)
Definition yearly_agg (kg : Z * list dated) : option Yearly.row :=
  let '(y, g) := kg in
  avg ← col_mean (col_Downtime g);
  mx ← col_max (col_Downtime g);
  mn ← col_min (col_Downtime g);
  let total := col_sum (col_Downtime g) in
  let days := if Period_is_leap_year y then 366 else 365 in
  let budget := broadcast_minutes days in
  Some {| Yearly.Year := y;
          Yearly.Total_Downtime_Minutes := total;
          Yearly.Failure_Count := col_count (col_Failure_Type g);
          Yearly.Avg_Downtime_Per_Failure := avg;
          Yearly.Max_Downtime := mx;
          Yearly.Min_Downtime := mn;
          Yearly.Days_in_Year := days;
          Yearly.Total_Broadcast_Minutes := budget;
          Yearly.Availability := availability_pct budget total;
          Yearly.Max_Downtime_hours := (inject_Z mx / 60)%Q;
          Yearly.Min_Downtime_hours := (inject_Z mn / 60)%Q |}.

Definition yearly_summary (df_copy : list dated) : list Yearly.row :=
  omap yearly_agg (groupby Z.leb col_Year df_copy).

(** The populated [ytd_summary] dict. *)
Record ytd_fields : Type := mkytd {
  current_year : Z;
  days_elapsed : Z;
  total_broadcast_minutes : Q;
  total_downtime_minutes : Z;
  ytd_availability : Q;
  failure_count : Z;
  avg_downtime_per_failure : Q
}.

(** The value stored under ['ytd']: [{}] or the populated dict. *)
Inductive ytd_dict : Type :=
  | ytd_empty
  | ytd_filled (s : ytd_fields).

(** The dict the aggregator returns; [ytd = None] stands for a dict without
    the key ['ytd']. *)
Record summary_data : Type := mksummary {
  monthly : list MonthlyOut.row;
  yearly : list Yearly.row;
  ytd : option ytd_dict
}.

(** The rows selected for the year to date. *)
Definition ytd_select (year_now : Z) (today : date) (df_copy : list dated)
  : list dated :=
  filter (fun r => col_Year r = year_now /\ Is_true (date_leb (fst r) today))
         df_copy.

Definition ytd_of (year_now : Z) (today : date) (df_copy : list dated)
  : ytd_dict :=
  let ytd_outages := ytd_select year_now today df_copy in
  if negb (empty ytd_outages) then
    let jan_1 := mkdate year_now January 1 in
    let days_elapsed := date_sub_days today jan_1 + 1 in
    let total_ytd_broadcast_minutes := broadcast_minutes days_elapsed in
    let total_ytd_downtime_minutes := col_sum (col_Downtime ytd_outages) in
    let ytd_availability :=
      availability_pct total_ytd_broadcast_minutes
                       total_ytd_downtime_minutes in
    ytd_filled
      {| current_year := year_now;
         days_elapsed := days_elapsed;
         total_broadcast_minutes := total_ytd_broadcast_minutes;
         total_downtime_minutes := total_ytd_downtime_minutes;
         ytd_availability := ytd_availability;
         failure_count := len ytd_outages;
         avg_downtime_per_failure :=
           if 0 <? len ytd_outages then
             match col_mean (col_Downtime ytd_outages) with
             | Some avg => avg
             | None => 0%Q
             end
           else 0%Q |}
  else ytd_empty.

(** [year_now] and [today] are what the two reads of the clock,
    [datetime.now().year] and [datetime.now().date()], return. *)
Definition build_comprehensive_summary
    (year_now : Z) (today : date) (df : DataFrame) : summary_data :=
  if empty df then {| monthly := []; yearly := []; ytd := None |}
  else
    let df_copy := dropna_Date df in
    if empty df_copy then {| monthly := []; yearly := []; ytd := None |}
    else
      {| monthly := monthly_summary df_copy;
         yearly := yearly_summary df_copy;
         ytd := Some (ytd_of year_now today df_copy) |}.

(* ================================================================== *)
(** * The pages *)

(** What a page script ends in where it reads the summary: a value, or the
    [KeyError] of a subscript with a missing key. *)
Inductive outcome (A : Type) : Type :=
  | Returns (a : A)
  | KeyError (k : string).
Arguments Returns {A} a.
Arguments KeyError {A} k.

(** [summary_data['ytd']] *)
Definition subscript_ytd (s : summary_data) : outcome ytd_dict :=
  match ytd s with
  | Some d => Returns d
  | None => KeyError "ytd"
  end.

(** Sidebar "System Status". *)
Inductive status : Type :=
  | No_data
  | No_YTD_data
  | Health (status_text : string) (availability : Q) (failures : Z).

Definition sidebar_status (year_now : Z) (today : date) (df : DataFrame)
  : outcome status :=
  if negb (empty df) then
    let summary := build_comprehensive_summary year_now today df in
    match subscript_ytd summary with
    | KeyError k => KeyError k
    | Returns ytd_empty => Returns No_YTD_data
    | Returns (ytd_filled ytd_summary) =>
        let availability := ytd_availability ytd_summary in
        let status_text :=
          if Qle_bool 99.5 availability then "Excellent"
          else if Qle_bool 99.0 availability then "Good"
          else "Needs Attention" in
        Returns (Health status_text availability (failure_count ytd_summary))
    end
  else Returns No_data.

(** View Summary page: "Projected Full Year Availability". *)
Record projection : Type := mkprojection {
  days_remaining : Z;
  projected_remaining_downtime : Q;
  projected_total_downtime : Q;
  projected_availability : Q
}.

Definition project_full_year (ytd_summary : ytd_fields) : option projection :=
  if days_elapsed ytd_summary <? 365 then
    let days_remaining := 365 - days_elapsed ytd_summary in
    let projected_remaining_downtime :=
      (inject_Z (total_downtime_minutes ytd_summary)
       / inject_Z (days_elapsed ytd_summary) * inject_Z days_remaining)%Q in
    let projected_total_downtime :=
      (inject_Z (total_downtime_minutes ytd_summary)
       + projected_remaining_downtime)%Q in
    let projected_availability :=
      ((365 * BROADCAST_HOURS_PER_DAY * 60 - projected_total_downtime)
       / (365 * BROADCAST_HOURS_PER_DAY * 60) * 100)%Q in
    Some {| days_remaining := days_remaining;
            projected_remaining_downtime := projected_remaining_downtime;
            projected_total_downtime := projected_total_downtime;
            projected_availability := projected_availability |}
  else None.

(** The projection the View Summary page shows for a log: nothing when the
    log is empty or there is no YTD dict. *)
Definition view_summary_projection
    (year_now : Z) (today : date) (df : DataFrame)
  : outcome (option projection) :=
  if empty df then Returns None
  else
    match subscript_ytd (build_comprehensive_summary year_now today df) with
    | KeyError k => KeyError k
    | Returns ytd_empty => Returns None
    | Returns (ytd_filled ytd_summary) =>
        Returns (project_full_year ytd_summary)
    end.

(** What the form widgets deliver on submit. *)
Record form : Type := mkform {
  f_date : date;
  f_start_time : time;
  f_end_time : time;
  f_failure_type : string;
  f_remarks : string
}.

(** How a submission ends: a message of the page, the saved log, or an
    exception of the script ([IndexError] of [iloc] out of range,
    [ValueError] of [NaT.strftime]). *)
Inductive submit_result : Type :=
  | Validation_Error (msg : string)
  | Duplicate_Entry
  | Saved (df : DataFrame)
  | IndexError
  | ValueError.

(** [int((end_dt - start_dt).total_seconds() / 60)] for two times of the same
    day. *)
Definition downtime_of (start_time end_time : time) : Z :=
  (hour end_time * 60 + minute end_time)
  - (hour start_time * 60 + minute start_time).

Definition record_of (f : form) : outage :=
  {| Date := Some (f_date f);
     Start_Time := f_start_time f;
     End_Time := f_end_time f;
     Downtime_minutes := downtime_of (f_start_time f) (f_end_time f);
     Failure_Type := Some (f_failure_type f);
     Remarks := f_remarks f |}.

(** Log Outage page, [if submitted:]. *)
Definition log_submit (df : DataFrame) (f : form) : submit_result :=
  let '(required_valid, required_msg) :=
    validate_required_fields (Some (f_date f)) (Some (f_start_time f))
                             (Some (f_end_time f)) (Some (f_failure_type f)) in
  if negb required_valid then Validation_Error required_msg
  else
    let '(time_valid, time_msg) :=
      validate_time_input (f_start_time f) (f_end_time f) (f_date f) in
    if negb time_valid then Validation_Error time_msg
    else if check_duplicate_entry df (f_date f) (f_start_time f)
                                  (f_end_time f)
    then Duplicate_Entry
    else Saved (df ++ [record_of f]).

(** Edit Records page, from the selected record to [if submitted:] of the
    edit form; [actual_index] is the position in [df] of the row selected in
    the (filtered) view.  The "Selected Record" panel comes first:
    [selected_record['Date'].strftime('%Y-%m-%d')] raises [ValueError] for a
    row without a date (NaT), and no form is drawn then. *)
Definition edit_submit (df : DataFrame) (actual_index : nat) (f : form)
  : submit_result :=
  match df !! actual_index with
  | None => IndexError
  | Some selected_record =>
      match Date selected_record with
      | None => ValueError
      | Some _ =>
          let '(required_valid, required_msg) :=
            validate_required_fields (Some (f_date f)) (Some (f_start_time f))
                                     (Some (f_end_time f))
                                     (Some (f_failure_type f)) in
          if negb required_valid then Validation_Error required_msg
          else
            let '(time_valid, time_msg) :=
              validate_time_input (f_start_time f) (f_end_time f) (f_date f) in
            if negb time_valid then Validation_Error time_msg
            else Saved (<[actual_index := record_of f]> df)
      end
  end.

(** The log without the row at position [i]: the records an edited record
    is to be compared with. *)
Definition others (df : DataFrame) (i : nat) : DataFrame := delete i df.

(** No two rows of the same date overlap. *)
Definition overlapping (a b : outage) : Prop :=
  (exists d, Date a = Some d /\ Date b = Some d)
  /\ Is_true (time_ltb (Start_Time a) (End_Time b))
  /\ Is_true (time_ltb (Start_Time b) (End_Time a)).

(* ================================================================== *)
(** * Reference notions of the specification *)

(** The maximum of a column: one of its cells, and no cell is larger. *)
Definition is_max (l : list Z) (m : Z) : Prop :=
  m ∈ l /\ forall x, x ∈ l -> x <= m.

Definition is_min (l : list Z) (m : Z) : Prop :=
  m ∈ l /\ forall x, x ∈ l -> m <= x.

(** Order of times of day, by (hour, minute). *)
Definition time_lt (a b : time) : Prop :=
  hour a < hour b \/ (hour a = hour b /\ minute a < minute b).

Definition time_le (a b : time) : Prop :=
  hour a < hour b \/ (hour a = hour b /\ minute a <= minute b).

(** Gregorian leap year: divisible by 4, not by 100, unless by 400. *)
Definition gregorian_leap (y : Z) : Prop :=
  (4 | y) /\ (~ (100 | y) \/ (400 | y)).

(** First day of the month after (y, m). *)
Definition next_month_first (y : Z) (m : Month) : date :=
  match m with
  | January => mkdate y February 1 | February => mkdate y March 1
  | March => mkdate y April 1 | April => mkdate y May 1
  | May => mkdate y June 1 | June => mkdate y July 1
  | July => mkdate y August 1 | August => mkdate y September 1
  | September => mkdate y October 1 | October => mkdate y November 1
  | November => mkdate y December 1 | December => mkdate (y + 1) January 1
  end.

(** Month number of a month name; 0 for any other string. *)
Definition month_number_of_name (s : string) : Z :=
  if (s =? "January")%string then 1
  else if (s =? "February")%string then 2
  else if (s =? "March")%string then 3
  else if (s =? "April")%string then 4
  else if (s =? "May")%string then 5
  else if (s =? "June")%string then 6
  else if (s =? "July")%string then 7
  else if (s =? "August")%string then 8
  else if (s =? "September")%string then 9
  else if (s =? "October")%string then 10
  else if (s =? "November")%string then 11
  else if (s =? "December")%string then 12
  else 0.

(** Strict order on (year, month number). *)
Definition ym_lt (a b : Z * Z) : Prop :=
  fst a < fst b \/ (fst a = fst b /\ snd a < snd b).

(** The rows of [df_copy] that fall in month [m] of year [y]. *)
Definition in_month (y : Z) (m : Month) (df_copy : list dated) : list dated :=
  filter (fun r => year (fst r) = y /\ month (fst r) = m) df_copy.

(** The rows of [df_copy] that fall in year [y]. *)
Definition in_year (y : Z) (df_copy : list dated) : list dated :=
  filter (fun r => year (fst r) = y) df_copy.

(** Every row of the log carries a failure type, as the required-fields
    validation of the two forms guarantees for the rows they write. *)
Definition all_typed (df : DataFrame) : Prop :=
  Forall (fun row => is_Some (Failure_Type row)) df.

(** Minutes of broadcast per day: 17.5 hours. *)
Definition daily_budget : Z := 1050.

(** The rows of a log dated in month [m] of year [y], and in year [y].  A
    row without a date is in neither. *)
Definition dated_in_month (y : Z) (m : Month) (row : outage) : Prop :=
  match Date row with
  | Some d => year d = y /\ month d = m
  | None => False
  end.

Definition dated_in_year (y : Z) (row : outage) : Prop :=
  match Date row with
  | Some d => year d = y
  | None => False
  end.

#[global] Instance dated_in_month_dec (y : Z) (m : Month) (row : outage) :
  Decision (dated_in_month y m row).
Proof. unfold dated_in_month. destruct (Date row); apply _. Defined.

#[global] Instance dated_in_year_dec (y : Z) (row : outage) :
  Decision (dated_in_year y row).
Proof. unfold dated_in_year. destruct (Date row); apply _. Defined.

Definition records_of_month (y : Z) (m : Month) (df : DataFrame) : DataFrame :=
  filter (dated_in_month y m) df.

Definition records_of_year (y : Z) (df : DataFrame) : DataFrame :=
  filter (dated_in_year y) df.

(** The downtimes of a list of records added up, and their absolute values
    added up. *)
Fixpoint total_minutes (rows : list outage) : Z :=
  match rows with
  | [] => 0
  | row :: rest => Downtime_minutes row + total_minutes rest
  end.

Fixpoint total_abs_minutes (rows : list outage) : Z :=
  match rows with
  | [] => 0
  | row :: rest => Z.abs (Downtime_minutes row) + total_abs_minutes rest
  end.

(** A log whose downtimes are small enough for 64-bit sums: no sum of
    downtimes of rows of the log leaves the int64 range. *)
Definition bounded_log (df : DataFrame) : Prop :=
  total_abs_minutes df < 2 ^ 63.

(** Length of month [m] of year [y] in the proleptic Gregorian calendar. *)
Definition month_length (y : Z) (m : Month) (n : Z) : Prop :=
  match m with
  | February =>
      (gregorian_leap y -> n = 29) /\ (~ gregorian_leap y -> n = 28)
  | April | June | September | November => n = 30
  | _ => n = 31
  end.

(** The monthly summary the specification describes for the records [g] of
    month [m] of year [y]. *)
Definition monthly_row_spec (y : Z) (m : Month) (g : list outage)
    (r : MonthlyOut.row) : Prop :=
  let total := total_minutes g in
  let count := Z.of_nat (length g) in
  let days := MonthlyOut.Days_in_Month r in
  let budget := inject_Z (days * daily_budget) in
  MonthlyOut.Year r = y
  /\ MonthlyOut.Month r = strftime_B m
  /\ MonthlyOut.Total_Downtime_Minutes r = total
  /\ MonthlyOut.Failure_Count r = count
  /\ (MonthlyOut.Avg_Downtime_Per_Failure r
      == inject_Z total / inject_Z count)%Q
  /\ month_length y m days
  /\ days = date_sub_days (next_month_first y m) (mkdate y m 1)
  /\ (MonthlyOut.Total_Broadcast_Minutes r == budget)%Q
  /\ (MonthlyOut.Availability r
      == 100 * (budget - inject_Z total) / budget)%Q.

(** The yearly summary the specification describes for the records [g] of
    year [y]. *)
Definition yearly_row_spec (y : Z) (g : list outage) (r : Yearly.row) : Prop :=
  let total := total_minutes g in
  let count := Z.of_nat (length g) in
  let budget := inject_Z (Yearly.Days_in_Year r * daily_budget) in
  Yearly.Year r = y
  /\ Yearly.Total_Downtime_Minutes r = total
  /\ Yearly.Failure_Count r = count
  /\ (Yearly.Avg_Downtime_Per_Failure r
      == inject_Z total / inject_Z count)%Q
  /\ is_max (Downtime_minutes <$> g) (Yearly.Max_Downtime r)
  /\ is_min (Downtime_minutes <$> g) (Yearly.Min_Downtime r)
  /\ (Yearly.Max_Downtime_hours r == inject_Z (Yearly.Max_Downtime r) / 60)%Q
  /\ (Yearly.Min_Downtime_hours r == inject_Z (Yearly.Min_Downtime r) / 60)%Q
  /\ (gregorian_leap y -> Yearly.Days_in_Year r = 366)
  /\ (~ gregorian_leap y -> Yearly.Days_in_Year r = 365)
  /\ (Yearly.Total_Broadcast_Minutes r == budget)%Q
  /\ (Yearly.Availability r == 100 * (budget - inject_Z total) / budget)%Q.

(** Order of dates, by (year, month number, day). *)
Definition date_le (a b : date) : Prop :=
  year a < year b
  \/ (year a = year b
      /\ (month_num (month a) < month_num (month b)
          \/ (month_num (month a) = month_num (month b) /\ day a <= day b))).

(** The rows of a log dated in year [y], on day [t] or earlier. *)
Definition dated_up_to (y : Z) (t : date) (row : outage) : Prop :=
  match Date row with
  | Some d => year d = y /\ date_le d t
  | None => False
  end.

#[global] Instance dated_up_to_dec (y : Z) (t : date) (row : outage) :
  Decision (dated_up_to y t row).
Proof. unfold dated_up_to, date_le. destruct (Date row); apply _. Defined.

Definition records_up_to (y : Z) (t : date) (df : DataFrame) : DataFrame :=
  filter (dated_up_to y t) df.

(** The summary object under ['ytd'], if there is one. *)
Definition ytd_object (s : summary_data) : option ytd_fields :=
  match ytd s with
  | Some (ytd_filled o) => Some o
  | Some ytd_empty | None => None
  end.

(** The rows of a log whose date parsed. *)
Definition parsed (df : DataFrame) : DataFrame :=
  filter (fun row => is_Some (Date row)) df.

(** The row the monthly aggregation computes for the records [g] of month
    [m] of year [y]. *)
Definition monthly_row_of (y : Z) (m : Month) (g : list dated) : Monthly.row :=
  let days := get_days_in_month y (month_num m) in
  {| Monthly.Year := y;
     Monthly.Month := strftime_B m;
     Monthly.Month_Num := month_num m;
     Monthly.Total_Downtime_Minutes := col_sum (col_Downtime g);
     Monthly.Failure_Count := col_count (col_Failure_Type g);
     Monthly.Avg_Downtime_Per_Failure :=
       (inject_Z (exact_sum (col_Downtime g)) / inject_Z (len g))%Q;
     Monthly.Days_in_Month := days;
     Monthly.Total_Broadcast_Minutes := broadcast_minutes days;
     Monthly.Availability :=
       availability_pct (broadcast_minutes days) (col_sum (col_Downtime g)) |}.

(** (year, month number) of a row of the monthly summary, before and after
    [Month_Num] is dropped. *)
Definition year_month_num (r : Monthly.row) : Z * Z :=
  (Monthly.Year r, Monthly.Month_Num r).

Definition year_month_of_name (r : MonthlyOut.row) : Z * Z :=
  (MonthlyOut.Year r, month_number_of_name (MonthlyOut.Month r)).

(** The row the yearly aggregation computes for the records [g] of year
    [y], given their largest and smallest downtime. *)
Definition yearly_row_of (y : Z) (g : list dated) (mx mn : Z) : Yearly.row :=
  let days := if Period_is_leap_year y then 366 else 365 in
  {| Yearly.Year := y;
     Yearly.Total_Downtime_Minutes := col_sum (col_Downtime g);
     Yearly.Failure_Count := col_count (col_Failure_Type g);
     Yearly.Avg_Downtime_Per_Failure :=
       (inject_Z (exact_sum (col_Downtime g)) / inject_Z (len g))%Q;
     Yearly.Max_Downtime := mx;
     Yearly.Min_Downtime := mn;
     Yearly.Days_in_Year := days;
     Yearly.Total_Broadcast_Minutes := broadcast_minutes days;
     Yearly.Availability :=
       availability_pct (broadcast_minutes days) (col_sum (col_Downtime g));
     Yearly.Max_Downtime_hours := (inject_Z mx / 60)%Q;
     Yearly.Min_Downtime_hours := (inject_Z mn / 60)%Q |}.

(** A log with one record of 60 minutes on 2024-02-15. *)
Definition log_feb_2024 : DataFrame :=
  [mkoutage (Some (mkdate 2024 February 15)) (mktime 9 0) (mktime 10 0) 60
            (Some "Power"%string) ""%string].

(** Two records of April 2024 and one of May 2024, in two orders. *)
Definition log_three : DataFrame :=
  [mkoutage (Some (mkdate 2024 May 15)) (mktime 9 0) (mktime 10 0) 60
            (Some "Power"%string) ""%string;
   mkoutage (Some (mkdate 2024 April 3)) (mktime 9 0) (mktime 9 30) 30
            (Some "Link"%string) ""%string;
   mkoutage (Some (mkdate 2024 April 3)) (mktime 11 0) (mktime 11 45) 45
            (Some "Audio"%string) ""%string].

(** The same three records after one of December 2023. *)
Definition log_two_years : DataFrame :=
  mkoutage (Some (mkdate 2023 December 30)) (mktime 20 0) (mktime 20 20) 20
           (Some "Power"%string) ""%string
  :: log_three.

Definition log_three_swapped : DataFrame :=
  [mkoutage (Some (mkdate 2024 April 3)) (mktime 9 0) (mktime 9 30) 30
            (Some "Link"%string) ""%string;
   mkoutage (Some (mkdate 2024 May 15)) (mktime 9 0) (mktime 10 0) 60
            (Some "Power"%string) ""%string;
   mkoutage (Some (mkdate 2024 April 3)) (mktime 11 0) (mktime 11 45) 45
            (Some "Audio"%string) ""%string].

(* ================================================================== *)
(** * More of the pages *)

(** Edit Records page, from the selected record to "Confirm Delete":
    the "Selected Record" panel, which raises [ValueError] for a row
    without a date, then [df.drop(actual_index).reset_index(drop=True)]. *)
Definition delete_submit (df : DataFrame) (actual_index : nat)
  : submit_result :=
  match df !! actual_index with
  | None => IndexError
  | Some selected_record =>
      match Date selected_record with
      | None => ValueError
      | Some _ => Saved (delete actual_index df)
      end
  end.

(** A frame with its index labels. *)
Definition indexed {A} (df : list A) : list (nat * A) :=
  imap (fun i row => (i, row)) df.

(** The sidebar filters; [None] stands for "All".  A row without a date
    passes neither comparison. *)
Definition year_is (y : Z) (row : outage) : bool :=
  match Date row with
  | Some d => year d =? y
  | None => false
  end.

Definition month_is (m : string) (row : outage) : bool :=
  match Date row with
  | Some d => (strftime_B (month d) =? m)%string
  | None => false
  end.

(** [filtered_df] of the Edit Records page, with the labels of [df]. *)
Definition filtered_view (year_filter : option Z) (month_filter : option string)
    (df : DataFrame) : list (nat * outage) :=
  let filtered_df := indexed df in
  let filtered_df :=
    match year_filter with
    | Some y => filter (fun p => Is_true (year_is y (snd p))) filtered_df
    | None => filtered_df
    end in
  match month_filter with
  | Some m => filter (fun p => Is_true (month_is m (snd p))) filtered_df
  | None => filtered_df
  end.

(** The Edit Records page from the row number typed in:
    [filtered_df.iloc[record_index]] selects the record, the label of that
    row is [actual_index], and the row of [df] at that position is the
    selected record.  From there on the page is [edit_submit] or
    [delete_submit]: the "Selected Record" panel, which raises for a row
    without a date, then the form or the button. *)
Definition edit_page_submit (year_filter : option Z)
    (month_filter : option string) (df : DataFrame) (record_index : nat)
    (f : form) : submit_result :=
  match filtered_view year_filter month_filter df !! record_index with
  | None => IndexError
  | Some (actual_index, selected_record) => edit_submit df actual_index f
  end.

Definition delete_page_submit (year_filter : option Z)
    (month_filter : option string) (df : DataFrame) (record_index : nat)
  : submit_result :=
  match filtered_view year_filter month_filter df !! record_index with
  | None => IndexError
  | Some (actual_index, selected_record) => delete_submit df actual_index
  end.

(** View Summary page: the monthly summary under the sidebar filters and
    the row shown as "Latest Month Performance", [monthly_summary.iloc[-1]]
    when the filtered summary is not empty. *)
Definition filtered_monthly (year_filter : option Z)
    (month_filter : option string) (monthly_summary : list MonthlyOut.row)
  : list MonthlyOut.row :=
  let monthly_summary :=
    match year_filter with
    | Some y => filter (fun r => MonthlyOut.Year r = y) monthly_summary
    | None => monthly_summary
    end in
  match month_filter with
  | Some m => filter (fun r => MonthlyOut.Month r = m) monthly_summary
  | None => monthly_summary
  end.

Definition latest_month (year_filter : option Z)
    (month_filter : option string) (monthly_summary : list MonthlyOut.row)
  : option MonthlyOut.row :=
  let monthly_summary :=
    filtered_monthly year_filter month_filter monthly_summary in
  if negb (empty monthly_summary) then last monthly_summary else None.

(* ================================================================== *)
(** * Invariants of the log *)

(** Minutes since midnight. *)
Definition minutes_of (t : time) : Z := hour t * 60 + minute t.

(** A date of the calendar. *)
Definition valid_date (d : date) : Prop :=
  1 <= day d <= get_days_in_month (year d) (month_num (month d)).

(** What the widgets deliver: a date of the calendar and two times of
    day. *)
Definition valid_form (f : form) : Prop :=
  valid_date (f_date f) /\ valid_time (f_start_time f)
  /\ valid_time (f_end_time f).

(** A row as the Log Outage handler writes it: dated, in order, inside the
    broadcast window, with the downtime of its two times. *)
Definition clean_row (row : outage) : Prop :=
  (exists d, Date row = Some d /\ valid_date d)
  /\ valid_time (Start_Time row) /\ valid_time (End_Time row)
  /\ 270 <= minutes_of (Start_Time row)
  /\ minutes_of (Start_Time row) < minutes_of (End_Time row)
  /\ minutes_of (End_Time row) <= 1320
  /\ Downtime_minutes row
     = minutes_of (End_Time row) - minutes_of (Start_Time row).

(** No two rows of a log overlap. *)
Inductive disjoint_log : DataFrame -> Prop :=
  | disjoint_nil : disjoint_log []
  | disjoint_cons (row : outage) (df : DataFrame) :
      Forall (fun other => ~ overlapping row other) df ->
      disjoint_log df -> disjoint_log (row :: df).

Definition clean_log (df : DataFrame) : Prop :=
  Forall clean_row df /\ disjoint_log df.

(** The logs that the Log Outage page and Confirm Delete build from the
    empty log.  After every save the script runs again and [load_data]
    sorts the rows by date, newest first: the log is then a permutation of
    the one saved. *)
Inductive built : DataFrame -> Prop :=
  | built_empty : built []
  | built_log (df df' : DataFrame) (f : form) :
      built df -> valid_form f -> log_submit df f = Saved df' -> built df'
  | built_delete (df df' : DataFrame) (i : nat) :
      built df -> delete_submit df i = Saved df' -> built df'
  | built_reload (df df' : DataFrame) :
      built df -> df ≡ₚ df' -> built df'.

(** Three forms: 09:00-10:00 and 10:00-10:30 on 15 February 2024, and
    09:00-09:20 on 16 February 2024; the log of the three records. *)
Definition form_morning : form :=
  mkform (mkdate 2024 February 15) (mktime 9 0) (mktime 10 0) "Power" "".

Definition form_next : form :=
  mkform (mkdate 2024 February 15) (mktime 10 0) (mktime 10 30) "Link" "".

Definition form_day_after : form :=
  mkform (mkdate 2024 February 16) (mktime 9 0) (mktime 9 20) "Audio" "".

Definition log_two_days : DataFrame :=
  [record_of form_morning; record_of form_next; record_of form_day_after].

(** A log with one record of 1 January 2024. *)
Definition log_january : DataFrame :=
  [record_of (mkform (mkdate 2024 January 1) (mktime 9 0) (mktime 10 0)
                     "Power" "")].

(** Half-open intervals of minutes that do not meet. *)
Definition apart (a b : Z * Z) : Prop := ~ (fst a < snd b /\ fst b < snd a).

Inductive pairwise_apart : list (Z * Z) -> Prop :=
  | apart_nil : pairwise_apart []
  | apart_cons (i : Z * Z) (l : list (Z * Z)) :
      Forall (apart i) l -> pairwise_apart l -> pairwise_apart (i :: l).

(** Sum of the lengths of a list of intervals. *)
Definition total_length (l : list (Z * Z)) : Z :=
  exact_sum ((fun i => snd i - fst i) <$> l).

(** The interval of minutes of a row. *)
Definition interval_of (row : outage) : Z * Z :=
  (minutes_of (Start_Time row), minutes_of (End_Time row)).

(** The rows of a log recorded for date [d]. *)
Definition on_date (d : date) (df : DataFrame) : DataFrame :=
  filter (fun row => Date row = Some d) df.

(** The twelve months. *)
Definition all_months : list Month :=
  [January; February; March; April; May; June;
   July; August; September; October; November; December].

(** Sum of a column of a list of rows. *)
Definition sum_over {A} (f : A -> Z) (l : list A) : Z := exact_sum (f <$> l).

(** 1 for a row with a failure type, 0 for a row without. *)
Definition typed_row (r : dated) : Z :=
  match Failure_Type (snd r) with Some _ => 1 | None => 0 end.

(** Year of a group key of the monthly summary. *)
Definition key_year (k : monthly_key) : Z := fst (fst k).

(** A row passes the two sidebar filters. *)
Definition passes_filters (year_filter : option Z)
    (month_filter : option string) (row : outage) : bool :=
  match year_filter with Some y => year_is y row | None => true end
  && match month_filter with Some m => month_is m row | None => true end.

(** The code points for which [str.isspace()] holds. *)
Definition white_space_code_points : list Z :=
  [9; 10; 11; 12; 13; 28; 29; 30; 31; 32; 133; 160; 5760;
   8192; 8193; 8194; 8195; 8196; 8197; 8198; 8199; 8200; 8201; 8202;
   8232; 8233; 8239; 8287; 12288].

(** UTF-8 encoding of a code point below U+10000, and of a sequence of
    code points. *)
Definition byte (n : Z) : ascii := ascii_of_nat (Z.to_nat n).

Definition utf8 (cp : Z) : string :=
  if cp <? 128 then String (byte cp) ""
  else if cp <? 2048 then
    String (byte (192 + cp / 64)) (String (byte (128 + cp mod 64)) "")
  else
    String (byte (224 + cp / 4096))
      (String (byte (128 + cp / 64 mod 64))
         (String (byte (128 + cp mod 64)) "")).

Definition encode (cps : list Z) : string :=
  foldr (fun cp s => (utf8 cp ++ s)%string) ""%string cps.

(** A string of white space only: the encoding of a sequence of white-space
    code points, the empty sequence included. *)
Definition blank (s : string) : Prop :=
  exists cps, Forall (fun cp => cp ∈ white_space_code_points) cps
              /\ s = encode cps.

(** The rest of a string after the white-space character it starts with,
    if it starts with one. *)
Definition skip_space (s : string) : option string :=
  match s with
  | EmptyString => None
  | String c1 s1 =>
      if isspace1 c1 then Some s1
      else
        match s1 with
        | EmptyString => None
        | String c2 s2 =>
            if isspace2 c1 c2 then Some s2
            else
              match s2 with
              | EmptyString => None
              | String c3 s3 => if isspace3 c1 c2 c3 then Some s3 else None
              end
        end
  end.

(** A row of the monthly summary passes the two sidebar filters. *)
Definition row_passes (year_filter : option Z) (month_filter : option string)
    (r : MonthlyOut.row) : Prop :=
  (forall y, year_filter = Some y -> MonthlyOut.Year r = y)
  /\ (forall m, month_filter = Some m -> MonthlyOut.Month r = m).

(** Days of a year. *)
Definition days_in_year (y : Z) : Z :=
  if Period_is_leap_year y then 366 else 365.

(** Closes an equivalence between equations of constructors and simple
    facts, after the case is fixed. *)
Ltac settle :=
  split; intros;
  repeat match goal with
    | H : _ /\ _ |- _ => destruct H
    | H : exists _, _ |- _ => destruct H
    end;
  try congruence; try discriminate;
  try (eexists; reflexivity);
  try (split; congruence);
  try match goal with H : ?x <> ?y |- _ => now destruct H end.

(** The 256 values of a byte, those that contradict [E] set aside. *)
Ltac split_byte c E :=
  destruct c as [[] [] [] [] [] [] [] []]; vm_compute in E;
  try discriminate E.

(* ================================================================== *)
(** * Calendar facts *)

Lemma land_3_mod_4 (y : Z) : Z.land y 3 = y mod 4.
Proof. change 3 with (Z.ones 2). now rewrite Z.land_ones by lia. Qed.

Lemma is_leapyear_py (y : Z) : is_leapyear y = py_is_leap y.
Proof. unfold is_leapyear, py_is_leap. now rewrite land_3_mod_4. Qed.

Lemma mod_0_divide (a b : Z) : b <> 0 -> (a mod b =? 0) = true <-> (b | a).
Proof. intros Hb. rewrite Z.eqb_eq. now apply Z.mod_divide. Qed.

Lemma is_leapyear_gregorian (y : Z) :
  is_leapyear y = true <-> gregorian_leap y.
Proof.
  unfold is_leapyear, gregorian_leap. rewrite land_3_mod_4.
  rewrite andb_true_iff, orb_true_iff, negb_true_iff.
  rewrite !mod_0_divide by lia.
  rewrite <- (mod_0_divide y 100) by lia.
  rewrite not_true_iff_false. tauto.
Qed.

Lemma days_before_year_succ (y : Z) :
  days_before_year (y + 1)
  = days_before_year y + (if py_is_leap y then 366 else 365).
Proof.
  unfold days_before_year, py_is_leap. cbn zeta.
  replace (y + 1 - 1) with y by lia.
  destruct (y mod 4 =? 0) eqn:E4; destruct (y mod 100 =? 0) eqn:E100;
    destruct (y mod 400 =? 0) eqn:E400; cbn [andb orb negb];
    rewrite ?Z.eqb_eq, ?Z.eqb_neq in *;
    Z.div_mod_to_equations; lia.
Qed.

(** The table of month lengths agrees with the day count between the first
    of a month and the first of the next. *)
Lemma get_days_in_month_ordinal (y : Z) (m : Month) :
  get_days_in_month y (month_num m)
  = date_sub_days (next_month_first y m) (mkdate y m 1).
Proof.
  unfold date_sub_days, toordinal, days_before_month, get_days_in_month.
  rewrite is_leapyear_py.
  destruct m; cbn [next_month_first year month day month_num DAYS_BEFORE_MONTH];
    try rewrite days_before_year_succ;
    generalize (days_before_year y); intros dby;
    destruct (py_is_leap y); vm_compute nth;
    cbn [Z.ltb Z.compare Pos.compare Pos.compare_cont andb]; lia.
Qed.

Lemma get_days_in_month_pos (y : Z) (m : Month) :
  28 <= get_days_in_month y (month_num m) <= 31.
Proof.
  unfold get_days_in_month.
  destruct (is_leapyear y); destruct m; vm_compute; intuition discriminate.
Qed.

(* ================================================================== *)
(** * Time of day: the boolean comparisons *)

Lemma time_ltb_lt (a b : time) : time_ltb a b = true <-> time_lt a b.
Proof. unfold time_ltb, time_lt. lia. Qed.

Lemma time_leb_le (a b : time) : time_leb a b = true <-> time_le a b.
Proof. unfold time_leb, time_le. lia. Qed.

Lemma time_leb_false_lt (a b : time) : time_leb a b = false <-> time_lt b a.
Proof. unfold time_leb, time_lt. lia. Qed.

(** On valid times the order is the order of the minutes since midnight. *)
Lemma time_lt_minutes (a b : time) :
  valid_time a -> valid_time b ->
  time_lt a b <-> hour a * 60 + minute a < hour b * 60 + minute b.
Proof. unfold valid_time, time_lt. lia. Qed.

Lemma time_le_minutes (a b : time) :
  valid_time a -> valid_time b ->
  time_le a b <-> hour a * 60 + minute a <= hour b * 60 + minute b.
Proof. unfold valid_time, time_le. lia. Qed.

(* ================================================================== *)
(** * Validation of a pair of times *)

Lemma validate_time_input_cases (s e : time) (d : date) :
  validate_time_input s e d
  = if time_leb e s then (false, "End time must be after start time")
    else if (hour s * 60 + minute s <? 270) || (1320 <? hour e * 60 + minute e)
         then (false,
               "Times must be within broadcast hours (4:30 AM - 10:00 PM)")
         else (true, "").
Proof. reflexivity. Qed.

(** C6. On times of day, [validate_time_input] accepts exactly the pairs
    with end after start, start not before 04:30 and end not after 22:00.
    The chronology test comes first: a pair with end at or before start
    gets the end-before-start message whatever its position in the window;
    a pair in the right order that starts before 04:30 or ends after 22:00
    gets the broadcast-hours message. *)
Theorem validate_time_input_spec (s e : time) (d : date) :
  valid_time s -> valid_time e ->
  (fst (validate_time_input s e d) = true
   <-> time_lt s e /\ time_le (mktime 4 30) s /\ time_le e (mktime 22 0))
  /\ (time_le e s ->
      validate_time_input s e d
      = (false, "End time must be after start time"%string))
  /\ (time_lt s e ->
      time_lt s (mktime 4 30) \/ time_lt (mktime 22 0) e ->
      validate_time_input s e d
      = (false,
         "Times must be within broadcast hours (4:30 AM - 10:00 PM)"%string))
  /\ (time_lt s e -> time_le (mktime 4 30) s -> time_le e (mktime 22 0) ->
      validate_time_input s e d = (true, ""%string)).
Proof.
  intros Hs He. rewrite validate_time_input_cases.
  assert (V430 : valid_time (mktime 4 30)) by (unfold valid_time; cbn; lia).
  assert (V22 : valid_time (mktime 22 0)) by (unfold valid_time; cbn; lia).
  rewrite (time_lt_minutes s e), (time_le_minutes e s),
    (time_le_minutes _ s), (time_le_minutes e _),
    (time_lt_minutes s _), (time_lt_minutes _ e) by assumption.
  cbn [hour minute].
  destruct (time_leb e s) eqn:Hc.
  - apply time_leb_le, time_le_minutes in Hc; [|assumption..].
    cbn [fst]. repeat split; intros; try reflexivity; try lia; discriminate.
  - apply time_leb_false_lt, time_lt_minutes in Hc; [|assumption..].
    destruct ((hour s * 60 + minute s <? 270)
              || (1320 <? hour e * 60 + minute e)) eqn:Hw; cbn [fst].
    + apply orb_true_iff in Hw. rewrite !Z.ltb_lt in Hw.
      repeat split; intros; try reflexivity; try lia; discriminate.
    + apply orb_false_iff in Hw. rewrite !Z.ltb_ge in Hw.
      repeat split; intros; try reflexivity; lia.
Qed.

(** 10:00 to 09:00 is rejected for its order although both times lie in the
    window; 04:00 to 05:00 and 21:00 to 22:30 are rejected for the window. *)
Lemma validate_time_input_examples (d : date) :
  validate_time_input (mktime 10 0) (mktime 9 0) d
  = (false, "End time must be after start time"%string)
  /\ validate_time_input (mktime 4 0) (mktime 5 0) d
     = (false,
        "Times must be within broadcast hours (4:30 AM - 10:00 PM)"%string)
  /\ validate_time_input (mktime 21 0) (mktime 22 30) d
     = (false,
        "Times must be within broadcast hours (4:30 AM - 10:00 PM)"%string)
  /\ validate_time_input (mktime 4 30) (mktime 22 0) d = (true, ""%string).
Proof. repeat split. Qed.

Lemma validate_time_input_spec_witness :
  valid_time (mktime 9 0) /\ valid_time (mktime 10 0)
  /\ (fst (validate_time_input (mktime 9 0) (mktime 10 0)
                               (mkdate 2024 February 15)) = true
      <-> time_lt (mktime 9 0) (mktime 10 0)
          /\ time_le (mktime 4 30) (mktime 9 0)
          /\ time_le (mktime 10 0) (mktime 22 0)).
Proof.
  assert (Hs : valid_time (mktime 9 0)) by (unfold valid_time; cbn; lia).
  assert (He : valid_time (mktime 10 0)) by (unfold valid_time; cbn; lia).
  split; [exact Hs | split; [exact He |]].
  exact (proj1 (validate_time_input_spec (mktime 9 0) (mktime 10 0)
                  (mkdate 2024 February 15) Hs He)).
Defined.

(* ================================================================== *)
(** * The overlap check *)

Lemma overlap_loop_true (s e : time) (rows : list outage) :
  overlap_loop s e rows = true
  <-> exists other, other ∈ rows
        /\ time_lt s (End_Time other) /\ time_lt (Start_Time other) e.
Proof.
  induction rows as [|r rows IH]; cbn [overlap_loop].
  - split; [discriminate | intros (o & Ho & _); inversion Ho].
  - destruct (time_ltb s (End_Time r) && time_ltb (Start_Time r) e) eqn:Hov.
    + split; [intros _ | reflexivity].
      apply andb_true_iff in Hov as [H1 H2].
      exists r. rewrite <- !time_ltb_lt. split; [left | auto].
    + rewrite IH. split.
      * intros (o & Ho & H). exists o. split; [now right | exact H].
      * intros (o & Ho & H1 & H2). apply elem_of_cons in Ho as [-> | Ho].
        -- apply time_ltb_lt in H1, H2. rewrite H1, H2 in Hov. discriminate.
        -- exists o. auto.
Qed.

Lemma check_duplicate_entry_true (df : DataFrame) (d : date) (s e : time) :
  check_duplicate_entry df d s e = true
  <-> exists other, other ∈ df /\ Date other = Some d
        /\ time_lt s (End_Time other) /\ time_lt (Start_Time other) e.
Proof.
  unfold check_duplicate_entry. destruct df as [|r df]; cbn [empty].
  - split; [discriminate | intros (o & Ho & _); inversion Ho].
  - rewrite overlap_loop_true. split.
    + intros (o & Ho & H). apply list_elem_of_filter in Ho as [Hd Ho]. eauto.
    + intros (o & Ho & Hd & H). exists o. split; [|exact H].
      apply list_elem_of_filter. auto.
Qed.

(** What the Log Outage handler does with a form that passes the first two
    validations. *)
Lemma log_submit_validated (df : DataFrame) (f : form) :
  fst (validate_required_fields (Some (f_date f)) (Some (f_start_time f))
         (Some (f_end_time f)) (Some (f_failure_type f))) = true ->
  fst (validate_time_input (f_start_time f) (f_end_time f) (f_date f)) = true ->
  log_submit df f
  = if check_duplicate_entry df (f_date f) (f_start_time f) (f_end_time f)
    then Duplicate_Entry
    else Saved (df ++ [record_of f]).
Proof.
  unfold log_submit. intros H1 H2.
  destruct (validate_required_fields _ _ _ _) as [b1 m1].
  destruct (validate_time_input _ _ _) as [b2 m2].
  cbn [fst] in *. subst. reflexivity.
Qed.

(** C5. [check_duplicate_entry] answers true exactly when some record of the
    log has the date of the new one and satisfies new.start < other.end and
    new.end > other.start, and the Log Outage handler rejects a validated
    form as a duplicate in exactly that case.  A new 10:00-10:30 next to an
    existing 09:00-10:00 of the same date is not an overlap, a new
    09:30-09:45 is, and a log with no record of the new date never
    conflicts. *)
Theorem check_duplicate_entry_spec (df : DataFrame) (d : date) (s e : time) :
  (check_duplicate_entry df d s e = true
   <-> exists other, other ∈ df /\ Date other = Some d
         /\ time_lt s (End_Time other) /\ time_lt (Start_Time other) e)
  /\ (forall f : form,
        f_date f = d -> f_start_time f = s -> f_end_time f = e ->
        fst (validate_required_fields (Some d) (Some s) (Some e)
               (Some (f_failure_type f))) = true ->
        fst (validate_time_input s e d) = true ->
        (log_submit df f = Duplicate_Entry
         <-> exists other, other ∈ df /\ Date other = Some d
               /\ time_lt s (End_Time other) /\ time_lt (Start_Time other) e))
  /\ (forall ft rk rk',
        let existing :=
          mkoutage (Some d) (mktime 9 0) (mktime 10 0) 60 ft rk in
        check_duplicate_entry [existing] d (mktime 10 0) (mktime 10 30)
        = false
        /\ check_duplicate_entry [existing] d (mktime 9 30) (mktime 9 45)
           = true
        /\ log_submit [existing]
             (mkform d (mktime 10 0) (mktime 10 30) "Power" rk')
           = Saved [existing;
                    mkoutage (Some d) (mktime 10 0) (mktime 10 30) 30
                             (Some "Power"%string) rk']
        /\ log_submit [existing]
             (mkform d (mktime 9 30) (mktime 9 45) "Power" rk')
           = Duplicate_Entry)
  /\ ((forall other, other ∈ df -> Date other <> Some d) ->
      check_duplicate_entry df d s e = false).
Proof.
  split; [apply check_duplicate_entry_true |].
  split; [| split].
  - intros f <- <- <- H1 H2. rewrite log_submit_validated by assumption.
    rewrite <- check_duplicate_entry_true.
    destruct (check_duplicate_entry _ _ _ _); split; congruence.
  - intros ft rk rk' existing.
    assert (Htouch : check_duplicate_entry [existing] d (mktime 10 0)
                       (mktime 10 30) = false).
    { apply not_true_iff_false. rewrite check_duplicate_entry_true.
      intros (o & Ho & _ & H1 & _).
      apply list_elem_of_singleton in Ho as ->.
      unfold time_lt in H1. cbn in H1. lia. }
    assert (Hin : check_duplicate_entry [existing] d (mktime 9 30)
                    (mktime 9 45) = true).
    { apply check_duplicate_entry_true. exists existing.
      split; [apply list_elem_of_singleton; reflexivity |].
      split; [reflexivity |]. unfold time_lt. cbn. lia. }
    repeat split; try assumption.
    + rewrite log_submit_validated by reflexivity.
      cbn [f_date f_start_time f_end_time]. now rewrite Htouch.
    + rewrite log_submit_validated by reflexivity.
      cbn [f_date f_start_time f_end_time]. now rewrite Hin.
  - intros Hno. apply not_true_iff_false. rewrite check_duplicate_entry_true.
    intros (o & Ho & Hd & _). exact (Hno o Ho Hd).
Qed.

(* ================================================================== *)
(** * The edit handler *)

(** The edit handler runs the required-field and the time validation of the
    Log Outage handler and then stores the record. *)
Lemma edit_submit_cases (df : DataFrame) (i : nat) (f : form) :
  (exists r d, df !! i = Some r /\ Date r = Some d) ->
  edit_submit df i f
  = let required :=
      validate_required_fields (Some (f_date f)) (Some (f_start_time f))
        (Some (f_end_time f)) (Some (f_failure_type f)) in
    let times :=
      validate_time_input (f_start_time f) (f_end_time f) (f_date f) in
    if negb (fst required) then Validation_Error (snd required)
    else if negb (fst times) then Validation_Error (snd times)
    else Saved (<[i := record_of f]> df).
Proof.
  intros (r & d & Hr & Hd). unfold edit_submit. rewrite Hr, Hd.
  destruct (validate_required_fields _ _ _ _) as [b1 m1].
  destruct (validate_time_input _ _ _) as [b2 m2]. reflexivity.
Qed.

(** It never answers "duplicate": [check_duplicate_entry] is not called. *)
Lemma edit_submit_never_duplicate (df : DataFrame) (i : nat) (f : form) :
  edit_submit df i f <> Duplicate_Entry.
Proof.
  unfold edit_submit. destruct (df !! i) as [r|]; [|discriminate].
  destruct (Date r); [|discriminate].
  destruct (validate_required_fields _ _ _ _) as [[] m1]; cbn [negb];
    [|discriminate].
  destruct (validate_time_input _ _ _) as [[] m2]; discriminate.
Qed.

(** C7. A log with 09:00-10:00 and 11:00-12:00 on the same date, and the
    second record edited to 09:30-09:45: against the rest of the log the
    overlap check finds a conflict, and the Log Outage handler rejects the
    same form on that rest, but the edit handler stores the record, which
    then overlaps the first one. *)
Theorem edit_submit_accepts_overlap :
  let D := mkdate 2024 February 15 in
  let A := mkoutage (Some D) (mktime 9 0) (mktime 10 0) 60
                    (Some "Power"%string) ""%string in
  let B := mkoutage (Some D) (mktime 11 0) (mktime 12 0) 60
                    (Some "Link"%string) ""%string in
  let f := mkform D (mktime 9 30) (mktime 9 45) "Link" "" in
  check_duplicate_entry (others [A; B] 1) D (mktime 9 30) (mktime 9 45) = true
  /\ log_submit (others [A; B] 1) f = Duplicate_Entry
  /\ edit_submit [A; B] 1 f = Saved [A; record_of f]
  /\ overlapping A (record_of f).
Proof.
  cbv zeta. split; [reflexivity |]. split; [reflexivity |].
  split; [reflexivity |].
  split; [eexists; split; reflexivity |].
  split; exact I.
Qed.

(* ================================================================== *)
(** * The early returns of the aggregator *)

Lemma dropna_Date_all_None (df : DataFrame) :
  Forall (fun row => Date row = None) df -> dropna_Date df = [].
Proof.
  induction 1 as [|r df Hr _ IH]; [reflexivity |].
  unfold dropna_Date in *. cbn [omap list_omap]. now rewrite Hr.
Qed.

Lemma build_no_parsed_date (year_now : Z) (today : date) (df : DataFrame) :
  dropna_Date df = [] ->
  build_comprehensive_summary year_now today df
  = {| monthly := []; yearly := []; ytd := None |}.
Proof.
  intros H. unfold build_comprehensive_summary. rewrite H.
  now destruct (empty df).
Qed.

Lemma build_parsed_date (year_now : Z) (today : date) (df : DataFrame) :
  dropna_Date df <> [] ->
  build_comprehensive_summary year_now today df
  = {| monthly := monthly_summary (dropna_Date df);
       yearly := yearly_summary (dropna_Date df);
       ytd := Some (ytd_of year_now today (dropna_Date df)) |}.
Proof.
  intros H. unfold build_comprehensive_summary.
  destruct df as [|r df]; [now destruct H |]. cbn [empty].
  destruct (dropna_Date (r :: df)); [now destruct H | reflexivity].
Qed.

(** C8. For the empty log the aggregator returns, without an error, an
    empty monthly summary, an empty yearly summary and no year-to-date
    summary object; the pages show it as "No data" in the sidebar and as no
    projection on the View Summary page. *)
Theorem build_empty_summary (year_now : Z) (today : date) :
  let s := build_comprehensive_summary year_now today [] in
  monthly s = []
  /\ yearly s = []
  /\ ytd_object s = None
  /\ sidebar_status year_now today [] = Returns No_data
  /\ view_summary_projection year_now today [] = Returns None.
Proof. repeat split. Qed.

(** A log with parsed dates but none in the selection has the empty dict
    under ['ytd'], which the sidebar shows as "No YTD data". *)
Lemma sidebar_no_ytd_data (year_now : Z) (today : date) (df : DataFrame) :
  dropna_Date df <> [] ->
  ytd_select year_now today (dropna_Date df) = [] ->
  sidebar_status year_now today df = Returns No_YTD_data.
Proof.
  intros Hne Hsel. unfold sidebar_status.
  rewrite build_parsed_date by assumption.
  destruct df as [|r df]; [now destruct Hne |]. cbn [empty negb].
  unfold subscript_ytd, ytd_of. cbn [ytd]. now rewrite Hsel.
Qed.

(** A log whose dates all fail to parse takes the sidebar to [KeyError]. *)
Lemma sidebar_all_malformed (year_now : Z) (today : date) (df : DataFrame) :
  df <> [] -> Forall (fun row => Date row = None) df ->
  sidebar_status year_now today df = KeyError "ytd".
Proof.
  intros Hne Hall. unfold sidebar_status.
  rewrite build_no_parsed_date by now apply dropna_Date_all_None.
  destruct df; [now destruct Hne | reflexivity].
Qed.

(* ================================================================== *)
(** * The full-year projection *)

(** C4. For a YTD summary with fewer than 365 elapsed days the page projects
    remaining = (downtime / days_elapsed) * (365 - days_elapsed),
    total = downtime + remaining and
    availability = 100 * (365 * 1050 - total) / (365 * 1050); the year of the
    summary plays no part, so a leap year is projected on 365 days too.
    With 365 or more elapsed days there is no projection. *)
Theorem project_full_year_spec (s : ytd_fields) :
  (days_elapsed s < 365 ->
   exists p, project_full_year s = Some p
     /\ (projected_remaining_downtime p
         == inject_Z (total_downtime_minutes s) / inject_Z (days_elapsed s)
            * (365 - inject_Z (days_elapsed s)))%Q
     /\ (projected_total_downtime p
         == inject_Z (total_downtime_minutes s)
            + projected_remaining_downtime p)%Q
     /\ (projected_availability p
         == 100 * (365 * 1050 - projected_total_downtime p) / (365 * 1050))%Q)
  /\ (365 <= days_elapsed s -> project_full_year s = None).
Proof.
  unfold project_full_year. split.
  - intros H. apply Z.ltb_lt in H. rewrite H. eexists. split; [reflexivity |].
    cbn [projected_remaining_downtime projected_total_downtime
         projected_availability].
    split; [| split].
    + unfold Z.sub. rewrite inject_Z_plus, inject_Z_opp.
      unfold Qdiv. change (inject_Z 365) with 365%Q. ring.
    + reflexivity.
    + unfold BROADCAST_HOURS_PER_DAY, Qdiv.
      assert (E : (365 * 17.5 * 60 == 365 * 1050)%Q) by reflexivity.
      rewrite E. ring.
  - intros H. apply Z.ltb_ge in H. now rewrite H.
Qed.

(* ================================================================== *)
(** * Column aggregations *)

Lemma exact_sum_Permutation (l l' : list Z) :
  l ≡ₚ l' -> exact_sum l = exact_sum l'.
Proof.
  unfold exact_sum. induction 1; cbn [foldr]; lia || congruence.
Qed.


(** Inside the int64 range nothing wraps. *)
Lemma wrap64_small (x : Z) : - 2 ^ 63 <= x < 2 ^ 63 -> wrap64 x = x.
Proof.
  intros H. unfold wrap64. rewrite Z.mod_small; lia.
Qed.

(** Two cells of 2^62 minutes: the "sum" is -2^63. *)
Lemma col_sum_wraps : col_sum [2 ^ 62; 2 ^ 62] = - 2 ^ 63.
Proof. reflexivity. Qed.


Lemma col_mean_Some (l : list Z) (q : Q) :
  col_mean l = Some q ->
  l <> [] /\ q = (inject_Z (exact_sum l) / inject_Z (len l))%Q.
Proof.
  destruct l; [discriminate |]. cbn [col_mean]. intros [= <-].
  split; [discriminate | reflexivity].
Qed.

Lemma col_mean_nonempty (l : list Z) :
  l <> [] -> col_mean l = Some (inject_Z (exact_sum l) / inject_Z (len l))%Q.
Proof. destruct l; [congruence | reflexivity]. Qed.


Lemma foldr_max_is_max (x : Z) (xs : list Z) :
  is_max (x :: xs) (foldr Z.max x xs).
Proof.
  induction xs as [|y ys [IHin IHle]]; cbn [foldr].
  - split; [left |]. intros z Hz. apply list_elem_of_singleton in Hz. lia.
  - split.
    + destruct (Z.max_spec y (foldr Z.max x ys)) as [[_ ->] | [_ ->]].
      * apply elem_of_cons in IHin as [-> | Hin]; [left | right; now right].
      * right; left.
    + intros z Hz. apply elem_of_cons in Hz as [-> | Hz].
      * specialize (IHle x ltac:(left)). lia.
      * apply elem_of_cons in Hz as [-> | Hz]; [lia |].
        specialize (IHle z ltac:(now right)). lia.
Qed.

Lemma foldr_min_is_min (x : Z) (xs : list Z) :
  is_min (x :: xs) (foldr Z.min x xs).
Proof.
  induction xs as [|y ys [IHin IHle]]; cbn [foldr].
  - split; [left |]. intros z Hz. apply list_elem_of_singleton in Hz. lia.
  - split.
    + destruct (Z.min_spec y (foldr Z.min x ys)) as [[_ ->] | [_ ->]].
      * right; left.
      * apply elem_of_cons in IHin as [-> | Hin]; [left | right; now right].
    + intros z Hz. apply elem_of_cons in Hz as [-> | Hz].
      * specialize (IHle x ltac:(left)). lia.
      * apply elem_of_cons in Hz as [-> | Hz]; [lia |].
        specialize (IHle z ltac:(now right)). lia.
Qed.

Lemma col_max_Some (l : list Z) (m : Z) : col_max l = Some m <-> is_max l m.
Proof.
  destruct l as [|x xs]; cbn [col_max].
  - split; [discriminate | intros [H _]; inversion H].
  - pose proof (foldr_max_is_max x xs) as [Hin Hle]. split.
    + intros [= <-]. now split.
    + intros [Hin' Hle']. f_equal.
      specialize (Hle _ Hin'). specialize (Hle' _ Hin). lia.
Qed.

Lemma col_min_Some (l : list Z) (m : Z) : col_min l = Some m <-> is_min l m.
Proof.
  destruct l as [|x xs]; cbn [col_min].
  - split; [discriminate | intros [H _]; inversion H].
  - pose proof (foldr_min_is_min x xs) as [Hin Hle]. split.
    + intros [= <-]. now split.
    + intros [Hin' Hle']. f_equal.
      specialize (Hle _ Hin'). specialize (Hle' _ Hin). lia.
Qed.






(** On a column without empty cells "count" is the number of rows. *)
Lemma col_count_all_Some {A} (l : list (option A)) :
  Forall is_Some l -> col_count l = len l.
Proof.
  unfold col_count, len. intros H. f_equal. f_equal.
  induction H as [|c l Hc _ IH]; [reflexivity |].
  rewrite filter_cons_True by exact Hc. now rewrite IH.
Qed.

Lemma col_count_le_len {A} (l : list (option A)) :
  0 <= col_count l <= len l.
Proof.
  unfold col_count, len. pose proof (length_filter (fun c : option A => is_Some c) l).
  lia.
Qed.

Lemma len_fmap {A B} (f : A -> B) (l : list A) : len (f <$> l) = len l.
Proof. unfold len. now rewrite length_fmap. Qed.

(* ================================================================== *)
(** * groupby *)

Section groupby_facts.
Context {R K : Type} `{EqDecision K}.
Variable leb : K -> K -> bool.
Variable key : R -> K.
Local Abbreviation le := (fun a b : K => Is_true (leb a b)).
Hypothesis le_trans : Transitive le.
Hypothesis le_total : Total le.
Hypothesis le_antisym : AntiSymm (=) le.

Lemma elem_of_group_keys (df : list R) (k : K) :
  k ∈ group_keys leb key df <-> exists r, r ∈ df /\ key r = k.
Proof.
  unfold group_keys. rewrite merge_sort_Permutation, elem_of_remove_dups.
  rewrite list_elem_of_fmap. split; intros (r & H1 & H2); eauto.
Qed.

Lemma NoDup_group_keys (df : list R) : NoDup (group_keys leb key df).
Proof.
  unfold group_keys. rewrite merge_sort_Permutation.
  apply NoDup_remove_dups.
Qed.

Lemma group_keys_sorted (df : list R) :
  StronglySorted le (group_keys leb key df).
Proof. unfold group_keys. now apply StronglySorted_merge_sort. Qed.



Lemma get_group_nonempty (df : list R) (k : K) :
  k ∈ group_keys leb key df <-> get_group key df k <> [].
Proof.
  rewrite elem_of_group_keys. unfold get_group. split.
  - intros (r & Hr & Hk) Hnil.
    assert (Hin : r ∈ filter (fun r => key r = k) df)
      by (apply list_elem_of_filter; auto).
    rewrite Hnil in Hin. inversion Hin.
  - intros Hne. destruct (filter (fun r => key r = k) df) as [|r g] eqn:E;
      [congruence |].
    assert (Hin : r ∈ filter (fun r => key r = k) df)
      by (rewrite E; left).
    apply list_elem_of_filter in Hin as [Hk Hin]. eauto.
Qed.

Lemma elem_of_groupby (df : list R) (k : K) (g : list R) :
  (k, g) ∈ groupby leb key df
  <-> g = get_group key df k /\ g <> [].
Proof.
  unfold groupby. rewrite list_elem_of_fmap. split.
  - intros (k' & [= -> ->] & Hk). split; [reflexivity |].
    now apply get_group_nonempty.
  - intros [-> Hne]. exists k. split; [reflexivity |].
    now apply get_group_nonempty.
Qed.


(** An aggregation that answers for every non-empty group gives one row
    per key, in the order of the keys. *)
Lemma groupby_agg_keys {O} (agg : K * list R -> option O) (okey : O -> K)
    (df : list R) :
  (forall k g, g <> [] -> exists o, agg (k, g) = Some o /\ okey o = k) ->
  okey <$> omap agg (groupby leb key df) = group_keys leb key df.
Proof.
  intros Hagg. unfold groupby.
  assert (Hall : forall k, k ∈ group_keys leb key df ->
                           get_group key df k <> [])
    by (intros k; apply get_group_nonempty).
  induction (group_keys leb key df) as [|k ks IH]; [reflexivity |].
  cbn [fmap list_fmap omap list_omap].
  destruct (Hagg k (get_group key df k)) as (o & -> & Ho);
    [apply Hall; left |].
  cbn [fmap list_fmap]. rewrite Ho. f_equal. apply IH.
  intros k' Hk'. apply Hall. now right.
Qed.

Lemma elem_of_groupby_agg {O} (agg : K * list R -> option O) (df : list R)
    (o : O) :
  o ∈ omap agg (groupby leb key df)
  <-> exists k, get_group key df k <> []
        /\ agg (k, get_group key df k) = Some o.
Proof.
  rewrite list_elem_of_omap. split.
  - intros ([k g] & Hin & Ho). apply elem_of_groupby in Hin as [-> Hne].
    eauto.
  - intros (k & Hne & Ho). exists (k, get_group key df k).
    split; [now apply elem_of_groupby | exact Ho].
Qed.
End groupby_facts.

(** A list sorted by a preorder whose keys are pairwise different is
    sorted by the strict order. *)
Lemma StronglySorted_strict {A B} (R R' : relation A) (f : A -> B)
    (l : list A) :
  (forall x y, R x y -> f x <> f y -> R' x y) ->
  StronglySorted R l -> NoDup (f <$> l) -> StronglySorted R' l.
Proof.
  intros Hs. induction 1 as [|x l Hl IH Hx]; intros Hnd; [constructor |].
  cbn [fmap list_fmap] in Hnd. apply NoDup_cons in Hnd as [Hnin Hnd].
  constructor; [now apply IH |].
  rewrite Forall_forall in *. intros y Hy. apply Hs; [now apply Hx |].
  intros E. apply Hnin. rewrite E. now apply list_elem_of_fmap_2.
Qed.

(* ================================================================== *)
(** * The orders behind the two groupbys and the sort *)

Lemma string_compare_refl (s : string) : String_as_OT.compare s s = Eq.
Proof.
  destruct (String_as_OT.compare_spec s s) as [_ | H | H];
    [reflexivity | |]; now apply irreflexivity in H.
Qed.

Lemma string_compare_Eq (s t : string) :
  String_as_OT.compare s t = Eq -> s = t.
Proof.
  intros E. destruct (String_as_OT.compare_spec s t); congruence.
Qed.

Lemma string_compare_Lt_Gt (s t : string) :
  String_as_OT.compare s t = Lt -> String_as_OT.compare t s = Gt.
Proof.
  intros E. destruct (String_as_OT.compare_spec t s) as [-> | H | H];
    [| exfalso | reflexivity].
  - now rewrite string_compare_refl in E.
  - apply (irreflexivity String_as_OT.lt s). now transitivity t.
Qed.

Lemma string_compare_Gt_Lt (s t : string) :
  String_as_OT.compare s t = Gt -> String_as_OT.compare t s = Lt.
Proof.
  intros E. destruct (String_as_OT.compare_spec s t) as [-> | H | H];
    [| | exact H]; discriminate.
Qed.

Lemma string_compare_Lt_trans (s t u : string) :
  String_as_OT.compare s t = Lt -> String_as_OT.compare t u = Lt ->
  String_as_OT.compare s u = Lt.
Proof. intros H1 H2. change (String_as_OT.lt s u). now transitivity t. Qed.

#[local] Instance monthly_key_le_total :
  Total (fun a b => Is_true (monthly_key_leb a b)).
Proof.
  intros [[y1 m1] n1] [[y2 m2] n2]. cbn [monthly_key_leb].
  rewrite (Z.compare_antisym y1 y2).
  destruct (y1 ?= y2); cbn [CompOpp]; [| now left | now right].
  destruct (String_as_OT.compare m1 m2) eqn:E.
  - apply string_compare_Eq in E as ->. rewrite string_compare_refl.
    rewrite !Is_true_true, !Z.leb_le. lia.
  - now left.
  - right. now rewrite (string_compare_Gt_Lt _ _ E).
Qed.

#[local] Instance monthly_key_le_trans :
  Transitive (fun a b => Is_true (monthly_key_leb a b)).
Proof.
  intros [[y1 m1] n1] [[y2 m2] n2] [[y3 m3] n3]. cbn [monthly_key_leb].
  destruct (Z.compare_spec y1 y2) as [-> | H12 | H12]; [| | contradiction].
  - destruct (y2 ?= y3); [| trivial | trivial].
    destruct (String_as_OT.compare m1 m2) eqn:E12; [| | contradiction].
    + apply string_compare_Eq in E12 as ->.
      destruct (String_as_OT.compare m2 m3); [| trivial | trivial].
      rewrite !Is_true_true, !Z.leb_le. lia.
    + destruct (String_as_OT.compare m2 m3) eqn:E23; [| | contradiction].
      * apply string_compare_Eq in E23 as ->. now rewrite E12.
      * now rewrite (string_compare_Lt_trans _ _ _ E12 E23).
  - intros _. destruct (Z.compare_spec y2 y3) as [-> | H23 | H23];
      [| | contradiction].
    + apply Z.compare_lt_iff in H12. now rewrite H12.
    + intros _. assert (H13 : y1 < y3) by lia.
      apply Z.compare_lt_iff in H13. now rewrite H13.
Qed.

#[local] Instance monthly_key_le_antisym :
  AntiSymm (=) (fun a b => Is_true (monthly_key_leb a b)).
Proof.
  intros [[y1 m1] n1] [[y2 m2] n2]. cbn [monthly_key_leb].
  rewrite (Z.compare_antisym y1 y2).
  destruct (Z.compare_spec y1 y2) as [-> | H | H]; cbn [CompOpp];
    [| contradiction | intros []].
  destruct (String_as_OT.compare m1 m2) eqn:E.
  - apply string_compare_Eq in E as ->. rewrite string_compare_refl.
    rewrite !Is_true_true, !Z.leb_le. intros. f_equal. lia.
  - now rewrite (string_compare_Lt_Gt _ _ E).
  - intros [].
Qed.

#[local] Instance Zleb_total : Total (fun a b => Is_true (Z.leb a b)).
Proof. intros a b. rewrite !Is_true_true, !Z.leb_le. lia. Qed.

#[local] Instance Zleb_trans : Transitive (fun a b => Is_true (Z.leb a b)).
Proof. intros a b c. rewrite !Is_true_true, !Z.leb_le. lia. Qed.

#[local] Instance Zleb_antisym :
  AntiSymm (=) (fun a b => Is_true (Z.leb a b)).
Proof. intros a b. rewrite !Is_true_true, !Z.leb_le. lia. Qed.

Lemma by_Year_Month_Num_le (a b : Monthly.row) :
  Is_true (by_Year_Month_Num a b)
  <-> Monthly.Year a < Monthly.Year b
      \/ (Monthly.Year a = Monthly.Year b
          /\ Monthly.Month_Num a <= Monthly.Month_Num b).
Proof.
  unfold by_Year_Month_Num.
  destruct (Z.compare_spec (Monthly.Year a) (Monthly.Year b)) as [E | L | G].
  - rewrite Is_true_true, Z.leb_le. lia.
  - split; [left; exact L | intros _; exact I].
  - split; [intros [] | lia].
Qed.

#[local] Instance by_Year_Month_Num_total :
  Total (fun a b => Is_true (by_Year_Month_Num a b)).
Proof. intros a b. rewrite !by_Year_Month_Num_le. lia. Qed.

#[local] Instance by_Year_Month_Num_trans :
  Transitive (fun a b => Is_true (by_Year_Month_Num a b)).
Proof. intros a b c. rewrite !by_Year_Month_Num_le. lia. Qed.

(* ================================================================== *)
(** * Budget and availability *)

Lemma broadcast_minutes_budget (days : Z) :
  (broadcast_minutes days == inject_Z (days * daily_budget))%Q.
Proof.
  unfold broadcast_minutes, BROADCAST_HOURS_PER_DAY, daily_budget.
  rewrite inject_Z_mult. change (inject_Z 1050) with 1050%Q.
  assert (E : (17.5 * 60 == 1050)%Q) by reflexivity.
  rewrite <- E. ring.
Qed.

Lemma availability_pct_formula (budget budget' : Q) (total : Z) :
  (budget == budget')%Q ->
  (availability_pct budget total
   == 100 * (budget' - inject_Z total) / budget')%Q.
Proof.
  intros E. unfold availability_pct. rewrite E. unfold Qdiv. ring.
Qed.

(* ================================================================== *)
(** * The monthly summary *)

Lemma month_num_inj (m m' : Month) : month_num m = month_num m' -> m = m'.
Proof. destruct m, m'; cbn; congruence. Qed.

Lemma strftime_B_inj (m m' : Month) : strftime_B m = strftime_B m' -> m = m'.
Proof. destruct m, m'; cbn; congruence. Qed.

Lemma month_number_of_name_strftime_B (m : Month) :
  month_number_of_name (strftime_B m) = month_num m.
Proof. now destruct m. Qed.

Lemma monthly_key_of_eq (r : dated) (y : Z) (m : Month) :
  monthly_key_of r = (y, strftime_B m, month_num m)
  <-> year (fst r) = y /\ month (fst r) = m.
Proof.
  unfold monthly_key_of, col_Year, col_Month, col_Month_Num. split.
  - intros [= Hy _ Hm]. split; [exact Hy | now apply month_num_inj].
  - now intros [-> ->].
Qed.

Lemma get_group_in_month (df_copy : list dated) (y : Z) (m : Month) :
  get_group monthly_key_of df_copy (y, strftime_B m, month_num m)
  = in_month y m df_copy.
Proof.
  unfold get_group, in_month. apply list_filter_iff.
  intros r. apply monthly_key_of_eq.
Qed.

(** A key with a non-empty group is the key of a month. *)
Lemma monthly_group_key (df_copy : list dated) (k : monthly_key) :
  get_group monthly_key_of df_copy k <> [] ->
  exists y m, k = (y, strftime_B m, month_num m).
Proof.
  intros Hne. unfold get_group in Hne.
  destruct (filter _ df_copy) as [|r g] eqn:E; [congruence |].
  assert (Hin : r ∈ filter (fun r => monthly_key_of r = k) df_copy)
    by (rewrite E; left).
  apply list_elem_of_filter in Hin as [<- _].
  exists (year (fst r)), (month (fst r)). reflexivity.
Qed.

Lemma col_Downtime_nonempty (g : list dated) :
  g <> [] -> col_Downtime g <> [].
Proof. destruct g; [congruence | discriminate]. Qed.

Lemma monthly_agg_Some (y n : Z) (m : string) (g : list dated) :
  g <> [] ->
  monthly_agg ((y, m, n), g)
  = Some {| Monthly.Year := y;
            Monthly.Month := m;
            Monthly.Month_Num := n;
            Monthly.Total_Downtime_Minutes := col_sum (col_Downtime g);
            Monthly.Failure_Count := col_count (col_Failure_Type g);
            Monthly.Avg_Downtime_Per_Failure :=
              (inject_Z (exact_sum (col_Downtime g)) / inject_Z (len g))%Q;
            Monthly.Days_in_Month := get_days_in_month y n;
            Monthly.Total_Broadcast_Minutes :=
              broadcast_minutes (get_days_in_month y n);
            Monthly.Availability :=
              availability_pct (broadcast_minutes (get_days_in_month y n))
                               (col_sum (col_Downtime g)) |}.
Proof.
  intros Hne. unfold monthly_agg.
  rewrite col_mean_nonempty by now apply col_Downtime_nonempty.
  cbn [mbind option_bind]. unfold col_Downtime. now rewrite len_fmap.
Qed.

Lemma elem_of_monthly_rows (df_copy : list dated) (r : Monthly.row) :
  r ∈ monthly_rows df_copy
  <-> exists y m, in_month y m df_copy <> []
        /\ r = monthly_row_of y m (in_month y m df_copy).
Proof.
  unfold monthly_rows. rewrite elem_of_groupby_agg. split.
  - intros (k & Hne & Hr).
    destruct (monthly_group_key _ _ Hne) as (y & m & ->).
    rewrite monthly_agg_Some in Hr by exact Hne.
    rewrite get_group_in_month in *. injection Hr as <-. eauto.
  - intros (y & m & Hne & ->). exists (y, strftime_B m, month_num m).
    rewrite get_group_in_month. split; [exact Hne |].
    now rewrite monthly_agg_Some.
Qed.

Lemma monthly_rows_keys (df_copy : list dated) :
  monthly_row_key <$> monthly_rows df_copy
  = group_keys monthly_key_leb monthly_key_of df_copy.
Proof.
  unfold monthly_rows. apply groupby_agg_keys.
  intros [[y m] n] g Hne. rewrite monthly_agg_Some by exact Hne.
  eexists. split; reflexivity.
Qed.

Lemma NoDup_monthly_rows_year_month (df_copy : list dated) :
  NoDup (year_month_num <$> monthly_rows df_copy).
Proof.
  apply NoDup_fmap_2_strong.
  - intros r r' Hr Hr' E.
    apply elem_of_monthly_rows in Hr as (y & m & _ & ->).
    apply elem_of_monthly_rows in Hr' as (y' & m' & _ & ->).
    unfold year_month_num in E. cbn in E. injection E as -> Hm.
    apply month_num_inj in Hm as ->. reflexivity.
  - apply (NoDup_fmap_1 monthly_row_key). rewrite monthly_rows_keys.
    apply NoDup_group_keys.
Qed.

Lemma elem_of_monthly_sorted (df_copy : list dated) (r : Monthly.row) :
  r ∈ monthly_sorted df_copy <-> r ∈ monthly_rows df_copy.
Proof. unfold monthly_sorted. now rewrite merge_sort_Permutation. Qed.

(** After [sort_values] the rows ascend strictly by (Year, Month_Num). *)
Lemma monthly_sorted_strict (df_copy : list dated) :
  StronglySorted ym_lt (year_month_num <$> monthly_sorted df_copy).
Proof.
  apply (StronglySorted_fmap _
           (fun a b => ym_lt (year_month_num a) (year_month_num b))).
  - auto.
  - apply (StronglySorted_strict
             (fun a b => Is_true (by_Year_Month_Num a b)) _ year_month_num).
    + intros a b Hle Hne. apply by_Year_Month_Num_le in Hle.
      unfold ym_lt, year_month_num in *. cbn [fst snd].
      destruct Hle as [Hlt | [Hy Hn]]; [now left | right].
      split; [exact Hy |].
      destruct (Z.eq_dec (Monthly.Month_Num a) (Monthly.Month_Num b));
        [congruence | lia].
    + unfold monthly_sorted. now apply StronglySorted_merge_sort; apply _.
    + unfold monthly_sorted. rewrite merge_sort_Permutation.
      apply NoDup_monthly_rows_year_month.
Qed.

Lemma elem_of_monthly_summary (df_copy : list dated) (r : MonthlyOut.row) :
  r ∈ monthly_summary df_copy
  <-> exists y m, in_month y m df_copy <> []
        /\ r = drop_Month_Num (monthly_row_of y m (in_month y m df_copy)).
Proof.
  unfold monthly_summary. rewrite list_elem_of_fmap. split.
  - intros (r' & -> & Hr'). apply elem_of_monthly_sorted in Hr'.
    apply elem_of_monthly_rows in Hr' as (y & m & Hne & ->). eauto.
  - intros (y & m & Hne & ->). eexists. split; [reflexivity |].
    apply elem_of_monthly_sorted, elem_of_monthly_rows. eauto.
Qed.

(** The returned rows ascend strictly by (year, month number). *)
Lemma monthly_summary_sorted (df_copy : list dated) :
  StronglySorted ym_lt (year_month_of_name <$> monthly_summary df_copy).
Proof.
  unfold monthly_summary. rewrite <- list_fmap_compose.
  replace (year_month_of_name ∘ drop_Month_Num <$> monthly_sorted df_copy)
    with (year_month_num <$> monthly_sorted df_copy);
    [apply monthly_sorted_strict |].
  apply Forall_fmap_ext, Forall_forall. intros r Hr.
  apply elem_of_monthly_sorted, elem_of_monthly_rows in Hr
    as (y & m & _ & ->).
  unfold year_month_num, year_month_of_name, compose. cbn.
  now rewrite month_number_of_name_strftime_B.
Qed.

Lemma build_monthly (year_now : Z) (today : date) (df : DataFrame) :
  monthly (build_comprehensive_summary year_now today df)
  = monthly_summary (dropna_Date df).
Proof.
  destruct (dropna_Date df) as [|r l] eqn:E.
  - now rewrite build_no_parsed_date.
  - rewrite build_parsed_date by congruence. now rewrite E.
Qed.

Lemma dropna_Date_typed (df : DataFrame) :
  all_typed df ->
  Forall (fun r : dated => is_Some (Failure_Type (snd r))) (dropna_Date df).
Proof.
  unfold all_typed, dropna_Date. intros H. apply Forall_forall. intros r Hr.
  apply list_elem_of_omap in Hr as (row & Hrow & Hd).
  rewrite Forall_forall in H. specialize (H _ Hrow).
  destruct (Date row); [|discriminate]. now injection Hd as <-.
Qed.

Lemma in_month_typed_count (y : Z) (m : Month) (df_copy : list dated) :
  Forall (fun r : dated => is_Some (Failure_Type (snd r))) df_copy ->
  col_count (col_Failure_Type (in_month y m df_copy))
  = len (in_month y m df_copy).
Proof.
  intros H. unfold col_Failure_Type.
  rewrite col_count_all_Some, len_fmap; [reflexivity |].
  apply Forall_fmap, Forall_forall. intros r Hr.
  apply list_elem_of_filter in Hr as [_ Hr].
  rewrite Forall_forall in H. now apply H.
Qed.

(* ================================================================== *)
(** * The groups as rows of the log *)

Lemma dropna_Date_cons (row : outage) (df : DataFrame) :
  dropna_Date (row :: df)
  = match Date row with
    | Some d => (d, row) :: dropna_Date df
    | None => dropna_Date df
    end.
Proof. unfold dropna_Date. cbn [omap list_omap]. now destruct (Date row). Qed.

(** A selection of [df_copy] by the date is the selection of the rows of
    the log with that date. *)
Lemma filter_dropna_Date_rows (P : dated -> Prop) (S : outage -> Prop)
    `{forall r, Decision (P r)} `{forall row, Decision (S row)}
    (df : DataFrame) :
  (forall d row, Date row = Some d -> P (d, row) <-> S row) ->
  (forall row, Date row = None -> ~ S row) ->
  snd <$> filter P (dropna_Date df) = filter S df.
Proof.
  intros HS HN. unfold DataFrame in *.
  induction df as [|row df IH]; [reflexivity |].
  rewrite dropna_Date_cons. destruct (Date row) as [d|] eqn:E.
  - destruct (decide (S row)) as [Hs | Hs].
    + rewrite (filter_cons_True P) by now apply (HS d row E).
      rewrite (filter_cons_True S) by exact Hs.
      cbn [fmap list_fmap snd]. now rewrite IH.
    + rewrite (filter_cons_False P) by now rewrite (HS d row E).
      rewrite (filter_cons_False S) by exact Hs. exact IH.
  - rewrite (filter_cons_False S) by now apply HN. exact IH.
Qed.

Lemma in_month_rows (y : Z) (m : Month) (df : DataFrame) :
  snd <$> in_month y m (dropna_Date df) = records_of_month y m df.
Proof.
  apply filter_dropna_Date_rows.
  - intros d row E. unfold dated_in_month. now rewrite E.
  - intros row E. unfold dated_in_month. now rewrite E.
Qed.

Lemma in_year_rows (y : Z) (df : DataFrame) :
  snd <$> in_year y (dropna_Date df) = records_of_year y df.
Proof.
  apply filter_dropna_Date_rows.
  - intros d row E. unfold dated_in_year. now rewrite E.
  - intros row E. unfold dated_in_year. now rewrite E.
Qed.

Lemma fmap_nonempty {A B} (f : A -> B) (l : list A) :
  f <$> l <> [] <-> l <> [].
Proof. destruct l; cbn; split; congruence. Qed.

Lemma exact_sum_total_minutes (g : list dated) :
  exact_sum (col_Downtime g) = total_minutes (snd <$> g).
Proof.
  induction g as [|r g IH]; [reflexivity |].
  cbn [col_Downtime fmap list_fmap total_minutes].
  change (exact_sum (?a :: ?b)) with (a + exact_sum b).
  unfold col_Downtime in IH. now rewrite IH.
Qed.

Lemma len_rows (g : list dated) : len g = Z.of_nat (length (snd <$> g)).
Proof. unfold len. now rewrite length_fmap. Qed.

Lemma col_Downtime_rows (g : list dated) :
  col_Downtime g = Downtime_minutes <$> (snd <$> g).
Proof. unfold col_Downtime. now rewrite <- list_fmap_compose. Qed.

Lemma total_minutes_abs (rows : list outage) :
  Z.abs (total_minutes rows) <= total_abs_minutes rows.
Proof. induction rows as [|row rows IH]; cbn [total_minutes total_abs_minutes]; lia. Qed.

Lemma total_abs_minutes_nonneg (rows : list outage) :
  0 <= total_abs_minutes rows.
Proof. induction rows as [|row rows IH]; cbn [total_abs_minutes]; lia. Qed.

Lemma total_abs_minutes_sublist (l k : list outage) :
  l `sublist_of` k -> total_abs_minutes l <= total_abs_minutes k.
Proof. induction 1; cbn [total_abs_minutes]; lia. Qed.

(** The sums of the rows of a bounded log do not wrap. *)
Lemma bounded_log_fits (df rows : DataFrame) :
  bounded_log df -> rows `sublist_of` df ->
  wrap64 (total_minutes rows) = total_minutes rows.
Proof.
  unfold bounded_log. intros Hb Hs. apply wrap64_small.
  pose proof (total_minutes_abs rows).
  pose proof (total_abs_minutes_sublist _ _ Hs). lia.
Qed.

Lemma dropna_Date_rows_sublist (df : DataFrame) :
  snd <$> dropna_Date df `sublist_of` df.
Proof.
  unfold DataFrame in *. induction df as [|row df IH]; [constructor |].
  rewrite dropna_Date_cons. destruct (Date row).
  - cbn [fmap list_fmap snd]. now apply sublist_skip.
  - now apply sublist_cons.
Qed.

(** "sum" over a group of a bounded log is the sum of its downtimes. *)
Lemma col_sum_group (df : DataFrame) (g : list dated) :
  bounded_log df -> g `sublist_of` dropna_Date df ->
  col_sum (col_Downtime g) = total_minutes (snd <$> g).
Proof.
  intros Hb Hs. unfold col_sum. rewrite exact_sum_total_minutes.
  apply (bounded_log_fits df); [exact Hb |].
  transitivity (snd <$> dropna_Date df);
    [now apply fmap_sublist | apply dropna_Date_rows_sublist].
Qed.

Lemma in_month_sublist (y : Z) (m : Month) (df_copy : list dated) :
  in_month y m df_copy `sublist_of` df_copy.
Proof. apply sublist_filter. Qed.

Lemma in_year_sublist (y : Z) (df_copy : list dated) :
  in_year y df_copy `sublist_of` df_copy.
Proof. apply sublist_filter. Qed.

(** The table of month lengths is the Gregorian calendar. *)
Lemma get_days_in_month_length (y : Z) (m : Month) :
  month_length y m (get_days_in_month y (month_num m)).
Proof.
  unfold month_length, get_days_in_month.
  pose proof (is_leapyear_gregorian y) as Hleap.
  destruct m; try (destruct (is_leapyear y); reflexivity).
  split; intros Hg.
  - apply Hleap in Hg. now rewrite Hg.
  - destruct (is_leapyear y); [| reflexivity]. exfalso. now apply Hg, Hleap.
Qed.

(** The row computed for a month of a bounded log of typed rows is the row
    the specification describes for the rows of the log in that month. *)
Lemma monthly_row_of_spec (df : DataFrame) (y : Z) (m : Month) :
  all_typed df -> bounded_log df ->
  monthly_row_spec y m (records_of_month y m df)
    (drop_Month_Num (monthly_row_of y m (in_month y m (dropna_Date df)))).
Proof.
  intros Htyped Hb.
  unfold monthly_row_spec, drop_Month_Num, monthly_row_of.
  cbn [MonthlyOut.Year MonthlyOut.Month MonthlyOut.Total_Downtime_Minutes
       MonthlyOut.Failure_Count MonthlyOut.Avg_Downtime_Per_Failure
       MonthlyOut.Days_in_Month MonthlyOut.Total_Broadcast_Minutes
       MonthlyOut.Availability Monthly.Year Monthly.Month
       Monthly.Total_Downtime_Minutes Monthly.Failure_Count
       Monthly.Avg_Downtime_Per_Failure Monthly.Days_in_Month
       Monthly.Total_Broadcast_Minutes Monthly.Availability].
  rewrite (col_sum_group df) by (exact Hb || apply in_month_sublist).
  rewrite exact_sum_total_minutes, len_rows, in_month_rows.
  split; [reflexivity |]. split; [reflexivity |]. split; [reflexivity |].
  split.
  { rewrite in_month_typed_count by now apply dropna_Date_typed.
    now rewrite len_rows, in_month_rows. }
  split; [reflexivity |].
  split; [apply get_days_in_month_length |].
  split; [apply get_days_in_month_ordinal |].
  split; [apply broadcast_minutes_budget |].
  apply availability_pct_formula, broadcast_minutes_budget.
Qed.

Lemma in_month_nonempty_rows (y : Z) (m : Month) (df : DataFrame) :
  in_month y m (dropna_Date df) <> [] <-> records_of_month y m df <> [].
Proof. rewrite <- in_month_rows. symmetry. apply fmap_nonempty. Qed.

(** C1. For a log in which every row carries a failure type and whose
    downtimes stay inside 64 bits, the monthly summary has exactly one row
    for each (year, month) in which a row of the log is dated.  The row of
    (y, m) carries the sum of the downtimes of the rows of the log dated in
    that month, their number, the quotient of the two, the length of the
    month in the proleptic Gregorian calendar, that number times 1050 as
    budget and 100 * (budget - total) / budget as availability.  The rows
    ascend strictly by (year, month number). *)
Theorem monthly_summary_spec (year_now : Z) (today : date) (df : DataFrame) :
  all_typed df -> bounded_log df ->
  let out := monthly (build_comprehensive_summary year_now today df) in
  (forall y m, records_of_month y m df <> [] ->
     exists r, r ∈ out /\ monthly_row_spec y m (records_of_month y m df) r)
  /\ (forall r, r ∈ out ->
        exists y m, records_of_month y m df <> []
          /\ monthly_row_spec y m (records_of_month y m df) r)
  /\ StronglySorted ym_lt (year_month_of_name <$> out).
Proof.
  intros Htyped Hb out. subst out. rewrite build_monthly.
  split; [| split].
  - intros y m Hne. apply in_month_nonempty_rows in Hne. eexists. split.
    + apply elem_of_monthly_summary. exists y, m. split; [exact Hne |].
      reflexivity.
    + now apply monthly_row_of_spec.
  - intros r Hr. apply elem_of_monthly_summary in Hr as (y & m & Hne & ->).
    exists y, m. split; [now apply in_month_nonempty_rows |].
    now apply monthly_row_of_spec.
  - apply monthly_summary_sorted.
Qed.

Lemma all_typed_log_feb_2024 : all_typed log_feb_2024.
Proof. repeat constructor. now eexists. Defined.

Lemma all_typed_log_three : all_typed log_three.
Proof. repeat constructor; now eexists. Defined.

Lemma bounded_log_three : bounded_log log_three.
Proof. reflexivity. Defined.

(** The log of two records in April 2024 (30 and 45 minutes) and one in May
    2024: the row of April carries 75 minutes, 2 failures, the mean 75 / 2
    and 30 days. *)
Lemma monthly_summary_spec_witness :
  all_typed log_three /\ bounded_log log_three
  /\ exists r,
       r ∈ monthly (build_comprehensive_summary 2024 (mkdate 2024 June 1)
                      log_three)
       /\ MonthlyOut.Year r = 2024
       /\ MonthlyOut.Month r = "April"%string
       /\ MonthlyOut.Total_Downtime_Minutes r = 75
       /\ MonthlyOut.Failure_Count r = 2
       /\ (MonthlyOut.Avg_Downtime_Per_Failure r == 75 / 2)%Q
       /\ MonthlyOut.Days_in_Month r = 30
       /\ (MonthlyOut.Availability r == 100 * (31500 - 75) / 31500)%Q.
Proof.
  split; [exact all_typed_log_three |]. split; [exact bounded_log_three |].
  destruct (monthly_summary_spec 2024 (mkdate 2024 June 1) log_three
              all_typed_log_three bounded_log_three) as [H _].
  destruct (H 2024 April) as (r & Hin & Hspec); [discriminate |].
  exists r. split; [exact Hin |].
  destruct Hspec as (Hy & Hm & Ht & Hc & Ha & Hl & Hd & Hb & Hav).
  cbn [month_length] in Hl.
  repeat split; try assumption.
  now rewrite Hav, Hl.
Defined.

(** One record of 60 minutes on 2024-02-15: February has 29 days, the budget
    is 30450 minutes and the availability 100 * (30450 - 60) / 30450. *)
Lemma monthly_summary_feb_2024 (year_now : Z) (today : date) :
  exists r,
    monthly (build_comprehensive_summary year_now today log_feb_2024) = [r]
    /\ MonthlyOut.Year r = 2024
    /\ MonthlyOut.Month r = "February"%string
    /\ MonthlyOut.Days_in_Month r = 29
    /\ (MonthlyOut.Total_Broadcast_Minutes r == 30450)%Q
    /\ (MonthlyOut.Availability r == 100 * (30450 - 60) / 30450)%Q.
Proof. eexists. split; [reflexivity |]. repeat split. Qed.

(* ================================================================== *)
(** * The yearly summary *)

Lemma get_group_in_year (df_copy : list dated) (y : Z) :
  get_group col_Year df_copy y = in_year y df_copy.
Proof. unfold get_group, in_year. now apply list_filter_iff. Qed.

Lemma yearly_agg_Some (y : Z) (g : list dated) :
  g <> [] ->
  exists mx mn, is_max (col_Downtime g) mx /\ is_min (col_Downtime g) mn
    /\ yearly_agg (y, g) = Some (yearly_row_of y g mx mn).
Proof.
  intros Hne. unfold yearly_agg.
  rewrite col_mean_nonempty by now apply col_Downtime_nonempty.
  destruct (col_max (col_Downtime g)) as [mx|] eqn:Emx.
  2: { destruct g; [congruence | discriminate]. }
  destruct (col_min (col_Downtime g)) as [mn|] eqn:Emn.
  2: { destruct g; [congruence | discriminate]. }
  exists mx, mn. apply col_max_Some in Emx. apply col_min_Some in Emn.
  split; [exact Emx |]. split; [exact Emn |].
  cbn [mbind option_bind]. unfold yearly_row_of, col_Downtime.
  now rewrite len_fmap.
Qed.

Lemma elem_of_yearly_summary (df_copy : list dated) (r : Yearly.row) :
  r ∈ yearly_summary df_copy
  <-> exists y mx mn,
        in_year y df_copy <> []
        /\ is_max (col_Downtime (in_year y df_copy)) mx
        /\ is_min (col_Downtime (in_year y df_copy)) mn
        /\ r = yearly_row_of y (in_year y df_copy) mx mn.
Proof.
  unfold yearly_summary. rewrite elem_of_groupby_agg. split.
  - intros (y & Hne & Hr).
    destruct (yearly_agg_Some y _ Hne) as (mx & mn & Hmx & Hmn & E).
    rewrite E in Hr. injection Hr as <-. rewrite get_group_in_year in *.
    exists y, mx, mn. auto.
  - intros (y & mx & mn & Hne & Hmx & Hmn & ->). exists y.
    rewrite get_group_in_year. split; [exact Hne |].
    destruct (yearly_agg_Some y _ Hne) as (mx' & mn' & Hmx' & Hmn' & ->).
    apply col_max_Some in Hmx, Hmx'. apply col_min_Some in Hmn, Hmn'.
    congruence.
Qed.

Lemma yearly_summary_years (df_copy : list dated) :
  Yearly.Year <$> yearly_summary df_copy = group_keys Z.leb col_Year df_copy.
Proof.
  unfold yearly_summary. apply groupby_agg_keys.
  intros y g Hne. destruct (yearly_agg_Some y g Hne) as (mx & mn & _ & _ & ->).
  eexists. split; reflexivity.
Qed.

(** The yearly rows ascend strictly by year. *)
Lemma yearly_summary_sorted (df_copy : list dated) :
  StronglySorted Z.lt (Yearly.Year <$> yearly_summary df_copy).
Proof.
  rewrite yearly_summary_years.
  apply (StronglySorted_strict (fun a b => Is_true (Z.leb a b)) _ id).
  - intros a b Hle Hne. apply Is_true_true, Z.leb_le in Hle.
    unfold id in Hne. lia.
  - apply group_keys_sorted; apply _.
  - rewrite list_fmap_id. apply NoDup_group_keys.
Qed.

Lemma build_yearly (year_now : Z) (today : date) (df : DataFrame) :
  yearly (build_comprehensive_summary year_now today df)
  = yearly_summary (dropna_Date df).
Proof.
  destruct (dropna_Date df) as [|r l] eqn:E.
  - now rewrite build_no_parsed_date.
  - rewrite build_parsed_date by congruence. now rewrite E.
Qed.

Lemma in_year_typed_count (y : Z) (df_copy : list dated) :
  Forall (fun r : dated => is_Some (Failure_Type (snd r))) df_copy ->
  col_count (col_Failure_Type (in_year y df_copy)) = len (in_year y df_copy).
Proof.
  intros H. unfold col_Failure_Type.
  rewrite col_count_all_Some, len_fmap; [reflexivity |].
  apply Forall_fmap, Forall_forall. intros r Hr.
  apply list_elem_of_filter in Hr as [_ Hr].
  rewrite Forall_forall in H. now apply H.
Qed.

(** The row computed for a year of a bounded log of typed rows is the row
    the specification describes for the rows of the log in that year. *)
Lemma yearly_row_of_spec (df : DataFrame) (y mx mn : Z) :
  all_typed df -> bounded_log df ->
  is_max (col_Downtime (in_year y (dropna_Date df))) mx ->
  is_min (col_Downtime (in_year y (dropna_Date df))) mn ->
  yearly_row_spec y (records_of_year y df)
    (yearly_row_of y (in_year y (dropna_Date df)) mx mn).
Proof.
  intros Htyped Hb Hmx Hmn.
  unfold yearly_row_spec, yearly_row_of.
  cbn [Yearly.Year Yearly.Total_Downtime_Minutes Yearly.Failure_Count
       Yearly.Avg_Downtime_Per_Failure Yearly.Max_Downtime
       Yearly.Min_Downtime Yearly.Days_in_Year
       Yearly.Total_Broadcast_Minutes Yearly.Availability
       Yearly.Max_Downtime_hours Yearly.Min_Downtime_hours].
  rewrite col_Downtime_rows, in_year_rows in Hmx, Hmn.
  rewrite (col_sum_group df) by (exact Hb || apply in_year_sublist).
  rewrite exact_sum_total_minutes, len_rows, in_year_rows.
  split; [reflexivity |]. split; [reflexivity |].
  split.
  { rewrite in_year_typed_count by now apply dropna_Date_typed.
    now rewrite len_rows, in_year_rows. }
  split; [reflexivity |]. split; [exact Hmx |]. split; [exact Hmn |].
  split; [reflexivity |]. split; [reflexivity |].
  unfold Period_is_leap_year.
  pose proof (is_leapyear_gregorian y) as Hleap.
  split; [| split; [| split]].
  - intros Hg. apply Hleap in Hg. now rewrite Hg.
  - intros Hg. destruct (is_leapyear y); [| reflexivity].
    exfalso. now apply Hg, Hleap.
  - apply broadcast_minutes_budget.
  - apply availability_pct_formula, broadcast_minutes_budget.
Qed.

Lemma in_year_nonempty_rows (y : Z) (df : DataFrame) :
  in_year y (dropna_Date df) <> [] <-> records_of_year y df <> [].
Proof. rewrite <- in_year_rows. symmetry. apply fmap_nonempty. Qed.

(** C2. For a log in which every row carries a failure type and whose
    downtimes stay inside 64 bits, the yearly summary has exactly one row
    for each year in which a row of the log is dated.  The row of year y
    carries the sum of the downtimes of the rows of the log dated in that
    year, their number, the quotient of the two, the largest and the
    smallest of these downtimes, both also divided by 60 as hours, 366 days
    when y is divisible by 4 and not by 100 unless by 400 and 365 days
    otherwise, that number times 1050 as budget and
    100 * (budget - total) / budget as availability. *)
Theorem yearly_summary_spec (year_now : Z) (today : date) (df : DataFrame) :
  all_typed df -> bounded_log df ->
  let out := yearly (build_comprehensive_summary year_now today df) in
  (forall y, records_of_year y df <> [] ->
     exists r, r ∈ out /\ yearly_row_spec y (records_of_year y df) r)
  /\ (forall r, r ∈ out ->
        exists y, records_of_year y df <> []
          /\ yearly_row_spec y (records_of_year y df) r)
  /\ NoDup (Yearly.Year <$> out).
Proof.
  intros Htyped Hb out. subst out. rewrite build_yearly.
  split; [| split].
  - intros y Hne. apply in_year_nonempty_rows in Hne.
    destruct (yearly_agg_Some y _ Hne) as (mx & mn & Hmx & Hmn & _).
    eexists. split.
    + apply elem_of_yearly_summary. exists y, mx, mn. auto.
    + now apply yearly_row_of_spec.
  - intros r Hr.
    apply elem_of_yearly_summary in Hr as (y & mx & mn & Hne & Hmx & Hmn & ->).
    exists y. split; [now apply in_year_nonempty_rows |].
    now apply yearly_row_of_spec.
  - rewrite yearly_summary_years. apply NoDup_group_keys.
Qed.

Lemma all_typed_log_two_years : all_typed log_two_years.
Proof. repeat constructor; now eexists. Defined.

Lemma bounded_log_two_years : bounded_log log_two_years.
Proof. reflexivity. Defined.

(** One record of 2023 and three of 2024 (60, 30 and 45 minutes): the row
    of 2024 carries 135 minutes, 3 failures, the mean 45, the largest
    downtime 60, the smallest 30 and 366 days. *)
Lemma yearly_summary_spec_witness :
  all_typed log_two_years /\ bounded_log log_two_years
  /\ exists r,
       r ∈ yearly (build_comprehensive_summary 2024 (mkdate 2024 June 1)
                     log_two_years)
       /\ Yearly.Year r = 2024
       /\ Yearly.Total_Downtime_Minutes r = 135
       /\ Yearly.Failure_Count r = 3
       /\ (Yearly.Avg_Downtime_Per_Failure r == 45)%Q
       /\ Yearly.Max_Downtime r = 60
       /\ Yearly.Min_Downtime r = 30
       /\ Yearly.Days_in_Year r = 366.
Proof.
  split; [exact all_typed_log_two_years |].
  split; [exact bounded_log_two_years |].
  destruct (yearly_summary_spec 2024 (mkdate 2024 June 1) log_two_years
              all_typed_log_two_years bounded_log_two_years) as [H _].
  destruct (H 2024) as (r & Hin & Hspec); [discriminate |].
  exists r. split; [exact Hin |].
  destruct Hspec
    as (Hy & Ht & Hc & Ha & [Hmx Hmx'] & [Hmn Hmn'] & _ & _ & Hleap & _).
  change (records_of_year 2024 log_two_years) with log_three in *.
  cbn [log_three fmap list_fmap Downtime_minutes] in Hmx, Hmx', Hmn, Hmn'.
  split; [exact Hy |]. split; [exact Ht |]. split; [exact Hc |].
  split; [now rewrite Ha |].
  split; [| split].
  - pose proof (Hmx' 60 ltac:(left)).
    repeat (apply elem_of_cons in Hmx as [Hmx | Hmx]; [lia |]).
    inversion Hmx.
  - pose proof (Hmn' 30 ltac:(right; left)).
    repeat (apply elem_of_cons in Hmn as [Hmn | Hmn]; [lia |]).
    inversion Hmn.
  - apply Hleap. split; [exists 506; reflexivity |].
    left. intros [k Hk]. lia.
Defined.

(** Without the assumption on the failure types, "count" leaves out the
    rows whose failure type is empty. *)
Lemma Failure_Count_counts_typed (year_now : Z) (today : date)
    (df : DataFrame) :
  (forall r, r ∈ monthly (build_comprehensive_summary year_now today df) ->
     exists y m,
       MonthlyOut.Failure_Count r
       = len (filter (fun x : dated => is_Some (Failure_Type (snd x)))
                     (in_month y m (dropna_Date df))))
  /\ (forall r, r ∈ yearly (build_comprehensive_summary year_now today df) ->
        exists y,
          Yearly.Failure_Count r
          = len (filter (fun x : dated => is_Some (Failure_Type (snd x)))
                        (in_year y (dropna_Date df)))).
Proof.
  assert (Hc : forall g : list dated,
             col_count (col_Failure_Type g)
             = len (filter (fun x : dated => is_Some (Failure_Type (snd x))) g)).
  { intros g. unfold col_count, col_Failure_Type, len. do 2 f_equal.
    induction g as [|x g IH]; [reflexivity |]. cbn [fmap list_fmap].
    destruct (Failure_Type (snd x)) as [ft|] eqn:E.
    - rewrite !filter_cons_True by (rewrite ?E; now eexists).
      cbn [length]. now rewrite IH.
    - rewrite !filter_cons_False by (rewrite ?E; now intros [? [=]]).
      exact IH. }
  rewrite build_monthly, build_yearly. split.
  - intros r Hr. apply elem_of_monthly_summary in Hr as (y & m & _ & ->).
    exists y, m. apply Hc.
  - intros r Hr.
    apply elem_of_yearly_summary in Hr as (y & mx & mn & _ & _ & _ & ->).
    exists y. apply Hc.
Qed.

(* ================================================================== *)
(** * The year to date *)

Lemma date_leb_le (a b : date) : Is_true (date_leb a b) <-> date_le a b.
Proof. rewrite Is_true_true. unfold date_leb, date_le. lia. Qed.

(** The days elapsed are the day of the year of the current date. *)
Lemma days_elapsed_day_of_year (t : date) :
  date_sub_days t (mkdate (year t) January 1) + 1
  = days_before_month (year t) (month t) + day t.
Proof.
  unfold date_sub_days, toordinal, days_before_month.
  cbn [year month day month_num DAYS_BEFORE_MONTH Z.ltb Z.compare
       Pos.compare Pos.compare_cont andb]. lia.
Qed.

Lemma days_elapsed_pos (t : date) :
  1 <= day t -> 1 <= date_sub_days t (mkdate (year t) January 1) + 1.
Proof.
  intros H. rewrite days_elapsed_day_of_year. unfold days_before_month.
  destruct (month t); destruct (_ && _); cbn [DAYS_BEFORE_MONTH]; lia.
Qed.

Lemma ytd_of_empty (y : Z) (t : date) (df_copy : list dated) :
  ytd_select y t df_copy = [] -> ytd_of y t df_copy = ytd_empty.
Proof. unfold ytd_of. now intros ->. Qed.

Lemma ytd_of_filled (y : Z) (t : date) (df_copy : list dated) :
  ytd_select y t df_copy <> [] ->
  let sel := ytd_select y t df_copy in
  let days := date_sub_days t (mkdate y January 1) + 1 in
  let total := col_sum (col_Downtime sel) in
  ytd_of y t df_copy
  = ytd_filled
      {| current_year := y;
         days_elapsed := days;
         total_broadcast_minutes := broadcast_minutes days;
         total_downtime_minutes := total;
         ytd_availability := availability_pct (broadcast_minutes days) total;
         failure_count := len sel;
         avg_downtime_per_failure :=
           (inject_Z (exact_sum (col_Downtime sel)) / inject_Z (len sel))%Q |}.
Proof.
  intros Hne. unfold ytd_of.
  destruct (ytd_select y t df_copy) as [|r sel] eqn:E; [congruence |].
  cbn [empty negb]. cbv zeta. do 2 f_equal.
  assert (Hpos : (0 <? len (r :: sel)) = true)
    by (apply Z.ltb_lt; unfold len; cbn [length]; lia).
  rewrite Hpos, col_mean_nonempty by discriminate.
  unfold col_Downtime. now rewrite len_fmap.
Qed.

Lemma ytd_select_rows (y : Z) (t : date) (df : DataFrame) :
  snd <$> ytd_select y t (dropna_Date df) = records_up_to y t df.
Proof.
  apply filter_dropna_Date_rows.
  - intros d row E. unfold dated_up_to, col_Year. rewrite E.
    cbn [fst]. now rewrite date_leb_le.
  - intros row E. unfold dated_up_to. now rewrite E.
Qed.

Lemma ytd_select_nonempty_rows (y : Z) (t : date) (df : DataFrame) :
  ytd_select y t (dropna_Date df) <> [] <-> records_up_to y t df <> [].
Proof. rewrite <- ytd_select_rows. symmetry. apply fmap_nonempty. Qed.

Lemma ytd_select_sublist (y : Z) (t : date) (df_copy : list dated) :
  ytd_select y t df_copy `sublist_of` df_copy.
Proof. apply sublist_filter. Qed.

(** C3. With the current date T and its year Y, the year-to-date summary is
    built from the rows of the log dated in year Y and not after T.  Without
    such a row the result carries no summary object.  Otherwise, for a log
    whose downtimes stay inside 64 bits, the object has
    days_elapsed = (T - Jan 1 of Y) in days + 1,
    budget = days_elapsed * 1050, the sum of the downtimes of the selected
    rows, availability = 100 * (budget - total) / budget, the number of
    selected rows and the mean downtime. *)
Theorem ytd_summary_spec (today : date) (df : DataFrame) :
  bounded_log df ->
  let Y := year today in
  let s := build_comprehensive_summary Y today df in
  let sel := records_up_to Y today df in
  let total := total_minutes sel in
  let count := Z.of_nat (length sel) in
  (sel = [] -> ytd_object s = None)
  /\ (sel <> [] ->
      exists o, ytd s = Some (ytd_filled o)
        /\ ytd_object s = Some o
        /\ current_year o = Y
        /\ days_elapsed o = date_sub_days today (mkdate Y January 1) + 1
        /\ (total_broadcast_minutes o
            == inject_Z (days_elapsed o * daily_budget))%Q
        /\ total_downtime_minutes o = total
        /\ (ytd_availability o
            == 100 * (inject_Z (days_elapsed o * daily_budget)
                      - inject_Z total)
               / inject_Z (days_elapsed o * daily_budget))%Q
        /\ failure_count o = count
        /\ (avg_downtime_per_failure o == inject_Z total / inject_Z count)%Q).
Proof.
  intros Hb Y s sel total count. subst s sel total count. split.
  - intros Hsel. unfold ytd_object.
    assert (Hsel' : ytd_select Y today (dropna_Date df) = []).
    { destruct (ytd_select Y today (dropna_Date df)) eqn:E';
        [reflexivity |].
      exfalso.
      apply (proj1 (ytd_select_nonempty_rows Y today df));
        [now rewrite E' | exact Hsel]. }
    destruct (dropna_Date df) as [|r l] eqn:E.
    + now rewrite build_no_parsed_date.
    + rewrite build_parsed_date by congruence. cbn [ytd].
      rewrite E, ytd_of_empty; [reflexivity | exact Hsel'].
  - intros Hsel. apply ytd_select_nonempty_rows in Hsel.
    assert (Hne : dropna_Date df <> []).
    { intros E. rewrite E in Hsel. now apply Hsel. }
    unfold ytd_object. rewrite build_parsed_date by exact Hne. cbn [ytd].
    rewrite ytd_of_filled by exact Hsel. eexists.
    split; [reflexivity |]. split; [reflexivity |].
    cbn [current_year days_elapsed total_broadcast_minutes
         total_downtime_minutes ytd_availability failure_count
         avg_downtime_per_failure].
    rewrite (col_sum_group df) by (exact Hb || apply ytd_select_sublist).
    rewrite exact_sum_total_minutes, len_rows, ytd_select_rows.
    repeat split; try reflexivity.
    + apply broadcast_minutes_budget.
    + apply availability_pct_formula, broadcast_minutes_budget.
Qed.

(** The log of two records on 3 April 2024 (30 and 45 minutes) and one on
    15 May 2024, read on 30 April 2024: the two records of April are
    selected, with 75 minutes over 121 elapsed days. *)
Lemma ytd_summary_spec_witness :
  bounded_log log_three
  /\ exists o,
       ytd_object (build_comprehensive_summary 2024 (mkdate 2024 April 30)
                     log_three) = Some o
       /\ days_elapsed o = 121
       /\ total_downtime_minutes o = 75
       /\ failure_count o = 2
       /\ (avg_downtime_per_failure o == 75 / 2)%Q
       /\ (ytd_availability o == 100 * (127050 - 75) / 127050)%Q.
Proof.
  split; [exact bounded_log_three |].
  destruct (ytd_summary_spec (mkdate 2024 April 30) log_three
              bounded_log_three) as [_ H].
  destruct H as (o & _ & Ho & _ & Hd & _ & Ht & Hav & Hc & Ha);
    [discriminate |].
  exists o. split; [exact Ho |]. split; [exact Hd |]. split; [exact Ht |].
  split; [exact Hc |]. split; [exact Ha |].
  rewrite Hav, Hd. reflexivity.
Defined.

(* ================================================================== *)
(** * Rows without a date *)

Lemma dropna_Date_parsed (df : DataFrame) :
  dropna_Date (parsed df) = dropna_Date df.
Proof.
  unfold dropna_Date, parsed, DataFrame in *.
  induction df as [|row df IH]; [reflexivity |].
  destruct (Date row) as [d|] eqn:E.
  - rewrite filter_cons_True by (rewrite E; now eexists).
    cbn [omap list_omap]. now rewrite E, IH.
  - rewrite filter_cons_False by (rewrite E; now intros [? [=]]).
    cbn [omap list_omap]. now rewrite E, IH.
Qed.

Lemma elem_of_dropna_Date (df : DataFrame) (r : dated) :
  r ∈ dropna_Date df <-> snd r ∈ df /\ Date (snd r) = Some (fst r).
Proof.
  unfold dropna_Date. rewrite list_elem_of_omap. split.
  - intros (row & Hrow & E). destruct (Date row) eqn:Hd; [|discriminate].
    injection E as <-. now split.
  - intros [Hin Hd]. exists (snd r). split; [exact Hin |].
    rewrite Hd. now destruct r.
Qed.

(** The summaries are a function of the rows with a parsed date. *)
Lemma build_depends_on_parsed (year_now : Z) (today : date)
    (df df' : DataFrame) :
  dropna_Date df = dropna_Date df' ->
  build_comprehensive_summary year_now today df
  = build_comprehensive_summary year_now today df'.
Proof.
  intros E. destruct (dropna_Date df) as [|r l] eqn:Hd.
  - rewrite !build_no_parsed_date; congruence.
  - rewrite !build_parsed_date; congruence.
Qed.

(** C9. The aggregator is total, and for every log its result is the result
    for the log without the rows whose date failed to parse: those rows are
    dropped (and only those), and the monthly, the yearly and the
    year-to-date summary are computed from the remaining ones; adding or
    removing a row without a date changes none of them. *)
Theorem build_skips_unparsed (year_now : Z) (today : date) (df : DataFrame) :
  (forall r, r ∈ dropna_Date df
             <-> snd r ∈ df /\ Date (snd r) = Some (fst r))
  /\ build_comprehensive_summary year_now today df
     = build_comprehensive_summary year_now today (parsed df)
  /\ monthly (build_comprehensive_summary year_now today df)
     = monthly_summary (dropna_Date df)
  /\ yearly (build_comprehensive_summary year_now today df)
     = yearly_summary (dropna_Date df)
  /\ ytd_object (build_comprehensive_summary year_now today df)
     = match ytd_of year_now today (dropna_Date df) with
       | ytd_filled o => Some o
       | ytd_empty => None
       end
  /\ (forall df1 df2 row,
        Date row = None ->
        build_comprehensive_summary year_now today (df1 ++ row :: df2)
        = build_comprehensive_summary year_now today (df1 ++ df2)).
Proof.
  split; [apply elem_of_dropna_Date |].
  split; [apply build_depends_on_parsed; now rewrite dropna_Date_parsed |].
  split; [apply build_monthly |]. split; [apply build_yearly |]. split.
  - unfold ytd_object. destruct (dropna_Date df) as [|r l] eqn:E.
    + now rewrite build_no_parsed_date.
    + rewrite build_parsed_date by congruence. now rewrite E.
  - intros df1 df2 row Hrow. apply build_depends_on_parsed.
    unfold dropna_Date. rewrite !omap_app. cbn [omap list_omap].
    now rewrite Hrow.
Qed.

(* ================================================================== *)
(** * Order of the rows of the log *)










(** The summaries of the three-record log, whichever order it is in. *)
Lemma build_log_three :
  (fun r => (MonthlyOut.Year r, MonthlyOut.Month r,
             MonthlyOut.Total_Downtime_Minutes r, MonthlyOut.Failure_Count r))
    <$> monthly (build_comprehensive_summary 2024 (mkdate 2024 April 30)
                   log_three_swapped)
  = [(2024, "April"%string, 75, 2); (2024, "May"%string, 60, 1)]
  /\ (fun r => (MonthlyOut.Year r, MonthlyOut.Month r,
                MonthlyOut.Total_Downtime_Minutes r,
                MonthlyOut.Failure_Count r))
       <$> monthly (build_comprehensive_summary 2024 (mkdate 2024 April 30)
                      log_three)
     = [(2024, "April"%string, 75, 2); (2024, "May"%string, 60, 1)].
Proof. split; reflexivity. Qed.

(* ================================================================== *)
(** * The projection on examples *)

(** 100 elapsed days with 500 minutes of downtime: 1325 projected remaining
    minutes, 1825 in total. *)
Lemma project_full_year_example (y : Z) (b a q : Q) (n : Z) :
  exists p,
    project_full_year (mkytd y 100 b 500 a n q) = Some p
    /\ (projected_remaining_downtime p == 1325)%Q
    /\ (projected_total_downtime p == 1825)%Q
    /\ (projected_availability p
        == 100 * (365 * 1050 - 1825) / (365 * 1050))%Q.
Proof. eexists. split; [reflexivity |]. repeat split. Qed.

(** On 30 December of the leap year 2024, 365 days have elapsed and one
    day remains, but the page shows no projection; on 29 December it
    projects on 365 days. *)
Lemma project_full_year_leap :
  view_summary_projection 2024 (mkdate 2024 December 30) log_feb_2024
  = Returns None
  /\ exists p,
       view_summary_projection 2024 (mkdate 2024 December 29) log_feb_2024
       = Returns (Some p)
       /\ days_remaining p = 1
       /\ (projected_availability p
           == 100 * (365 * 1050 - (60 + 60 / 364)) / (365 * 1050))%Q.
Proof.
  split; [reflexivity |]. eexists. split; [reflexivity |]. repeat split.
Qed.

(* ================================================================== *)
(** * The required fields *)

Lemma lstrip_skip_space (s : string) :
  lstrip s = match skip_space s with Some rest => lstrip rest | None => s end.
Proof.
  destruct s as [|c1 [|c2 [|c3 s3]]]; cbn [lstrip skip_space];
    try reflexivity.
  - now destruct (isspace1 c1).
  - destruct (isspace1 c1); [reflexivity |]. now destruct (isspace2 c1 c2).
  - destruct (isspace1 c1); [reflexivity |].
    destruct (isspace2 c1 c2); [reflexivity |].
    now destruct (isspace3 c1 c2 c3).
Qed.

Lemma skip_space_length (s rest : string) :
  skip_space s = Some rest -> (String.length rest < String.length s)%nat.
Proof.
  destruct s as [|c1 [|c2 [|c3 s3]]]; cbn [skip_space String.length];
    try discriminate.
  - destruct (isspace1 c1); [intros [= <-]; cbn; lia | discriminate].
  - destruct (isspace1 c1); [intros [= <-]; cbn; lia |].
    destruct (isspace2 c1 c2); [intros [= <-]; cbn; lia | discriminate].
  - destruct (isspace1 c1); [intros [= <-]; cbn; lia |].
    destruct (isspace2 c1 c2); [intros [= <-]; cbn; lia |].
    destruct (isspace3 c1 c2 c3); [intros [= <-]; cbn; lia | discriminate].
Qed.

Lemma elem_of_white_space (cp : Z) :
  bool_decide (cp ∈ white_space_code_points) = true ->
  cp ∈ white_space_code_points.
Proof. apply bool_decide_eq_true_1. Qed.

Lemma ascii_of_code (c : ascii) (n : nat) :
  nat_of_ascii c = n -> c = ascii_of_nat n.
Proof. intros <-. now rewrite ascii_nat_embedding. Qed.

(** A string that starts with a white-space character starts with the
    encoding of a white-space code point. *)
Lemma skip_space_code_point (s rest : string) :
  skip_space s = Some rest ->
  exists cp, cp ∈ white_space_code_points /\ s = (utf8 cp ++ rest)%string.
Proof.
  destruct s as [|c1 s1]; cbn [skip_space]; [discriminate |].
  destruct (isspace1 c1) eqn:E1.
  { intros [= <-]. exists (Z.of_nat (nat_of_ascii c1)).
    split_byte c1 E1;
      (split; [apply elem_of_white_space; vm_compute; reflexivity
              | reflexivity]). }
  clear E1. destruct s1 as [|c2 s2]; [discriminate |].
  destruct (isspace2 c1 c2) eqn:E2.
  { intros [= <-].
    exists ((Z.of_nat (nat_of_ascii c1) - 192) * 64
            + (Z.of_nat (nat_of_ascii c2) - 128)).
    unfold isspace2 in E2. cbv zeta in E2.
    apply andb_prop in E2 as [Ha Hb].
    apply Nat.eqb_eq, ascii_of_code in Ha. subst c1.
    split_byte c2 Hb;
      (split; [apply elem_of_white_space; vm_compute; reflexivity
              | reflexivity]). }
  clear E2. destruct s2 as [|c3 s3]; [discriminate |].
  destruct (isspace3 c1 c2 c3) eqn:E3; [| discriminate].
  intros [= <-].
  exists ((Z.of_nat (nat_of_ascii c1) - 224) * 4096
          + (Z.of_nat (nat_of_ascii c2) - 128) * 64
          + (Z.of_nat (nat_of_ascii c3) - 128)).
  unfold isspace3 in E3. cbv zeta in E3.
  apply orb_prop in E3 as [E3 | E3];
    [apply orb_prop in E3 as [E3 | E3];
     [apply orb_prop in E3 as [E3 | E3] |] |];
    apply andb_prop in E3 as [E3 Hc]; apply andb_prop in E3 as [Ha Hb];
    apply Nat.eqb_eq, ascii_of_code in Ha; subst c1;
    apply Nat.eqb_eq, ascii_of_code in Hb; subst c2;
    split_byte c3 Hc;
    (split; [apply elem_of_white_space; vm_compute; reflexivity
            | reflexivity]).
Qed.

(** The encoding of a white-space code point is skipped. *)
Lemma skip_space_utf8 (cp : Z) (rest : string) :
  cp ∈ white_space_code_points ->
  skip_space (utf8 cp ++ rest) = Some rest.
Proof.
  intros H. apply list_elem_of_In in H. unfold white_space_code_points in H.
  cbn [In] in H.
  repeat (destruct H as [<- | H]; [reflexivity |]). destruct H.
Qed.

Lemma lstrip_blank (s : string) : lstrip s = ""%string <-> blank s.
Proof.
  split.
  - remember (String.length s) as n eqn:En. revert s En.
    induction n as [n IH] using lt_wf_ind. intros s -> H.
    rewrite lstrip_skip_space in H.
    destruct (skip_space s) as [rest|] eqn:E.
    + destruct (skip_space_code_point _ _ E) as (cp & Hcp & ->).
      destruct (IH _ (skip_space_length _ _ E) rest eq_refl H)
        as (cps & Hcps & ->).
      exists (cp :: cps). split; [now constructor | reflexivity].
    + subst s. exists []. split; [constructor | reflexivity].
  - intros (cps & Hcps & ->).
    induction Hcps as [|cp cps Hcp _ IH]; [reflexivity |].
    cbn [encode foldr]. rewrite lstrip_skip_space.
    now rewrite skip_space_utf8.
Qed.

(** What [lstrip] leaves does not start with white space. *)
Lemma lstrip_idemp (s : string) : lstrip (lstrip s) = lstrip s.
Proof.
  remember (String.length s) as n eqn:En. revert s En.
  induction n as [n IH] using lt_wf_ind. intros s ->.
  rewrite (lstrip_skip_space s).
  destruct (skip_space s) as [rest|] eqn:E.
  - exact (IH _ (skip_space_length _ _ E) rest eq_refl).
  - rewrite lstrip_skip_space. now rewrite E.
Qed.

Lemma strip_blank (s : string) : strip s = ""%string <-> blank s.
Proof.
  unfold strip. rewrite <- lstrip_blank.
  pose proof (lstrip_idemp s) as Hi.
  destruct (lstrip s) as [|c t] eqn:E; [tauto |].
  cbn [rstrip]. rewrite Hi. cbn. split; discriminate.
Qed.

(** A NO-BREAK SPACE (U+00A0) and an EM SPACE (U+2003) around a tab are
    white space only; "Power" between them is what [strip] leaves. *)
Lemma strip_examples :
  let nbsp := String (byte 194) (String (byte 160) "") in
  let emsp := String (byte 226) (String (byte 128) (String (byte 131) "")) in
  let tab := String (byte 9) "" in
  strip nbsp = ""%string
  /\ strip (nbsp ++ tab ++ emsp) = ""%string
  /\ strip (nbsp ++ "Power" ++ tab ++ emsp) = "Power"%string
  /\ validate_required_fields (Some (mkdate 2024 February 15))
       (Some (mktime 9 0)) (Some (mktime 10 0)) (Some nbsp)
     = (false, "Failure type is required"%string).
Proof. repeat split. Qed.

(** X1. [validate_required_fields] accepts exactly when date, start time
    and end time are present and the failure type is a string that is not
    made of white space only, the white space being the code points that
    [str.strip()] removes; the first missing field, in the order date,
    start, end, failure type, decides the message. *)
Theorem validate_required_fields_spec
    (d : option date) (s e : option time) (ft : option string) :
  (fst (validate_required_fields d s e ft) = true
   <-> is_Some d /\ is_Some s /\ is_Some e
       /\ exists t, ft = Some t /\ ~ blank t)
  /\ (d = None ->
      validate_required_fields d s e ft = (false, "Date is required"%string))
  /\ (is_Some d -> s = None ->
      validate_required_fields d s e ft
      = (false, "Start time is required"%string))
  /\ (is_Some d -> is_Some s -> e = None ->
      validate_required_fields d s e ft
      = (false, "End time is required"%string))
  /\ (is_Some d -> is_Some s -> is_Some e ->
      (ft = None \/ exists t, ft = Some t /\ blank t) ->
      validate_required_fields d s e ft
      = (false, "Failure type is required"%string)).
Proof.
  unfold validate_required_fields.
  destruct d as [d|]; cbn [present negb].
  2: { repeat split; try reflexivity; try discriminate.
       - intros ([? [=]] & _).
       - intros [? [=]]. - intros [? [=]]. - intros [? [=]]. }
  destruct s as [s|]; cbn [present negb].
  2: { repeat split; try reflexivity; try discriminate.
       - intros (_ & [? [=]] & _).
       - intros _ [? [=]]. - intros _ [? [=]]. }
  destruct e as [e|]; cbn [present negb].
  2: { repeat split; try reflexivity; try discriminate.
       - intros (_ & _ & [? [=]] & _).
       - intros _ _ [? [=]]. }
  destruct ft as [t|]; cbn [truthy_str negb orb].
  2: { repeat split; try reflexivity; try discriminate.
       intros (_ & _ & _ & t & [=] & _). }
  assert (Hblank : (negb (negb (t =? "")%string) || (strip t =? "")%string)
                   = true <-> blank t).
  { rewrite <- strip_blank, orb_true_iff, negb_involutive, !String.eqb_eq.
    split; [intros [-> | H]; [reflexivity | exact H] | now right]. }
  destruct (negb (negb (t =? "")%string) || (strip t =? "")%string) eqn:Hb;
    cbn [fst].
  - assert (Ht : blank t) by now apply Hblank.
    split; [| split; [| split; [| split]]]; try discriminate.
    + split; [discriminate |].
      intros (_ & _ & _ & t' & [= <-] & Hf). contradiction.
    + reflexivity.
  - assert (Ht : ~ blank t) by (rewrite <- Hblank; discriminate).
    split; [| split; [| split; [| split]]]; try discriminate.
    + split; [intros _ | reflexivity].
      repeat (split; [now eexists |]). exists t. now split.
    + intros _ _ _ [[=] | (t' & [= <-] & Hf)]. contradiction.
Qed.

(* ================================================================== *)
(** * The three handlers and the invariants of the log *)

Lemma log_submit_Saved (df df' : DataFrame) (f : form) :
  log_submit df f = Saved df' ->
  fst (validate_required_fields (Some (f_date f)) (Some (f_start_time f))
         (Some (f_end_time f)) (Some (f_failure_type f))) = true
  /\ fst (validate_time_input (f_start_time f) (f_end_time f) (f_date f))
     = true
  /\ check_duplicate_entry df (f_date f) (f_start_time f) (f_end_time f)
     = false
  /\ df' = df ++ [record_of f].
Proof.
  unfold log_submit.
  destruct (validate_required_fields _ _ _ _) as [[] m1]; cbn [negb fst];
    [|discriminate].
  destruct (validate_time_input _ _ _) as [[] m2]; cbn [negb fst];
    [|discriminate].
  destruct (check_duplicate_entry _ _ _ _); [discriminate |].
  now intros [= <-].
Qed.

Lemma validate_time_input_accepts (s e : time) (d : date) :
  fst (validate_time_input s e d) = true ->
  time_lt s e /\ 270 <= minutes_of s /\ minutes_of e <= 1320.
Proof.
  rewrite validate_time_input_cases. unfold minutes_of.
  destruct (time_leb e s) eqn:Hc; [discriminate |].
  apply time_leb_false_lt in Hc.
  destruct ((hour s * 60 + minute s <? 270)
            || (1320 <? hour e * 60 + minute e)) eqn:Hw; [discriminate |].
  apply orb_false_iff in Hw. rewrite !Z.ltb_ge in Hw. intros _. tauto.
Qed.

(** X2. A form saved by the Log Outage handler is refused as a duplicate
    when it is submitted again to the new log. *)
Theorem log_submit_twice (df df' : DataFrame) (f : form) :
  log_submit df f = Saved df' -> log_submit df' f = Duplicate_Entry.
Proof.
  intros H. apply log_submit_Saved in H as (H1 & H2 & _ & ->).
  rewrite log_submit_validated by assumption.
  apply validate_time_input_accepts in H2 as [Hlt _].
  replace (check_duplicate_entry _ _ _ _) with true; [reflexivity |].
  symmetry. apply check_duplicate_entry_true. exists (record_of f).
  split; [apply elem_of_app; right; left |].
  split; [reflexivity |]. now split.
Qed.

Lemma log_submit_twice_witness :
  log_submit [] (mkform (mkdate 2024 February 15) (mktime 9 0) (mktime 10 0)
                        "Power" "")
  = Saved (record_of (mkform (mkdate 2024 February 15) (mktime 9 0)
                             (mktime 10 0) "Power" "") :: [])
  /\ log_submit
       (record_of (mkform (mkdate 2024 February 15) (mktime 9 0)
                          (mktime 10 0) "Power" "") :: [])
       (mkform (mkdate 2024 February 15) (mktime 9 0) (mktime 10 0)
               "Power" "")
     = Duplicate_Entry.
Proof.
  assert (H : log_submit [] (mkform (mkdate 2024 February 15) (mktime 9 0)
                               (mktime 10 0) "Power" "")
              = Saved (record_of (mkform (mkdate 2024 February 15)
                                    (mktime 9 0) (mktime 10 0) "Power" "")
                       :: [])) by reflexivity.
  split; [exact H |]. exact (log_submit_twice _ _ _ H).
Defined.

Lemma overlapping_sym (a b : outage) : overlapping a b -> overlapping b a.
Proof.
  intros ((d & Ha & Hb) & H1 & H2). split; [exists d; auto | auto].
Qed.

Lemma disjoint_log_snoc (df : DataFrame) (row : outage) :
  disjoint_log df -> Forall (fun other => ~ overlapping other row) df ->
  disjoint_log (df ++ [row]).
Proof.
  induction 1 as [|r df Hr Hdf IH]; intros Hrow; cbn [app].
  - repeat constructor.
  - apply Forall_cons in Hrow as [Hr' Hrow]. constructor; [| now apply IH].
    apply Forall_app. split; [exact Hr |]. now repeat constructor.
Qed.

Lemma Forall_of_sublist {A} (P : A -> Prop) (l k : list A) :
  l `sublist_of` k -> Forall P k -> Forall P l.
Proof.
  induction 1 as [| x l k Hs IH | x l k Hs IH]; intros Hk.
  - constructor.
  - apply Forall_cons in Hk as [Hx Hk]. constructor; auto.
  - apply Forall_cons in Hk as [_ Hk]. auto.
Qed.

Lemma disjoint_log_sublist (l df : DataFrame) :
  l `sublist_of` df -> disjoint_log df -> disjoint_log l.
Proof.
  induction 1 as [| r l df Hs IH | r l df Hs IH]; intros Hd.
  - constructor.
  - inversion Hd as [| ? ? Hr Hdf]; subst. constructor; [| now apply IH].
    eapply Forall_of_sublist; eassumption.
  - inversion Hd; subst. now apply IH.
Qed.

Lemma minutes_of_lt (a b : time) :
  valid_time a -> valid_time b ->
  time_lt a b <-> minutes_of a < minutes_of b.
Proof. apply time_lt_minutes. Qed.

Lemma clean_row_record_of (f : form) :
  valid_form f ->
  fst (validate_time_input (f_start_time f) (f_end_time f) (f_date f)) = true ->
  clean_row (record_of f).
Proof.
  intros (Hd & Hs & He) Hv.
  apply validate_time_input_accepts in Hv as (Hlt & Hlo & Hhi).
  apply minutes_of_lt in Hlt; [| assumption ..].
  unfold clean_row, record_of. cbn [Date Start_Time End_Time Downtime_minutes].
  split; [now exists (f_date f) |]. repeat split; try tauto; try apply Hs;
    try apply He; try assumption.
Qed.

(** A form that passes the overlap check overlaps no row of the log. *)
Lemma check_duplicate_entry_false (df : DataFrame) (f : form) :
  check_duplicate_entry df (f_date f) (f_start_time f) (f_end_time f) = false ->
  Forall (fun other => ~ overlapping other (record_of f)) df.
Proof.
  intros Hdup. apply Forall_forall.
  intros other Hin ((d & Ho & Hr) & H1 & H2).
  apply not_true_iff_false in Hdup. apply Hdup.
  apply check_duplicate_entry_true. exists other.
  cbn [record_of Date Start_Time End_Time] in *.
  injection Hr as <-. rewrite <- !time_ltb_lt, <- !Is_true_true. auto.
Qed.

(** X3. The Log Outage handler keeps the log clean: when every row is
    dated, in order, inside the window and carries the downtime of its two
    times, and no two rows overlap, the same holds after a form delivered by
    the widgets is saved. *)
Theorem log_submit_keeps_clean (df df' : DataFrame) (f : form) :
  valid_form f -> clean_log df -> log_submit df f = Saved df' ->
  clean_log df'.
Proof.
  intros Hf [Hrows Hdis] H.
  apply log_submit_Saved in H as (_ & Hv & Hdup & ->). split.
  - apply Forall_app. split; [exact Hrows |].
    apply Forall_cons. split; [now apply clean_row_record_of | constructor].
  - apply disjoint_log_snoc; [exact Hdis |].
    now apply check_duplicate_entry_false.
Qed.

Lemma valid_form_feb_15 :
  valid_form (mkform (mkdate 2024 February 15) (mktime 9 0) (mktime 10 0)
                     "Power" "").
Proof.
  unfold valid_form, valid_date, valid_time. cbn [f_date f_start_time
    f_end_time year month day hour minute]. vm_compute.
  repeat split; discriminate.
Defined.

Lemma valid_form_next : valid_form form_next.
Proof.
  unfold valid_form, valid_date, valid_time. vm_compute.
  repeat split; discriminate.
Defined.

Lemma valid_form_day_after : valid_form form_day_after.
Proof.
  unfold valid_form, valid_date, valid_time. vm_compute.
  repeat split; discriminate.
Defined.

Lemma clean_log_feb_15 :
  clean_log
    [record_of (mkform (mkdate 2024 February 15) (mktime 9 0) (mktime 10 0)
                       "Power" "")].
Proof.
  split.
  - apply Forall_cons. split; [| constructor].
    apply clean_row_record_of; [exact valid_form_feb_15 | reflexivity].
  - repeat constructor.
Defined.

(** A log with 09:00-10:00 on 15 February 2024 and the form 10:00-10:30 of
    the same date: the overlap check runs against the existing record, the
    form is saved and the log of the two records is clean. *)
Lemma log_submit_keeps_clean_witness :
  clean_log [record_of form_morning]
  /\ check_duplicate_entry [record_of form_morning] (f_date form_next)
       (f_start_time form_next) (f_end_time form_next) = false
  /\ log_submit [record_of form_morning] form_next
     = Saved [record_of form_morning; record_of form_next]
  /\ clean_log [record_of form_morning; record_of form_next].
Proof.
  split; [exact clean_log_feb_15 |]. split; [reflexivity |].
  split; [reflexivity |].
  exact (log_submit_keeps_clean [record_of form_morning] _ form_next
           valid_form_next clean_log_feb_15 eq_refl).
Defined.

(** X4. A saved form adds one row at the end of the log and changes no
    other; for times of day the downtime stored is the number of minutes
    from start to end, at least 1 and at most 1050. *)
Theorem log_submit_appends (df df' : DataFrame) (f : form) :
  valid_time (f_start_time f) -> valid_time (f_end_time f) ->
  log_submit df f = Saved df' ->
  length df' = S (length df)
  /\ (forall i, i < length df -> df' !! i = df !! i)%nat
  /\ exists row, last df' = Some row
       /\ Date row = Some (f_date f)
       /\ Start_Time row = f_start_time f /\ End_Time row = f_end_time f
       /\ Failure_Type row = Some (f_failure_type f)
       /\ Downtime_minutes row
          = minutes_of (f_end_time f) - minutes_of (f_start_time f)
       /\ 1 <= Downtime_minutes row <= 1050.
Proof.
  intros Hs He H. apply log_submit_Saved in H as (_ & Hv & _ & ->).
  apply validate_time_input_accepts in Hv as (Hlt & Hlo & Hhi).
  apply minutes_of_lt in Hlt; [| assumption ..].
  split; [rewrite length_app; cbn; lia |].
  split; [intros i Hi; now apply lookup_app_l |].
  exists (record_of f). rewrite last_snoc.
  unfold record_of, downtime_of, minutes_of in *.
  cbn [Date Start_Time End_Time Failure_Type Downtime_minutes].
  repeat split; lia.
Qed.

Lemma log_submit_appends_witness :
  exists row,
    last [record_of (mkform (mkdate 2024 February 15) (mktime 9 0)
                            (mktime 10 0) "Power" "")] = Some row
    /\ 1 <= Downtime_minutes row <= 1050.
Proof.
  destruct (log_submit_appends [] _
              (mkform (mkdate 2024 February 15) (mktime 9 0) (mktime 10 0)
                      "Power" "")
              (proj1 (proj2 valid_form_feb_15))
              (proj2 (proj2 valid_form_feb_15)) eq_refl)
    as (_ & _ & row & Hl & _ & _ & _ & _ & _ & Hd).
  exists row. split; [exact Hl | exact Hd].
Defined.

(** X5. A successful edit replaces the row at the index and nothing else:
    the log keeps its length and its other rows, the new row is the record
    of the form with the downtime recomputed from its two times, and the
    rows stay dated, in order and inside the window.  The index is out of
    range exactly when the handler ends in [IndexError]. *)
Theorem edit_submit_replaces (df : DataFrame) (i : nat) (f : form) :
  (edit_submit df i f = IndexError <-> (length df <= i)%nat)
  /\ (forall df', edit_submit df i f = Saved df' ->
        (i < length df)%nat
        /\ length df' = length df
        /\ df' !! i = Some (record_of f)
        /\ (forall j, j <> i -> df' !! j = df !! j)
        /\ (valid_form f -> Forall clean_row df -> Forall clean_row df')).
Proof.
  split.
  - unfold edit_submit. destruct (df !! i) as [r|] eqn:E.
    + apply lookup_lt_Some in E. split; [| lia].
      destruct (Date r); [| discriminate].
      destruct (validate_required_fields _ _ _ _) as [[] m1]; cbn [negb];
        [| discriminate].
      destruct (validate_time_input _ _ _) as [[] m2]; discriminate.
    + apply lookup_ge_None in E. tauto.
  - intros df' H. unfold edit_submit in H.
    destruct (df !! i) as [r|] eqn:E; [| discriminate].
    apply lookup_lt_Some in E.
    destruct (Date r); [| discriminate].
    destruct (validate_required_fields _ _ _ _) as [[] m1]; cbn [negb] in H;
      [| discriminate].
    destruct (validate_time_input _ _ _) as [[] m2] eqn:Hv; cbn [negb] in H;
      [| discriminate].
    injection H as <-.
    split; [exact E |]. split; [apply length_insert |].
    split; [now apply list_lookup_insert_eq |].
    split; [intros j Hj; now apply list_lookup_insert_ne |].
    intros Hf Hrows. apply Forall_insert; [exact Hrows |].
    apply clean_row_record_of; [exact Hf | now rewrite Hv].
Qed.

(** X6. Confirm Delete, for the row at position [i] of the log: an index
    outside the log ends in [IndexError]; a row without a date ends in
    [ValueError], raised when the page formats the date of the selected
    record, before the button is drawn; a dated row is removed and nothing
    else is: the rows before keep their place, the rows after move up by
    one, and a clean log stays clean. *)
Theorem delete_submit_removes (df : DataFrame) (i : nat) :
  (delete_submit df i = IndexError <-> (length df <= i)%nat)
  /\ (delete_submit df i = ValueError
      <-> exists row, df !! i = Some row /\ Date row = None)
  /\ (forall row d, df !! i = Some row -> Date row = Some d ->
        exists df', delete_submit df i = Saved df'
          /\ length df = S (length df')
          /\ (forall j, (j < i)%nat -> df' !! j = df !! j)
          /\ (forall j, (i <= j)%nat -> df' !! j = df !! S j))
  /\ (forall df', delete_submit df i = Saved df' ->
        (exists row d, df !! i = Some row /\ Date row = Some d)
        /\ length df = S (length df')
        /\ (forall j, (j < i)%nat -> df' !! j = df !! j)
        /\ (forall j, (i <= j)%nat -> df' !! j = df !! S j)
        /\ (clean_log df -> clean_log df')).
Proof.
  unfold delete_submit, DataFrame in *. destruct (df !! i) as [r|] eqn:E.
  - pose proof (lookup_lt_Some _ _ _ E) as Hi.
    assert (Hdel : length df = S (length (delete i df))
                   /\ (forall j, (j < i)%nat -> delete i df !! j = df !! j)
                   /\ (forall j, (i <= j)%nat -> delete i df !! j = df !! S j)).
    { split; [rewrite length_delete by eauto; lia |].
      split; [intros j Hj; now apply list_lookup_delete_lt |].
      intros j Hj; now apply list_lookup_delete_ge. }
    destruct (Date r) as [d|] eqn:Ed.
    + split; [split; [discriminate | lia] |].
      split; [split; [discriminate | intros (row & [= <-] & Hd); congruence] |].
      split; [intros row d' _ _; eauto |].
      intros df' [= <-]. split; [eauto |].
      destruct Hdel as (H1 & H2 & H3). repeat (split; [assumption |]).
      intros [Hrows Hdis]. split.
      * eapply Forall_of_sublist; [apply sublist_delete | exact Hrows].
      * eapply disjoint_log_sublist; [apply sublist_delete | exact Hdis].
    + split; [split; [discriminate | lia] |].
      split; [split; [eauto | reflexivity] |].
      split; [intros row d [= <-] Hd; congruence | discriminate].
  - apply lookup_ge_None in E.
    split; [tauto |].
    split; [split; [discriminate | intros (row & [=] & _)] |].
    split; [intros row d [=] | discriminate].
Qed.

(** A log of an undated row and a dated row: the first cannot be deleted,
    the second can. *)
Lemma delete_submit_undated (s e : time) (n : Z) (ft : option string)
    (rk : string) (row : outage) (d : date) :
  Date row = Some d ->
  delete_submit [mkoutage None s e n ft rk; row] 0 = ValueError
  /\ delete_submit [mkoutage None s e n ft rk; row] 1
     = Saved [mkoutage None s e n ft rk].
Proof. intros H. unfold delete_submit. cbn. now rewrite H. Qed.

(** X7. Deleting the row of a record right after it was saved, at the
    place where the reload, which sorts the log by date, has put it, gives
    back the rows the log had before the form, up to their order. *)
Theorem log_then_delete (df df' loaded : DataFrame) (f : form) (i : nat) :
  log_submit df f = Saved df' ->
  df' ≡ₚ loaded ->
  loaded !! i = Some (record_of f) ->
  exists df'', delete_submit loaded i = Saved df'' /\ df'' ≡ₚ df.
Proof.
  intros H Hp Hi. apply log_submit_Saved in H as (_ & _ & _ & ->).
  unfold delete_submit, DataFrame in *. rewrite Hi. cbn [record_of Date].
  eexists. split; [reflexivity |].
  apply (Permutation_cons_inv (a := record_of f)).
  rewrite <- (delete_Permutation loaded i (record_of f) Hi), <- Hp.
  now rewrite Permutation_app_comm.
Qed.

(** A log with a record of 1 January 2024 and the form of 15 February
    2024: the reload puts the new record first, and deleting row 0 leaves
    the record of January. *)
Lemma log_then_delete_witness :
  log_submit log_january form_morning
  = Saved (log_january ++ [record_of form_morning])
  /\ exists df'',
       delete_submit (record_of form_morning :: log_january) 0 = Saved df''
       /\ df'' ≡ₚ log_january.
Proof.
  split; [reflexivity |].
  apply (log_then_delete log_january
           (log_january ++ [record_of form_morning])
           (record_of form_morning :: log_january) form_morning 0).
  - reflexivity.
  - unfold log_january. apply Permutation_swap.
  - reflexivity.
Defined.

(* ================================================================== *)
(** * Sums over groups *)

Lemma sum_over_cons {A} (f : A -> Z) (x : A) (l : list A) :
  sum_over f (x :: l) = f x + sum_over f l.
Proof. reflexivity. Qed.

Lemma sum_over_Permutation {A} (f : A -> Z) (l l' : list A) :
  l ≡ₚ l' -> sum_over f l = sum_over f l'.
Proof. intros H. unfold sum_over. apply exact_sum_Permutation. now rewrite H. Qed.

Lemma sum_over_filter_split {A} (f : A -> Z) (P : A -> Prop)
    `{forall x, Decision (P x)} (l : list A) :
  sum_over f (filter P l) + sum_over f (filter (fun x => ~ P x) l)
  = sum_over f l.
Proof.
  induction l as [|x l IH]; [reflexivity |].
  destruct (decide (P x)) as [Hx | Hx].
  - rewrite filter_cons_True by exact Hx.
    rewrite filter_cons_False by tauto. rewrite !sum_over_cons. lia.
  - rewrite filter_cons_False by exact Hx.
    rewrite filter_cons_True by exact Hx. rewrite !sum_over_cons. lia.
Qed.

(** Groups over keys that occur once and cover the rows add up to the
    whole. *)
Lemma sum_partition {A K} `{EqDecision K} (key : A -> K) (f : A -> Z)
    (ks : list K) (l : list A) :
  NoDup ks -> (forall x, x ∈ l -> key x ∈ ks) ->
  exact_sum ((fun k => sum_over f (filter (fun x => key x = k) l)) <$> ks)
  = sum_over f l.
Proof.
  intros Hnd. revert l. induction Hnd as [|k ks Hk Hnd IH]; intros l Hl.
  - destruct l as [|x l]; [reflexivity |].
    specialize (Hl x ltac:(left)). inversion Hl.
  - cbn [fmap list_fmap]. change (exact_sum (?a :: ?b)) with (a + exact_sum b).
    rewrite <- (sum_over_filter_split f (fun x => key x = k) l). f_equal.
    rewrite <- (IH (filter (fun x => key x <> k) l)).
    + f_equal. apply Forall_fmap_ext, Forall_forall. intros k' Hk'.
      f_equal. rewrite list_filter_filter. apply list_filter_iff.
      intros x. split; [| tauto]. intros ->. split; [reflexivity |].
      intros ->. contradiction.
    + intros x Hx. apply list_elem_of_filter in Hx as [Hne Hx].
      specialize (Hl x Hx). apply elem_of_cons in Hl as [| Hin];
        [contradiction | exact Hin].
Qed.

(** The sum of a column of the aggregated rows that pass a filter on the
    key. *)
Lemma sum_filter_agg {A K O} (agg : K * list A -> option O)
    (G : K -> list A) (Po : O -> Prop) (Pk : K -> Prop)
    `{forall o, Decision (Po o)} `{forall k, Decision (Pk k)}
    (F : O -> Z) (H' : K -> Z) (ks : list K) :
  (forall k, k ∈ ks ->
     exists o, agg (k, G k) = Some o /\ (Po o <-> Pk k) /\ F o = H' k) ->
  sum_over F (filter Po (omap agg ((fun k => (k, G k)) <$> ks)))
  = exact_sum (H' <$> filter Pk ks).
Proof.
  induction ks as [|k ks IH]; intros Hks; [reflexivity |].
  cbn [fmap list_fmap omap list_omap].
  destruct (Hks k ltac:(left)) as (o & -> & Hiff & HF).
  assert (IH' := IH (fun k' Hk' => Hks k' ltac:(now right))).
  destruct (decide (Pk k)) as [Hk | Hk].
  - rewrite (filter_cons_True Pk) by exact Hk.
    rewrite filter_cons_True by tauto.
    cbn [fmap list_fmap]. rewrite sum_over_cons, IH', HF. reflexivity.
  - rewrite (filter_cons_False Pk) by exact Hk.
    rewrite filter_cons_False by tauto. exact IH'.
Qed.

Lemma col_count_sum_over (g : list dated) :
  col_count (col_Failure_Type g) = sum_over typed_row g.
Proof.
  unfold col_count, col_Failure_Type.
  induction g as [|r g IH]; [reflexivity |].
  cbn [fmap list_fmap]. rewrite sum_over_cons. unfold typed_row at 1.
  destruct (Failure_Type (snd r)) as [ft|] eqn:E.
  - rewrite filter_cons_True by now eexists. cbn [length]. lia.
  - rewrite filter_cons_False by now intros [? [=]]. lia.
Qed.

Lemma col_Downtime_sum_over (g : list dated) :
  exact_sum (col_Downtime g) = sum_over (fun r => Downtime_minutes (snd r)) g.
Proof. reflexivity. Qed.

Lemma filter_all {A} (P : A -> Prop) `{forall x, Decision (P x)}
    (l : list A) :
  (forall x, x ∈ l -> P x) -> filter P l = l.
Proof.
  induction l as [|x l IH]; intros Hl; [reflexivity |].
  rewrite filter_cons_True by (apply Hl; left). f_equal.
  apply IH. intros y Hy. apply Hl. now right.
Qed.

Lemma sum_over_filter_fmap {A B} (f : A -> B) (g : B -> Z) (P : B -> Prop)
    `{forall b, Decision (P b)} (l : list A) :
  sum_over g (filter P (f <$> l))
  = sum_over (fun a => g (f a)) (filter (fun a => P (f a)) l).
Proof.
  induction l as [|a l IH]; [reflexivity |]. cbn [fmap list_fmap].
  destruct (decide (P (f a))) as [Ha | Ha].
  - rewrite !filter_cons_True by exact Ha. rewrite !sum_over_cons.
    now rewrite IH.
  - now rewrite !filter_cons_False by exact Ha.
Qed.

Lemma sum_over_fmap {A B} (f : A -> B) (g : B -> Z) (l : list A) :
  sum_over g (f <$> l) = sum_over (fun a => g (f a)) l.
Proof. unfold sum_over. now rewrite <- list_fmap_compose. Qed.

Lemma dropna_Date_snd (df : DataFrame) : snd <$> dropna_Date df = parsed df.
Proof.
  unfold dropna_Date, parsed, DataFrame in *.
  induction df as [|row df IH]; [reflexivity |].
  cbn [omap list_omap]. destruct (Date row) as [d|] eqn:E.
  - rewrite filter_cons_True by (rewrite E; now eexists).
    cbn [fmap list_fmap snd]. now rewrite IH.
  - rewrite filter_cons_False by (rewrite E; now intros [? [=]]). exact IH.
Qed.

(** The monthly rows of one year add up to the records of that year, for
    any column that the aggregation sums over the group. *)
Lemma monthly_rows_sum_year (F : Monthly.row -> Z) (v : dated -> Z)
    (df_copy : list dated) (y : Z) :
  (forall k g o, g `sublist_of` df_copy -> monthly_agg (k, g) = Some o ->
     Monthly.Year o = key_year k /\ F o = sum_over v g) ->
  sum_over F (filter (fun o => Monthly.Year o = y) (monthly_rows df_copy))
  = sum_over v (in_year y df_copy).
Proof.
  intros Hagg. unfold monthly_rows, groupby.
  rewrite (sum_filter_agg monthly_agg (get_group monthly_key_of df_copy)
             (fun o => Monthly.Year o = y) (fun k => key_year k = y) F
             (fun k => sum_over v (get_group monthly_key_of df_copy k))).
  2: { intros [[y' m] n] Hk.
       apply (get_group_nonempty monthly_key_leb) in Hk.
       eexists. split; [exact (monthly_agg_Some y' n m _ Hk) |].
       destruct (Hagg _ _ _ (sublist_filter _ _)
                   (monthly_agg_Some y' n m _ Hk)) as [Hy HF].
       rewrite Hy, HF. unfold key_year. cbn [fst]. tauto. }
  rewrite <- (sum_partition monthly_key_of v
                (filter (fun k => key_year k = y)
                        (group_keys monthly_key_leb monthly_key_of df_copy))
                (in_year y df_copy)).
  - f_equal. apply Forall_fmap_ext, Forall_forall. intros k Hk.
    apply list_elem_of_filter in Hk as [Hy _]. f_equal.
    unfold get_group, in_year. rewrite list_filter_filter.
    apply list_filter_iff. intros r. split; [| tauto].
    intros <-. split; [reflexivity |]. exact Hy.
  - apply NoDup_filter, NoDup_group_keys.
  - intros r Hr. apply list_elem_of_filter in Hr as [Hy Hr].
    apply list_elem_of_filter. split; [exact Hy |].
    apply elem_of_group_keys. eauto.
Qed.

Lemma monthly_summary_sum_year (FO : MonthlyOut.row -> Z)
    (v : dated -> Z) (df_copy : list dated) (y : Z) :
  (forall k g o, g `sublist_of` df_copy -> monthly_agg (k, g) = Some o ->
     Monthly.Year o = key_year k /\ FO (drop_Month_Num o) = sum_over v g) ->
  sum_over FO (filter (fun r => MonthlyOut.Year r = y)
                      (monthly_summary df_copy))
  = sum_over v (in_year y df_copy).
Proof.
  intros Hagg. unfold monthly_summary. rewrite sum_over_filter_fmap.
  cbn [drop_Month_Num MonthlyOut.Year].
  rewrite <- (monthly_rows_sum_year (fun o => FO (drop_Month_Num o)) v)
    by exact Hagg.
  apply sum_over_Permutation. unfold monthly_sorted.
  now rewrite merge_sort_Permutation.
Qed.

(** "sum" over a group of a bounded log, as a sum over its rows. *)
Lemma col_sum_group_sum_over (df : DataFrame) (g : list dated) :
  bounded_log df -> g `sublist_of` dropna_Date df ->
  col_sum (col_Downtime g) = sum_over (fun r => Downtime_minutes (snd r)) g.
Proof.
  intros Hb Hs. rewrite (col_sum_group df) by assumption.
  now rewrite <- exact_sum_total_minutes.
Qed.

Lemma monthly_agg_sums (k : monthly_key) (g : list dated) (o : Monthly.row) :
  monthly_agg (k, g) = Some o ->
  Monthly.Year o = key_year k
  /\ Monthly.Total_Downtime_Minutes o = col_sum (col_Downtime g)
  /\ Monthly.Failure_Count o = sum_over typed_row g.
Proof.
  destruct k as [[y m] n]. unfold monthly_agg.
  destruct (col_mean (col_Downtime g)); [| discriminate].
  cbn [mbind option_bind]. intros [= <-].
  cbn [Monthly.Year Monthly.Total_Downtime_Minutes Monthly.Failure_Count].
  now rewrite col_count_sum_over.
Qed.

(** X8. For a log whose downtimes stay inside 64 bits, each row of the
    yearly summary carries the sums of the rows of the monthly summary with
    its year: for the total downtime and for the failure count. *)
Theorem yearly_is_sum_of_monthly (year_now : Z) (today : date)
    (df : DataFrame) (ry : Yearly.row) :
  bounded_log df ->
  ry ∈ yearly (build_comprehensive_summary year_now today df) ->
  Yearly.Total_Downtime_Minutes ry
  = sum_over MonthlyOut.Total_Downtime_Minutes
      (filter (fun r => MonthlyOut.Year r = Yearly.Year ry)
              (monthly (build_comprehensive_summary year_now today df)))
  /\ Yearly.Failure_Count ry
     = sum_over MonthlyOut.Failure_Count
         (filter (fun r => MonthlyOut.Year r = Yearly.Year ry)
                 (monthly (build_comprehensive_summary year_now today df))).
Proof.
  intros Hb. rewrite build_yearly, build_monthly. intros Hr.
  apply elem_of_yearly_summary in Hr as (y & mx & mn & _ & _ & _ & ->).
  cbn [yearly_row_of Yearly.Year Yearly.Total_Downtime_Minutes
       Yearly.Failure_Count].
  split.
  - rewrite (monthly_summary_sum_year _
               (fun r => Downtime_minutes (snd r))).
    + apply (col_sum_group_sum_over df); [exact Hb | apply in_year_sublist].
    + intros k g o Hg Ho. apply monthly_agg_sums in Ho as (Hy & Ht & _).
      split; [exact Hy |]. cbn [drop_Month_Num MonthlyOut.Total_Downtime_Minutes].
      rewrite Ht. now apply (col_sum_group_sum_over df).
  - rewrite (monthly_summary_sum_year _ typed_row).
    + apply col_count_sum_over.
    + intros k g o _ Ho. apply monthly_agg_sums in Ho as (Hy & _ & Hc).
      now split.
Qed.

(** One record of 2023, two of April 2024 and one of May 2024: the row of
    2024 carries the 75 and 60 minutes of the two monthly rows of 2024. *)
Lemma yearly_is_sum_of_monthly_witness :
  bounded_log log_two_years
  /\ exists ry,
       ry ∈ yearly (build_comprehensive_summary 2024 (mkdate 2024 April 30)
                      log_two_years)
       /\ Yearly.Year ry = 2024
       /\ Yearly.Total_Downtime_Minutes ry
          = sum_over MonthlyOut.Total_Downtime_Minutes
              (filter (fun r => MonthlyOut.Year r = Yearly.Year ry)
                      (monthly (build_comprehensive_summary 2024
                                  (mkdate 2024 April 30) log_two_years))).
Proof.
  split; [exact bounded_log_two_years |].
  eexists. split; [right; left |]. split; [reflexivity |].
  refine (proj1 (yearly_is_sum_of_monthly 2024 (mkdate 2024 April 30)
                   log_two_years _ bounded_log_two_years _)).
  right; left.
Defined.

Lemma yearly_agg_sums (y : Z) (g : list dated) (o : Yearly.row) :
  yearly_agg (y, g) = Some o ->
  Yearly.Total_Downtime_Minutes o = col_sum (col_Downtime g)
  /\ Yearly.Failure_Count o = sum_over typed_row g.
Proof.
  unfold yearly_agg.
  destruct (col_mean (col_Downtime g)); [| discriminate].
  destruct (col_max (col_Downtime g)); [| discriminate].
  destruct (col_min (col_Downtime g)); [| discriminate].
  cbn [mbind option_bind]. intros [= <-].
  cbn [Yearly.Total_Downtime_Minutes Yearly.Failure_Count].
  now rewrite col_count_sum_over.
Qed.

Lemma yearly_summary_sum (F : Yearly.row -> Z) (v : dated -> Z)
    (df_copy : list dated) :
  (forall y g o, g `sublist_of` df_copy -> yearly_agg (y, g) = Some o ->
     F o = sum_over v g) ->
  sum_over F (yearly_summary df_copy) = sum_over v df_copy.
Proof.
  intros Hagg. unfold yearly_summary, groupby.
  rewrite <- (filter_all (fun _ : Yearly.row => True) (omap _ _)) by auto.
  rewrite (sum_filter_agg yearly_agg (get_group col_Year df_copy)
             (fun _ => True) (fun _ => True) F
             (fun y => sum_over v (get_group col_Year df_copy y))).
  2: { intros y Hy. apply (get_group_nonempty Z.leb) in Hy.
       destruct (yearly_agg_Some y _ Hy) as (mx & mn & _ & _ & E).
       eexists. split; [exact E |]. split; [tauto |].
       exact (Hagg _ _ _ (sublist_filter _ _) E). }
  rewrite filter_all by auto.
  apply sum_partition; [apply NoDup_group_keys |].
  intros r Hr. apply elem_of_group_keys. eauto.
Qed.

Lemma monthly_summary_sum (FO : MonthlyOut.row -> Z) (v : dated -> Z)
    (df_copy : list dated) :
  (forall k g o, g `sublist_of` df_copy -> monthly_agg (k, g) = Some o ->
     FO (drop_Month_Num o) = sum_over v g) ->
  sum_over FO (monthly_summary df_copy) = sum_over v df_copy.
Proof.
  intros Hagg. unfold monthly_summary, monthly_sorted.
  rewrite sum_over_fmap.
  rewrite (sum_over_Permutation _ _ _ (merge_sort_Permutation _ _)).
  unfold monthly_rows, groupby.
  rewrite <- (filter_all (fun _ : Monthly.row => True) (omap _ _)) by auto.
  rewrite (sum_filter_agg monthly_agg (get_group monthly_key_of df_copy)
             (fun _ => True) (fun _ => True)
             (fun o => FO (drop_Month_Num o))
             (fun k => sum_over v (get_group monthly_key_of df_copy k))).
  2: { intros [[y m] n] Hk.
       apply (get_group_nonempty monthly_key_leb) in Hk.
       eexists. split; [exact (monthly_agg_Some y n m _ Hk) |].
       split; [tauto |].
       exact (Hagg _ _ _ (sublist_filter _ _) (monthly_agg_Some y n m _ Hk)). }
  rewrite filter_all by auto.
  apply sum_partition; [apply NoDup_group_keys |].
  intros r Hr. apply elem_of_group_keys. eauto.
Qed.

(** X9. No dated record is lost or counted twice.  For a log whose
    downtimes stay inside 64 bits, the total downtimes of the yearly rows
    and those of the monthly rows both add up to the sum of the downtimes
    of the rows of the log with a parsed date, and the failure counts of
    the two summaries add up to the same number, the number of those rows
    that carry a failure type. *)
Theorem summaries_add_up (year_now : Z) (today : date) (df : DataFrame) :
  bounded_log df ->
  let s := build_comprehensive_summary year_now today df in
  sum_over Yearly.Total_Downtime_Minutes (yearly s)
  = total_minutes (parsed df)
  /\ sum_over MonthlyOut.Total_Downtime_Minutes (monthly s)
     = total_minutes (parsed df)
  /\ sum_over Yearly.Failure_Count (yearly s)
     = len (filter (fun row => is_Some (Failure_Type row)) (parsed df))
  /\ sum_over MonthlyOut.Failure_Count (monthly s)
     = len (filter (fun row => is_Some (Failure_Type row)) (parsed df)).
Proof.
  intros Hb. cbv zeta. rewrite build_yearly, build_monthly.
  assert (Hd : sum_over (fun r : dated => Downtime_minutes (snd r))
                 (dropna_Date df)
               = total_minutes (parsed df)).
  { rewrite <- dropna_Date_snd, <- exact_sum_total_minutes. reflexivity. }
  assert (Ht : sum_over typed_row (dropna_Date df)
               = len (filter (fun row => is_Some (Failure_Type row))
                             (parsed df))).
  { rewrite <- dropna_Date_snd. generalize (dropna_Date df). intros l.
    unfold len, DataFrame in *. induction l as [|r l IH]; [reflexivity |].
    rewrite sum_over_cons, IH. cbn [fmap list_fmap]. unfold typed_row.
    destruct (Failure_Type (snd r)) as [ft|] eqn:E.
    - rewrite filter_cons_True by (rewrite E; now eexists).
      cbn [length]. lia.
    - rewrite filter_cons_False by (rewrite E; now intros [? [=]]). lia. }
  rewrite <- Hd, <- Ht. repeat split.
  - apply yearly_summary_sum. intros y g o Hg Ho.
    apply yearly_agg_sums in Ho as [-> _].
    now apply (col_sum_group_sum_over df).
  - apply monthly_summary_sum. intros k g o Hg Ho.
    apply monthly_agg_sums in Ho as (_ & Ho & _).
    cbn [drop_Month_Num MonthlyOut.Total_Downtime_Minutes]. rewrite Ho.
    now apply (col_sum_group_sum_over df).
  - apply yearly_summary_sum. intros y g o _ Ho.
    now apply yearly_agg_sums in Ho.
  - apply monthly_summary_sum. intros k g o _ Ho.
    now apply monthly_agg_sums in Ho.
Qed.

(** One record of 2023 (20 minutes) and three of 2024 (60, 30 and 45
    minutes): the two yearly totals and the three monthly totals both add
    up to 155 minutes, the failure counts to 4. *)
Lemma summaries_add_up_witness :
  bounded_log log_two_years
  /\ (let s := build_comprehensive_summary 2024 (mkdate 2024 June 1)
                 log_two_years in
      sum_over Yearly.Total_Downtime_Minutes (yearly s) = 155
      /\ sum_over MonthlyOut.Total_Downtime_Minutes (monthly s) = 155
      /\ sum_over Yearly.Failure_Count (yearly s) = 4
      /\ sum_over MonthlyOut.Failure_Count (monthly s) = 4).
Proof.
  split; [exact bounded_log_two_years |].
  exact (summaries_add_up 2024 (mkdate 2024 June 1) log_two_years
           bounded_log_two_years).
Defined.

(* ================================================================== *)
(** * The sign and the range of the availability *)

Lemma Qdiv_inject_sign (n b : Z) :
  0 < b ->
  ((0 <= inject_Z n / inject_Z b)%Q <-> 0 <= n)
  /\ ((inject_Z n / inject_Z b <= 100)%Q <-> n <= 100 * b).
Proof.
  intros Hb. destruct b as [|p|p]; try lia.
  unfold Qle, Qdiv, Qmult, Qinv, inject_Z. cbn. split; split; nia.
Qed.

(** The availability of a period of [days] days with [total] minutes of
    downtime is 100 * (days * 1050 - total) / (days * 1050). *)
Lemma availability_pct_days (days total : Z) :
  (availability_pct (broadcast_minutes days) total
   == inject_Z (100 * (days * daily_budget - total))
      / inject_Z (days * daily_budget))%Q.
Proof.
  rewrite (availability_pct_formula _ _ _ (broadcast_minutes_budget days)).
  generalize (days * daily_budget). intros b.
  assert (E : (inject_Z (100 * (b - total))
               == 100 * (inject_Z b - inject_Z total))%Q).
  { rewrite inject_Z_mult. unfold Z.sub.
    rewrite inject_Z_plus, inject_Z_opp. reflexivity. }
  rewrite E. reflexivity.
Qed.

Lemma availability_pct_sign (days total : Z) :
  0 < days ->
  ((0 <= availability_pct (broadcast_minutes days) total)%Q
   <-> total <= days * daily_budget)
  /\ ((availability_pct (broadcast_minutes days) total <= 100)%Q
      <-> 0 <= total).
Proof.
  intros Hd. rewrite availability_pct_days.
  assert (Hb : 0 < days * daily_budget) by (unfold daily_budget; lia).
  destruct (Qdiv_inject_sign (100 * (days * daily_budget - total))
              (days * daily_budget) Hb) as [H0 H100].
  rewrite H0, H100. lia.
Qed.

(** X10. The availability is not clamped.  In every monthly and every
    yearly row it is at least 0 exactly when the total downtime is at most
    the budget of the period, and at most 100 exactly when the total
    downtime is not negative. *)
Theorem availability_not_clamped (year_now : Z) (today : date)
    (df : DataFrame) :
  let s := build_comprehensive_summary year_now today df in
  (forall r, r ∈ monthly s ->
     ((0 <= MonthlyOut.Availability r)%Q
      <-> MonthlyOut.Total_Downtime_Minutes r
          <= MonthlyOut.Days_in_Month r * daily_budget)
     /\ ((MonthlyOut.Availability r <= 100)%Q
         <-> 0 <= MonthlyOut.Total_Downtime_Minutes r))
  /\ (forall r, r ∈ yearly s ->
        ((0 <= Yearly.Availability r)%Q
         <-> Yearly.Total_Downtime_Minutes r
             <= Yearly.Days_in_Year r * daily_budget)
        /\ ((Yearly.Availability r <= 100)%Q
            <-> 0 <= Yearly.Total_Downtime_Minutes r)).
Proof.
  cbv zeta. rewrite build_monthly, build_yearly. split.
  - intros r Hr. apply elem_of_monthly_summary in Hr as (y & m & _ & ->).
    cbn [drop_Month_Num monthly_row_of MonthlyOut.Availability
         MonthlyOut.Total_Downtime_Minutes MonthlyOut.Days_in_Month
         Monthly.Availability Monthly.Total_Downtime_Minutes
         Monthly.Days_in_Month].
    apply availability_pct_sign.
    pose proof (get_days_in_month_pos y m). lia.
  - intros r Hr.
    apply elem_of_yearly_summary in Hr as (y & mx & mn & _ & _ & _ & ->).
    cbn [yearly_row_of Yearly.Availability Yearly.Total_Downtime_Minutes
         Yearly.Days_in_Year].
    apply availability_pct_sign. destruct (Period_is_leap_year y); lia.
Qed.

(** One record of 40000 minutes in February 2024: the monthly availability
    is negative. *)
Lemma availability_negative_example :
  exists r,
    monthly (build_comprehensive_summary 2024 (mkdate 2024 March 1)
               [mkoutage (Some (mkdate 2024 February 15)) (mktime 9 0)
                         (mktime 10 0) 40000 (Some "Power"%string)
                         ""%string])
    = [r]
    /\ (MonthlyOut.Availability r < 0)%Q.
Proof. eexists. split; reflexivity. Qed.

(* ================================================================== *)
(** * Intervals that do not meet *)

Lemma pairwise_apart_sublist (l k : list (Z * Z)) :
  l `sublist_of` k -> pairwise_apart k -> pairwise_apart l.
Proof.
  induction 1 as [| i l k Hs IH | i l k Hs IH]; intros Hk.
  - constructor.
  - inversion Hk as [| ? ? Hi Hk']; subst. constructor; [| now apply IH].
    eapply Forall_of_sublist; eassumption.
  - inversion Hk; subst. now apply IH.
Qed.

(** Intervals inside [a, b] that do not meet have a total length of at most
    b - a. *)
Lemma packing (n : nat) :
  forall (l : list (Z * Z)) (a b : Z),
    (length l <= n)%nat -> a <= b -> pairwise_apart l ->
    Forall (fun i => a <= fst i /\ fst i < snd i /\ snd i <= b) l ->
    total_length l <= b - a.
Proof.
  induction n as [|n IH]; intros l a b Hlen Hab Hp Hin.
  - destruct l; [unfold total_length; cbn; lia | cbn in Hlen; lia].
  - destruct l as [|[s e] l]; [unfold total_length; cbn; lia |].
    inversion Hp as [| ? ? Hse Hp']; subst.
    apply Forall_cons in Hin as [(Has & Hlt & Heb) Hin]. cbn [fst snd] in *.
    unfold total_length. change (exact_sum (?f <$> ?x)) with (sum_over f x).
    rewrite sum_over_cons. cbn [fst snd].
    rewrite <- (sum_over_filter_split _ (fun j : Z * Z => snd j <= s) l).
    assert (HL : total_length (filter (fun j : Z * Z => snd j <= s) l)
                 <= s - a).
    { apply IH; [| lia | |].
      - pose proof (length_filter (fun j : Z * Z => snd j <= s) l).
        cbn [length] in Hlen. lia.
      - eapply pairwise_apart_sublist; [apply sublist_filter | exact Hp'].
      - apply Forall_forall. intros j Hj.
        apply list_elem_of_filter in Hj as [Hjs Hj].
        rewrite Forall_forall in Hin. specialize (Hin j Hj). lia. }
    assert (HR : total_length (filter (fun j : Z * Z => ~ snd j <= s) l)
                 <= b - e).
    { apply IH; [| lia | |].
      - pose proof (length_filter (fun j : Z * Z => ~ snd j <= s) l).
        cbn [length] in Hlen. lia.
      - eapply pairwise_apart_sublist; [apply sublist_filter | exact Hp'].
      - apply Forall_forall. intros j Hj.
        apply list_elem_of_filter in Hj as [Hjs Hj].
        rewrite Forall_forall in Hin, Hse.
        specialize (Hin j Hj). specialize (Hse j Hj).
        unfold apart in Hse. cbn [fst snd] in Hse. lia. }
    unfold total_length in HL, HR.
    change (exact_sum (?f <$> ?x)) with (sum_over f x) in HL, HR. lia.
Qed.

Lemma apart_intervals (a b : outage) (d : date) :
  valid_time (Start_Time a) -> valid_time (End_Time a) ->
  valid_time (Start_Time b) -> valid_time (End_Time b) ->
  Date a = Some d -> Date b = Some d -> ~ overlapping a b ->
  apart (interval_of a) (interval_of b).
Proof.
  intros Vsa Vea Vsb Veb Ha Hb Hno [H1 H2]. apply Hno.
  unfold interval_of in *. cbn [fst snd] in *.
  split; [exists d; auto |].
  rewrite !Is_true_true, !time_ltb_lt, !minutes_of_lt by assumption. auto.
Qed.

Lemma on_date_cons (d : date) (row : outage) (df : DataFrame) :
  on_date d (row :: df)
  = if decide (Date row = Some d) then row :: on_date d df
    else on_date d df.
Proof.
  unfold on_date, DataFrame in *. destruct (decide (Date row = Some d)) as [E | E].
  - now rewrite filter_cons_True.
  - now rewrite filter_cons_False.
Qed.

Lemma disjoint_on_date (df : DataFrame) (d : date) :
  Forall clean_row df -> disjoint_log df ->
  pairwise_apart (interval_of <$> on_date d df).
Proof.
  intros Hc Hd. induction Hd as [|row df Hrow Hd IH].
  - constructor.
  - apply Forall_cons in Hc as [Hr Hc]. rewrite on_date_cons.
    destruct (decide (Date row = Some d)) as [E | E]; [| now apply IH].
    cbn [fmap list_fmap]. constructor; [| now apply IH].
    apply Forall_fmap, Forall_forall. intros other Ho.
    apply list_elem_of_filter in Ho as [Hod Ho].
    rewrite Forall_forall in Hrow, Hc.
    destruct Hr as (_ & Vs & Ve & _).
    destruct (Hc other Ho) as (_ & Vs' & Ve' & _).
    eapply apart_intervals; eauto.
Qed.

Lemma total_minutes_sum_over (rows : list outage) :
  total_minutes rows = sum_over Downtime_minutes rows.
Proof.
  induction rows as [|r l IH]; [reflexivity |].
  cbn [total_minutes]. rewrite sum_over_cons. now rewrite IH.
Qed.

Lemma on_date_total_bound (df : DataFrame) (d : date) :
  clean_log df -> 0 <= sum_over Downtime_minutes (on_date d df) <= 1050.
Proof.
  intros [Hc Hd].
  assert (Hc' : Forall clean_row (on_date d df))
    by (eapply Forall_of_sublist; [apply sublist_filter | exact Hc]).
  assert (E : sum_over Downtime_minutes (on_date d df)
              = total_length (interval_of <$> on_date d df)).
  { unfold total_length. change (exact_sum (?f <$> ?x)) with (sum_over f x).
    rewrite sum_over_fmap. induction Hc' as [|r l Hr _ IH]; [reflexivity |].
    rewrite !sum_over_cons, IH. f_equal.
    destruct Hr as (_ & _ & _ & _ & _ & _ & ->). reflexivity. }
  split.
  - clear E. induction Hc' as [|r l Hr _ IH]; [unfold sum_over; cbn; lia |].
    rewrite sum_over_cons. destruct Hr as (_ & _ & _ & _ & Hlt & _ & ->). lia.
  - rewrite E. change 1050 with (1320 - 270).
    apply (packing (length (interval_of <$> on_date d df)));
      [lia | lia | now apply disjoint_on_date |].
    apply Forall_fmap. eapply Forall_impl; [exact Hc' |].
    intros r (_ & _ & _ & Hlo & Hlt & Hhi & _). cbn. tauto.
Qed.

Lemma disjoint_log_Permutation (df df' : DataFrame) :
  df ≡ₚ df' -> disjoint_log df -> disjoint_log df'.
Proof.
  induction 1 as [| x l l' Hp IH | x y l | l l' l'' _ IH1 _ IH2];
    intros Hd.
  - exact Hd.
  - inversion Hd as [| ? ? Hx Hl]; subst. constructor; [| now apply IH].
    rewrite Forall_forall in *. intros other Ho. apply Hx.
    now rewrite Hp.
  - inversion Hd as [| ? ? Hy Hxl]; subst.
    inversion Hxl as [| ? ? Hx Hl]; subst.
    apply Forall_cons in Hy as [Hyx Hy].
    constructor; [| now constructor].
    apply Forall_cons. split; [| exact Hx].
    intros Hov. now apply Hyx, overlapping_sym.
  - auto.
Qed.

Lemma clean_log_Permutation (df df' : DataFrame) :
  df ≡ₚ df' -> clean_log df -> clean_log df'.
Proof.
  intros Hp [Hrows Hdis]. split.
  - rewrite Forall_forall in *. intros row Hrow. apply Hrows.
    now rewrite Hp.
  - now apply (disjoint_log_Permutation df).
Qed.

Lemma delete_submit_clean_log (df df' : DataFrame) (i : nat) :
  clean_log df -> delete_submit df i = Saved df' -> clean_log df'.
Proof.
  unfold delete_submit, DataFrame in *. intros [Hrows Hdis] H.
  destruct (df !! i) as [r|]; [| discriminate].
  destruct (Date r); [| discriminate]. injection H as <-. split.
  - eapply Forall_of_sublist; [apply sublist_delete | exact Hrows].
  - eapply disjoint_log_sublist; [apply sublist_delete | exact Hdis].
Qed.

(** Every log built by the Log Outage page and Confirm Delete is clean. *)
Lemma built_clean_log (df : DataFrame) : built df -> clean_log df.
Proof.
  induction 1 as [| df df' f _ IH Hf H | df df' i _ IH H | df df' _ IH Hp].
  - split; constructor.
  - destruct IH as [Hrows Hdis].
    apply log_submit_Saved in H as (_ & Hv & Hdup & ->). split.
    + apply Forall_app. split; [exact Hrows |].
      apply Forall_cons. split; [now apply clean_row_record_of | constructor].
    + now apply disjoint_log_snoc, check_duplicate_entry_false.
  - exact (delete_submit_clean_log df df' i IH H).
  - exact (clean_log_Permutation df df' Hp IH).
Qed.

Lemma built_log_two_days : built log_two_days.
Proof.
  apply (built_log [record_of form_morning; record_of form_next] _
           form_day_after);
    [| exact valid_form_day_after | reflexivity].
  apply (built_log [record_of form_morning] _ form_next);
    [| exact valid_form_next | reflexivity].
  apply (built_log [] _ form_morning);
    [exact built_empty | exact valid_form_feb_15 | reflexivity].
Defined.

(** X11. In every log built by the Log Outage page and Confirm Delete,
    whatever the order the reload leaves the rows in, the downtimes
    recorded for one date add up to at most 1050 minutes, the length of the
    broadcast window; as every record lasts a minute or more, the date has
    no more records than minutes of downtime. *)
Theorem daily_downtime_bound (df : DataFrame) (d : date) :
  built df ->
  len (on_date d df) <= total_minutes (on_date d df) <= 1050.
Proof.
  intros Hbuilt. pose proof (built_clean_log df Hbuilt) as Hclean.
  rewrite total_minutes_sum_over.
  split; [| now apply on_date_total_bound].
  destruct Hclean as [Hc _].
  assert (Hc' : Forall clean_row (on_date d df))
    by (eapply Forall_of_sublist; [apply sublist_filter | exact Hc]).
  unfold len. induction Hc' as [|r l Hr _ IH]; [unfold sum_over; cbn; lia |].
  rewrite sum_over_cons. cbn [length].
  destruct Hr as (_ & _ & _ & _ & Hlt & _ & E). lia.
Qed.

(** Three forms saved one after the other, two of them for 15 February
    2024 (09:00-10:00 and 10:00-10:30): that date has 2 records and 90
    minutes of downtime. *)
Lemma daily_downtime_bound_witness :
  built log_two_days
  /\ on_date (mkdate 2024 February 15) log_two_days
     = [record_of form_morning; record_of form_next]
  /\ total_minutes (on_date (mkdate 2024 February 15) log_two_days) = 90
  /\ len (on_date (mkdate 2024 February 15) log_two_days)
     <= total_minutes (on_date (mkdate 2024 February 15) log_two_days)
     <= 1050.
Proof.
  split; [exact built_log_two_days |]. split; [reflexivity |].
  split; [reflexivity |].
  exact (daily_downtime_bound log_two_days (mkdate 2024 February 15)
           built_log_two_days).
Defined.

(* ================================================================== *)
(** * The availability of a clean log *)

Lemma sum_on_date_dropna (df : DataFrame) (d : date) :
  sum_over (fun r : dated => Downtime_minutes (snd r))
           (filter (fun r : dated => fst r = d) (dropna_Date df))
  = sum_over Downtime_minutes (on_date d df).
Proof.
  unfold dropna_Date. induction df as [|row df IH]; [reflexivity |].
  rewrite on_date_cons. cbn [omap list_omap].
  destruct (Date row) as [d'|] eqn:E.
  - destruct (decide (Some d' = Some d)) as [[= ->] | Hne].
    + rewrite filter_cons_True by reflexivity.
      rewrite !sum_over_cons. now rewrite IH.
    + rewrite filter_cons_False by (cbn; congruence). exact IH.
  - destruct (decide (None = Some d)); [discriminate | exact IH].
Qed.

Lemma exact_sum_bound {K} (f : K -> Z) (c : Z) (ks : list K) :
  (forall k, k ∈ ks -> 0 <= f k <= c) ->
  0 <= exact_sum (f <$> ks) <= c * Z.of_nat (length ks).
Proof.
  induction ks as [|k ks IH]; intros H; [cbn; lia |].
  cbn [fmap list_fmap length]. change (exact_sum (?a :: ?b)) with (a + exact_sum b).
  specialize (H k ltac:(left)) as Hk.
  specialize (IH (fun k' Hk' => H k' ltac:(now right))). lia.
Qed.

Lemma dropna_Date_valid (df : DataFrame) (r : dated) :
  Forall clean_row df -> r ∈ dropna_Date df -> valid_date (fst r).
Proof.
  intros Hc Hr. apply elem_of_dropna_Date in Hr as [Hin Hd].
  rewrite Forall_forall in Hc.
  destruct (Hc _ Hin) as ((d & Hd' & Hv) & _). congruence.
Qed.

(** The downtime of a month of a clean log. *)
Lemma monthly_total_bound (df : DataFrame) (y : Z) (m : Month) :
  clean_log df ->
  0 <= sum_over (fun r : dated => Downtime_minutes (snd r))
         (in_month y m (dropna_Date df))
    <= get_days_in_month y (month_num m) * daily_budget.
Proof.
  intros Hclean. pose proof (get_days_in_month_pos y m) as Hdim.
  set (dim := get_days_in_month y (month_num m)) in *.
  rewrite <- (sum_partition (fun r : dated => day (fst r)) _ (seqZ 1 dim)).
  - replace (dim * daily_budget)
      with (1050 * Z.of_nat (length (seqZ 1 dim)))
      by (rewrite length_seqZ; unfold daily_budget; lia).
    apply exact_sum_bound. intros k _.
    replace (filter (fun x : dated => day (fst x) = k)
                    (in_month y m (dropna_Date df)))
      with (filter (fun r : dated => fst r = mkdate y m k) (dropna_Date df)).
    + rewrite sum_on_date_dropna. now apply on_date_total_bound.
    + unfold in_month. rewrite list_filter_filter. apply list_filter_iff.
      intros [[y' m' k'] row]. cbn [fst year month day]. split.
      * now intros [= -> -> ->].
      * now intros (-> & -> & ->).
  - apply NoDup_seqZ.
  - intros r Hr. apply list_elem_of_filter in Hr as [[Hy Hm] Hr].
    destruct Hclean as [Hc _].
    pose proof (dropna_Date_valid _ _ Hc Hr) as Hv. unfold valid_date in Hv.
    rewrite Hy, Hm in Hv. apply elem_of_seqZ. subst dim. lia.
Qed.

Lemma days_in_year_months (y : Z) :
  exact_sum ((fun m => get_days_in_month y (month_num m)) <$> all_months)
  = if Period_is_leap_year y then 366 else 365.
Proof.
  unfold Period_is_leap_year, get_days_in_month.
  now destruct (is_leapyear y).
Qed.

Lemma exact_sum_le {K} (f g : K -> Z) (ks : list K) :
  (forall k, k ∈ ks -> 0 <= f k <= g k) ->
  0 <= exact_sum (f <$> ks) <= exact_sum (g <$> ks).
Proof.
  induction ks as [|k ks IH]; intros H; [cbn; lia |].
  cbn [fmap list_fmap]. change (exact_sum (?a :: ?b)) with (a + exact_sum b).
  specialize (H k ltac:(left)) as Hk.
  specialize (IH (fun k' Hk' => H k' ltac:(now right))). lia.
Qed.

Lemma exact_sum_scale {K} (f : K -> Z) (c : Z) (ks : list K) :
  exact_sum ((fun k => f k * c) <$> ks) = exact_sum (f <$> ks) * c.
Proof.
  induction ks as [|k ks IH]; [reflexivity |].
  cbn [fmap list_fmap]. change (exact_sum (?a :: ?b)) with (a + exact_sum b).
  rewrite IH. lia.
Qed.

(** The downtime of a year of a clean log. *)
Lemma yearly_total_bound (df : DataFrame) (y : Z) :
  clean_log df ->
  0 <= sum_over (fun r : dated => Downtime_minutes (snd r))
         (in_year y (dropna_Date df))
    <= (if Period_is_leap_year y then 366 else 365) * daily_budget.
Proof.
  intros Hclean.
  rewrite <- (sum_partition (fun r : dated => month (fst r)) _ all_months).
  - rewrite <- days_in_year_months, <- exact_sum_scale.
    apply exact_sum_le. intros m _.
    replace (filter (fun x : dated => month (fst x) = m)
                    (in_year y (dropna_Date df)))
      with (in_month y m (dropna_Date df)).
    + now apply monthly_total_bound.
    + unfold in_month, in_year. rewrite list_filter_filter.
      apply list_filter_iff. intros r. tauto.
  - unfold all_months. apply NoDup_ListNoDup.
    repeat (constructor; [cbn; intuition discriminate |]). constructor.
  - intros r _. unfold all_months. destruct (month (fst r));
      repeat (first [left | right]); fail.
Qed.

(** X12. For a clean log, as the Log Outage handler and Confirm Delete keep
    it, every monthly and every yearly availability lies between 0 and
    100. *)
Theorem clean_log_availability_range (year_now : Z) (today : date)
    (df : DataFrame) :
  clean_log df ->
  let s := build_comprehensive_summary year_now today df in
  (forall r, r ∈ monthly s ->
     (0 <= MonthlyOut.Availability r)%Q
     /\ (MonthlyOut.Availability r <= 100)%Q)
  /\ (forall r, r ∈ yearly s ->
        (0 <= Yearly.Availability r)%Q /\ (Yearly.Availability r <= 100)%Q).
Proof.
  intros Hclean. cbv zeta. rewrite build_monthly, build_yearly. split.
  - intros r Hr. apply elem_of_monthly_summary in Hr as (y & m & _ & ->).
    cbn [drop_Month_Num monthly_row_of MonthlyOut.Availability
         Monthly.Availability].
    pose proof (get_days_in_month_pos y m) as Hdim.
    destruct (availability_pct_sign (get_days_in_month y (month_num m))
                (exact_sum (col_Downtime (in_month y m (dropna_Date df))))
                ltac:(lia)) as [H0 H100].
    pose proof (monthly_total_bound df y m Hclean) as Hb.
    rewrite <- col_Downtime_sum_over in Hb.
    unfold col_sum.
    rewrite wrap64_small by (unfold daily_budget in Hb; lia).
    split; [apply H0 | apply H100]; lia.
  - intros r Hr.
    apply elem_of_yearly_summary in Hr as (y & mx & mn & _ & _ & _ & ->).
    cbn [yearly_row_of Yearly.Availability].
    destruct (availability_pct_sign
                (if Period_is_leap_year y then 366 else 365)
                (exact_sum (col_Downtime (in_year y (dropna_Date df))))
                ltac:(destruct (Period_is_leap_year y); lia)) as [H0 H100].
    pose proof (yearly_total_bound df y Hclean) as Hb.
    rewrite <- col_Downtime_sum_over in Hb.
    unfold col_sum.
    rewrite wrap64_small
      by (unfold daily_budget in Hb; destruct (Period_is_leap_year y); lia).
    split; [apply H0 | apply H100]; lia.
Qed.

(** The log of 09:00-10:00 and 10:00-10:30 on 15 February 2024 and
    09:00-09:20 on the day after: one monthly row, with the 110 minutes of
    the three records, and its availability between 0 and 100. *)
Lemma clean_log_availability_range_witness :
  clean_log log_two_days
  /\ exists r,
       r ∈ monthly (build_comprehensive_summary 2024 (mkdate 2024 March 1)
                      log_two_days)
       /\ MonthlyOut.Total_Downtime_Minutes r = 110
       /\ MonthlyOut.Failure_Count r = 3
       /\ (0 <= MonthlyOut.Availability r)%Q
       /\ (MonthlyOut.Availability r <= 100)%Q.
Proof.
  split; [exact (built_clean_log _ built_log_two_days) |].
  eexists. split; [left |]. split; [reflexivity |]. split; [reflexivity |].
  refine (proj1 (clean_log_availability_range 2024 (mkdate 2024 March 1)
                   log_two_days (built_clean_log _ built_log_two_days)) _ _).
  left.
Defined.

(* ================================================================== *)
(** * The year to date, the year and the projection *)

Lemma ytd_select_in_year (y : Z) (t : date) (df_copy : list dated) :
  ytd_select y t df_copy
  = filter (fun r : dated => Is_true (date_leb (fst r) t))
           (in_year y df_copy).
Proof.
  unfold ytd_select, in_year, col_Year. rewrite list_filter_filter.
  apply list_filter_iff. intros r. tauto.
Qed.

Lemma sum_over_nonneg {A} (f : A -> Z) (l : list A) :
  (forall x, x ∈ l -> 0 <= f x) -> 0 <= sum_over f l.
Proof.
  induction l as [|x l IH]; intros H; [unfold sum_over; cbn; lia |].
  rewrite sum_over_cons. specialize (H x ltac:(left)) as Hx.
  specialize (IH (fun x' Hx' => H x' ltac:(now right))). lia.
Qed.

(** X13. For a log whose downtimes stay inside 64 bits: when there is a
    year-to-date object, the yearly summary has a row for the current
    year.  If no downtime in the log is negative, the year-to-date total is
    at most the total of that row; if no row of the log dated in the
    current year is dated after the current date, the two totals and the
    two means agree. *)
Theorem ytd_within_year (year_now : Z) (today : date) (df : DataFrame)
    (o : ytd_fields) :
  bounded_log df ->
  ytd (build_comprehensive_summary year_now today df) = Some (ytd_filled o) ->
  exists ry,
    ry ∈ yearly (build_comprehensive_summary year_now today df)
    /\ Yearly.Year ry = year_now
    /\ ((forall row, row ∈ df -> 0 <= Downtime_minutes row) ->
        total_downtime_minutes o <= Yearly.Total_Downtime_Minutes ry)
    /\ ((forall row d, row ∈ df -> Date row = Some d -> year d = year_now ->
                       date_le d today) ->
        total_downtime_minutes o = Yearly.Total_Downtime_Minutes ry
        /\ avg_downtime_per_failure o = Yearly.Avg_Downtime_Per_Failure ry).
Proof.
  intros Hb Hy. rewrite build_yearly.
  destruct (dropna_Date df) as [|r0 l0] eqn:E.
  { rewrite build_no_parsed_date in Hy by exact E. discriminate. }
  rewrite build_parsed_date in Hy by congruence. cbn [ytd] in Hy.
  rewrite <- E in *. clear E r0 l0.
  destruct (ytd_select year_now today (dropna_Date df)) as [|r1 sel] eqn:Es.
  { rewrite ytd_of_empty in Hy by exact Es. discriminate. }
  rewrite ytd_of_filled in Hy by congruence. cbv zeta in Hy.
  injection Hy as <-.
  cbn [total_downtime_minutes avg_downtime_per_failure].
  assert (Hne : in_year year_now (dropna_Date df) <> []).
  { intros Hnil. rewrite ytd_select_in_year, Hnil in Es. discriminate. }
  destruct (yearly_agg_Some year_now _ Hne) as (mx & mn & Hmx & Hmn & _).
  exists (yearly_row_of year_now (in_year year_now (dropna_Date df)) mx mn).
  split; [apply elem_of_yearly_summary; exists year_now, mx, mn; auto |].
  split; [reflexivity |].
  cbn [yearly_row_of Yearly.Total_Downtime_Minutes
       Yearly.Avg_Downtime_Per_Failure].
  rewrite (col_sum_group_sum_over df (ytd_select _ _ _))
    by (exact Hb || apply ytd_select_sublist).
  rewrite (col_sum_group_sum_over df (in_year _ _))
    by (exact Hb || apply in_year_sublist).
  rewrite ytd_select_in_year. split.
  - intros Hpos.
    pose proof (sum_over_filter_split
                  (fun r : dated => Downtime_minutes (snd r))
                  (fun r : dated => Is_true (date_leb (fst r) today))
                  (in_year year_now (dropna_Date df))) as Hsplit.
    match type of Hsplit with
    | _ + sum_over ?f ?rest = _ =>
        assert (Hrest : 0 <= sum_over f rest)
    end; [| unfold dated in *; lia].
    apply sum_over_nonneg. intros r Hr.
    apply list_elem_of_filter in Hr as [_ Hr].
    apply list_elem_of_filter in Hr as [_ Hr].
    apply elem_of_dropna_Date in Hr as [Hr _]. now apply Hpos.
  - intros Hall.
    rewrite (filter_all (fun r : dated => Is_true (date_leb (fst r) today))).
    + now split.
    + intros r Hr. apply list_elem_of_filter in Hr as [Hyr Hr].
      apply elem_of_dropna_Date in Hr as [Hr Hd].
      apply date_leb_le. now apply (Hall (snd r)).
Qed.

Lemma log_three_nonneg (row : outage) :
  row ∈ log_three -> 0 <= Downtime_minutes row.
Proof.
  intros H. unfold log_three in H.
  repeat (apply elem_of_cons in H as [-> | H]; [cbn; lia |]).
  inversion H.
Defined.

Lemma log_three_before_2025 (row : outage) (d : date) :
  row ∈ log_three -> Date row = Some d -> year d = 2024 ->
  date_le d (mkdate 2024 December 31).
Proof.
  intros H. unfold log_three in H.
  repeat (apply elem_of_cons in H as [-> | H];
          [intros [= <-] _; unfold date_le; cbn; lia |]).
  inversion H.
Defined.

(** The log of two records on 3 April 2024 (30 and 45 minutes) and one on
    15 May 2024 (60 minutes).  Read on 30 April the year to date has the 75
    minutes of April, less than the total of the year; read on 31 December
    it has the total of the year, 135 minutes. *)
Lemma ytd_within_year_witness :
  bounded_log log_three
  /\ (exists o ry,
        ytd (build_comprehensive_summary 2024 (mkdate 2024 April 30)
               log_three) = Some (ytd_filled o)
        /\ ry ∈ yearly (build_comprehensive_summary 2024
                          (mkdate 2024 April 30) log_three)
        /\ total_downtime_minutes o = 75
        /\ total_downtime_minutes o <= Yearly.Total_Downtime_Minutes ry)
  /\ (exists o ry,
        ytd (build_comprehensive_summary 2024 (mkdate 2024 December 31)
               log_three) = Some (ytd_filled o)
        /\ ry ∈ yearly (build_comprehensive_summary 2024
                          (mkdate 2024 December 31) log_three)
        /\ total_downtime_minutes o = 135
        /\ total_downtime_minutes o = Yearly.Total_Downtime_Minutes ry).
Proof.
  split; [exact bounded_log_three |]. split.
  - eexists.
    destruct (ytd_within_year 2024 (mkdate 2024 April 30) log_three _
                bounded_log_three eq_refl) as (ry & Hin & _ & Hle & _).
    exists ry. split; [reflexivity |]. split; [exact Hin |].
    split; [reflexivity |]. exact (Hle log_three_nonneg).
  - eexists.
    destruct (ytd_within_year 2024 (mkdate 2024 December 31) log_three _
                bounded_log_three eq_refl) as (ry & Hin & _ & _ & Heq).
    exists ry. split; [reflexivity |]. split; [exact Hin |].
    split; [reflexivity |]. exact (proj1 (Heq log_three_before_2025)).
Defined.

Lemma days_before_month_bound (y : Z) (m : Month) :
  0 <= days_before_month y m
  /\ days_before_month y m + get_days_in_month y (month_num m)
     <= days_in_year y.
Proof.
  unfold days_before_month, get_days_in_month, days_in_year,
    Period_is_leap_year.
  rewrite is_leapyear_py.
  destruct (py_is_leap y); destruct m; vm_compute; split; discriminate.
Qed.

(** X14. For a current date of the calendar and its year, the days elapsed
    of a year-to-date object are the day of the year: at least 1 and at
    most the number of days of the year, so the year-to-date budget is
    positive. *)
Theorem ytd_days_elapsed_range (today : date) (df : DataFrame)
    (o : ytd_fields) :
  valid_date today ->
  ytd (build_comprehensive_summary (year today) today df)
  = Some (ytd_filled o) ->
  days_elapsed o = days_before_month (year today) (month today) + day today
  /\ 1 <= days_elapsed o <= days_in_year (year today)
  /\ (0 < total_broadcast_minutes o)%Q.
Proof.
  intros Hv Hy.
  destruct (dropna_Date df) as [|r0 l0] eqn:E.
  { rewrite build_no_parsed_date in Hy by exact E. discriminate. }
  rewrite build_parsed_date in Hy by congruence. cbn [ytd] in Hy.
  destruct (ytd_select (year today) today (dropna_Date df)) eqn:Es.
  { rewrite ytd_of_empty in Hy by exact Es. discriminate. }
  rewrite ytd_of_filled in Hy by congruence. cbv zeta in Hy.
  injection Hy as <-. cbn [days_elapsed total_broadcast_minutes].
  rewrite days_elapsed_day_of_year.
  pose proof (days_before_month_bound (year today) (month today)) as Hb.
  unfold valid_date in Hv. split; [reflexivity |]. split; [lia |].
  rewrite broadcast_minutes_budget. unfold daily_budget.
  change 0%Q with (inject_Z 0). rewrite <- Zlt_Qlt. lia.
Qed.

Lemma valid_date_2024_03_01 : valid_date (mkdate 2024 March 1).
Proof. unfold valid_date. vm_compute. split; discriminate. Defined.

Lemma ytd_days_elapsed_range_witness :
  exists o,
    ytd (build_comprehensive_summary 2024 (mkdate 2024 March 1) log_feb_2024)
    = Some (ytd_filled o)
    /\ 1 <= days_elapsed o <= days_in_year 2024.
Proof.
  eexists. split; [reflexivity |].
  exact (proj1 (proj2 (ytd_days_elapsed_range (mkdate 2024 March 1)
                         log_feb_2024 _ valid_date_2024_03_01 eq_refl))).
Defined.

Lemma projection_is_ytd_availability_Q (t d : Q) :
  ~ (d == 0)%Q ->
  ((365 * 17.5 * 60 - (t + t / d * (365 - d))) / (365 * 17.5 * 60) * 100
   == (d * 17.5 * 60 - t) / (d * 17.5 * 60) * 100)%Q.
Proof. intros Hd. field. exact Hd. Qed.

(** X15. The projected full-year availability is the year-to-date
    availability: for a current date of the calendar with fewer than 365
    days elapsed, extending the downtime at the rate observed so far over
    365 days leaves the availability unchanged. *)
Theorem projection_is_ytd_availability (today : date) (df : DataFrame)
    (o : ytd_fields) :
  valid_date today ->
  ytd (build_comprehensive_summary (year today) today df)
  = Some (ytd_filled o) ->
  days_elapsed o < 365 ->
  exists p,
    view_summary_projection (year today) today df = Returns (Some p)
    /\ (projected_availability p == ytd_availability o)%Q.
Proof.
  intros Hv Hy Hlt. unfold view_summary_projection, subscript_ytd.
  destruct df as [|row df]; [discriminate |]. cbn [empty]. rewrite Hy.
  unfold project_full_year. apply Z.ltb_lt in Hlt. rewrite Hlt.
  eexists. split; [reflexivity |]. cbn [projected_availability].
  destruct (dropna_Date (row :: df)) as [|r0 l0] eqn:E.
  { rewrite build_no_parsed_date in Hy by exact E. discriminate. }
  rewrite build_parsed_date in Hy by congruence. cbn [ytd] in Hy.
  destruct (ytd_select (year today) today (dropna_Date (row :: df))) eqn:Es.
  { rewrite ytd_of_empty in Hy by exact Es. discriminate. }
  rewrite ytd_of_filled in Hy by congruence. cbv zeta in Hy.
  injection Hy as <-.
  cbn [days_elapsed total_downtime_minutes ytd_availability].
  pose proof (days_elapsed_pos today (proj1 Hv)) as Hpos.
  set (de := date_sub_days today (mkdate (year today) January 1) + 1) in *.
  unfold availability_pct, broadcast_minutes, BROADCAST_HOURS_PER_DAY.
  unfold Z.sub. rewrite inject_Z_plus, inject_Z_opp.
  change (inject_Z 365) with 365%Q.
  apply projection_is_ytd_availability_Q.
  change 0%Q with (inject_Z 0). rewrite inject_Z_injective. lia.
Qed.

Lemma projection_is_ytd_availability_witness :
  exists o p,
    ytd (build_comprehensive_summary 2024 (mkdate 2024 March 1) log_feb_2024)
    = Some (ytd_filled o)
    /\ view_summary_projection 2024 (mkdate 2024 March 1) log_feb_2024
       = Returns (Some p)
    /\ (projected_availability p == ytd_availability o)%Q.
Proof.
  eexists.
  destruct (projection_is_ytd_availability (mkdate 2024 March 1) log_feb_2024
              _ valid_date_2024_03_01 eq_refl ltac:(vm_compute; reflexivity))
    as (p & Hp & He).
  exists p. split; [reflexivity |]. split; [exact Hp | exact He].
Defined.

(* ================================================================== *)
(** * The sidebar status *)

(** The branches of the sidebar, by the frames the aggregator works on. *)
Lemma sidebar_status_branches (year_now : Z) (today : date) (df : DataFrame) :
  (sidebar_status year_now today df = Returns No_data <-> df = [])
  /\ ((exists k, sidebar_status year_now today df = KeyError k)
      <-> df <> [] /\ dropna_Date df = [])
  /\ (sidebar_status year_now today df = Returns No_YTD_data
      <-> dropna_Date df <> []
          /\ ytd_select year_now today (dropna_Date df) = [])
  /\ (forall o,
        ytd (build_comprehensive_summary year_now today df)
        = Some (ytd_filled o) ->
        exists text,
          sidebar_status year_now today df
          = Returns (Health text (ytd_availability o) (failure_count o))
          /\ ((99.5 <= ytd_availability o)%Q -> text = "Excellent"%string)
          /\ ((99 <= ytd_availability o)%Q ->
              (ytd_availability o < 99.5)%Q -> text = "Good"%string)
          /\ ((ytd_availability o < 99)%Q ->
              text = "Needs Attention"%string)).
Proof.
  unfold sidebar_status, subscript_ytd.
  destruct df as [|row df]; cbn [empty negb].
  { split; [settle |]. split; [settle |].
    split; [settle |]. intros o [=]. }
  destruct (dropna_Date (row :: df)) as [|r0 l0] eqn:E.
  { rewrite build_no_parsed_date by exact E. cbn [ytd].
    split; [settle |]. split; [settle |].
    split; [settle |]. intros o [=]. }
  rewrite build_parsed_date by congruence. cbn [ytd]. rewrite E.
  destruct (ytd_select year_now today (r0 :: l0)) as [|r1 sel] eqn:Es.
  { rewrite ytd_of_empty by exact Es.
    split; [settle |]. split; [settle |].
    split; [settle |]. intros o [=]. }
  rewrite ytd_of_filled by congruence. cbv zeta.
  split; [settle |]. split; [settle |].
  split; [settle |].
  intros o [= <-]. cbn [ytd_availability failure_count].
  eexists. split; [reflexivity |].
  set (a := availability_pct _ _).
  destruct (Qle_bool 99.5 a) eqn:E1.
  - apply Qle_bool_iff in E1. split; [reflexivity |]. split.
    + intros _ H. exfalso. apply (Qlt_not_le _ _ H E1).
    + intros H. exfalso. apply (Qlt_not_le a 99.5); [| exact E1].
      eapply Qlt_trans; [exact H | reflexivity].
  - assert (H1 : ~ (99.5 <= a)%Q)
      by (rewrite <- Qle_bool_iff; congruence).
    assert (E99 : (99 == 99.0)%Q) by reflexivity.
    destruct (Qle_bool 99.0 a) eqn:E2.
    + apply Qle_bool_iff in E2. rewrite <- E99 in E2.
      split; [intros H; contradiction |].
      split; [reflexivity |].
      intros H. exfalso. apply (Qlt_not_le _ _ H E2).
    + assert (H2 : ~ (99 <= a)%Q)
        by (rewrite E99, <- Qle_bool_iff; congruence).
      split; [intros H; contradiction |].
      split; [intros H; contradiction | reflexivity].
Qed.

Lemma dropna_Date_nil (df : DataFrame) :
  dropna_Date df = [] <-> Forall (fun row => Date row = None) df.
Proof.
  split; [| apply dropna_Date_all_None].
  unfold DataFrame in *. induction df as [|row df IH]; [constructor |].
  rewrite dropna_Date_cons. destruct (Date row) eqn:E; [discriminate |].
  intros H. constructor; [exact E | now apply IH].
Qed.

Lemma dropna_Date_nonempty (df : DataFrame) :
  dropna_Date df <> [] <-> exists row, row ∈ df /\ is_Some (Date row).
Proof.
  split.
  - intros Hne. destruct (dropna_Date df) as [|r l] eqn:E; [congruence |].
    assert (Hr : r ∈ dropna_Date df) by (rewrite E; left).
    apply elem_of_dropna_Date in Hr as [Hin Hd]. exists (snd r). eauto.
  - intros (row & Hin & [d Hd]) E. apply dropna_Date_nil in E.
    rewrite Forall_forall in E. specialize (E row Hin). congruence.
Qed.

Lemma ytd_select_nil_rows (y : Z) (t : date) (df : DataFrame) :
  ytd_select y t (dropna_Date df) = [] <-> records_up_to y t df = [].
Proof.
  rewrite <- ytd_select_rows.
  destruct (ytd_select y t (dropna_Date df)); cbn; split; congruence.
Qed.

(** X16. The sidebar shows "No data" exactly for the empty log, ends in
    [KeyError] exactly for a log that is not empty and has no dated row,
    shows "No YTD data" exactly when some row is dated and no row is dated
    in the current year up to the current date, and shows a health status
    exactly when some row is: then the number shown is the number of those
    rows, the availability is the one of the year-to-date object, which for
    a log whose downtimes stay inside 64 bits is
    100 * (budget - total) / budget with the downtimes of those rows as
    total and 1050 minutes for each day elapsed as budget, and the text is
    "Excellent" from 99.5, "Good" from 99 and "Needs Attention" below. *)
Theorem sidebar_status_cases (year_now : Z) (today : date) (df : DataFrame) :
  let selected := records_up_to year_now today df in
  let budget :=
    inject_Z ((date_sub_days today (mkdate year_now January 1) + 1)
              * daily_budget) in
  (sidebar_status year_now today df = Returns No_data <-> df = [])
  /\ ((exists k, sidebar_status year_now today df = KeyError k)
      <-> df <> [] /\ Forall (fun row => Date row = None) df)
  /\ (sidebar_status year_now today df = Returns No_YTD_data
      <-> (exists row, row ∈ df /\ is_Some (Date row)) /\ selected = [])
  /\ ((exists text a n,
         sidebar_status year_now today df = Returns (Health text a n))
      <-> selected <> [])
  /\ (forall text a n,
        sidebar_status year_now today df = Returns (Health text a n) ->
        n = Z.of_nat (length selected)
        /\ (exists o,
              ytd_object (build_comprehensive_summary year_now today df)
              = Some o
              /\ a = ytd_availability o)
        /\ (bounded_log df ->
            (a == 100 * (budget - inject_Z (total_minutes selected))
                  / budget)%Q)
        /\ ((99.5 <= a)%Q -> text = "Excellent"%string)
        /\ ((99 <= a)%Q -> (a < 99.5)%Q -> text = "Good"%string)
        /\ ((a < 99)%Q -> text = "Needs Attention"%string)).
Proof.
  cbv zeta.
  destruct (sidebar_status_branches year_now today df)
    as (Hnone & Hkey & Hnoytd & Hhealth).
  rewrite dropna_Date_nil in Hkey.
  rewrite dropna_Date_nonempty, ytd_select_nil_rows in Hnoytd.
  split; [exact Hnone |]. split; [exact Hkey |]. split; [exact Hnoytd |].
  assert (Hobj : forall text a n,
             sidebar_status year_now today df = Returns (Health text a n) ->
             exists o,
               ytd (build_comprehensive_summary year_now today df)
               = Some (ytd_filled o)).
  { intros text a n H. unfold sidebar_status, subscript_ytd in H.
    destruct (empty df); cbn [negb] in H; [discriminate |].
    destruct (ytd (build_comprehensive_summary year_now today df))
      as [[|o]|]; try discriminate. eauto. }
  assert (Hsel : forall o,
             ytd (build_comprehensive_summary year_now today df)
             = Some (ytd_filled o) ->
             records_up_to year_now today df <> []
             /\ failure_count o
                = Z.of_nat (length (records_up_to year_now today df))
             /\ (bounded_log df ->
                 (ytd_availability o
                  == 100 * (inject_Z ((date_sub_days today
                                         (mkdate year_now January 1) + 1)
                                      * daily_budget)
                            - inject_Z (total_minutes
                                          (records_up_to year_now today df)))
                     / inject_Z ((date_sub_days today
                                    (mkdate year_now January 1) + 1)
                                 * daily_budget))%Q)).
  { intros o Ho.
    destruct (dropna_Date df) as [|r0 l0] eqn:E.
    { rewrite build_no_parsed_date in Ho by exact E. discriminate. }
    rewrite build_parsed_date in Ho by congruence. cbn [ytd] in Ho.
    clear E r0 l0.
    destruct (ytd_select year_now today (dropna_Date df)) eqn:Es.
    { rewrite ytd_of_empty in Ho by exact Es. discriminate. }
    assert (Hne : ytd_select year_now today (dropna_Date df) <> [])
      by congruence.
    rewrite ytd_of_filled in Ho by exact Hne. cbv zeta in Ho.
    injection Ho as <-. cbn [failure_count ytd_availability].
    split; [now apply ytd_select_nonempty_rows |].
    split; [now rewrite len_rows, ytd_select_rows |].
    intros Hb.
    rewrite (col_sum_group df) by (exact Hb || apply ytd_select_sublist).
    rewrite ytd_select_rows.
    apply availability_pct_formula, broadcast_minutes_budget. }
  split.
  - split.
    + intros (text & a & n & H). destruct (Hobj _ _ _ H) as [o Ho].
      now apply Hsel in Ho.
    + intros Hne.
      destruct (ytd (build_comprehensive_summary year_now today df))
        as [[|o]|] eqn:Ho.
      * exfalso. apply Hne, Hnoytd.
        unfold sidebar_status, subscript_ytd. rewrite Ho.
        destruct df; [| reflexivity].
        unfold build_comprehensive_summary in Ho. discriminate.
      * destruct (Hhealth o eq_refl) as (text & H & _). eauto.
      * exfalso. apply Hne.
        destruct (dropna_Date df) as [|r0 l0] eqn:E.
        -- apply ytd_select_nil_rows. now rewrite E.
        -- rewrite build_parsed_date in Ho by congruence. discriminate.
  - intros text a n H. destruct (Hobj _ _ _ H) as [o Ho].
    destruct (Hhealth o Ho) as (text' & H' & Hth).
    rewrite H in H'. injection H' as -> -> ->.
    destruct (Hsel o Ho) as (_ & Hn & Hav).
    split; [exact Hn |].
    split; [exists o; split; [| reflexivity] |].
    + unfold ytd_object. now rewrite Ho.
    + split; [exact Hav | exact Hth].
Qed.

(* ================================================================== *)
(** * The latest month of the View Summary page *)

Lemma StronglySorted_fmap_inv {A B} (f : A -> B) (R : relation B)
    (l : list A) :
  StronglySorted R (f <$> l) ->
  StronglySorted (fun a b => R (f a) (f b)) l.
Proof.
  induction l as [|x l IH]; intros H; [constructor |].
  cbn [fmap list_fmap] in H. inversion H as [| ? ? Hl Hx]; subst.
  constructor; [now apply IH |].
  rewrite Forall_fmap in Hx. exact Hx.
Qed.

Lemma StronglySorted_sublist {A} (R : relation A) (l k : list A) :
  l `sublist_of` k -> StronglySorted R k -> StronglySorted R l.
Proof.
  induction 1 as [| x l k Hs IH | x l k Hs IH]; intros Hk.
  - constructor.
  - inversion Hk as [| ? ? Hk' Hx]; subst. constructor; [now apply IH |].
    eapply Forall_of_sublist; eassumption.
  - inversion Hk; subst. now apply IH.
Qed.

Lemma filtered_monthly_sublist (yf : option Z) (mf : option string)
    (l : list MonthlyOut.row) :
  filtered_monthly yf mf l `sublist_of` l.
Proof.
  unfold filtered_monthly. destruct yf as [y|], mf as [m|].
  - etransitivity; apply sublist_filter.
  - apply sublist_filter.
  - apply sublist_filter.
  - reflexivity.
Qed.

Lemma elem_of_filtered_monthly (yf : option Z) (mf : option string)
    (l : list MonthlyOut.row) (r : MonthlyOut.row) :
  r ∈ filtered_monthly yf mf l
  <-> r ∈ l
      /\ (forall y, yf = Some y -> MonthlyOut.Year r = y)
      /\ (forall m, mf = Some m -> MonthlyOut.Month r = m).
Proof.
  unfold filtered_monthly. destruct yf as [y|], mf as [m|];
    rewrite ?list_elem_of_filter.
  - split; [intros (Hm & Hy & Hr) | intros (Hr & Hy & Hm)].
    + split; [exact Hr |]. split; intros ? [= <-]; assumption.
    + split; [now apply Hm |]. split; [now apply Hy | exact Hr].
  - split; [intros (Hy & Hr) | intros (Hr & Hy & _)].
    + split; [exact Hr |]. split; [intros ? [= <-]; assumption |].
      intros ? [=].
    + split; [now apply Hy | exact Hr].
  - split; [intros (Hm & Hr) | intros (Hr & _ & Hm)].
    + split; [exact Hr |]. split; [intros ? [=] |].
      intros ? [= <-]; assumption.
    + split; [now apply Hm | exact Hr].
  - split; [intros Hr | now intros (Hr & _)].
    split; [exact Hr |]. split; intros ? [=].
Qed.

(** X17. "Latest Month Performance" shows a row exactly when some row of
    the monthly summary passes the sidebar filters, and the row shown is
    the latest of the rows of the summary that pass: every other one is of
    an earlier (year, month). *)
Theorem latest_month_is_latest (year_now : Z) (today : date)
    (df : DataFrame) (yf : option Z) (mf : option string) :
  let summary := monthly (build_comprehensive_summary year_now today df) in
  ((exists r, latest_month yf mf summary = Some r)
   <-> exists r', r' ∈ summary /\ row_passes yf mf r')
  /\ (latest_month yf mf summary = None
      <-> forall r', r' ∈ summary -> ~ row_passes yf mf r')
  /\ (forall r, latest_month yf mf summary = Some r ->
        r ∈ summary
        /\ row_passes yf mf r
        /\ (forall r', r' ∈ summary -> row_passes yf mf r' ->
              r' = r
              \/ ym_lt (year_month_of_name r') (year_month_of_name r))).
Proof.
  cbv zeta. rewrite build_monthly. unfold latest_month.
  pose proof (elem_of_filtered_monthly yf mf
                (monthly_summary (dropna_Date df))) as Hmem.
  fold (row_passes yf mf) in Hmem.
  assert (Hsorted : StronglySorted
                      (fun a b => ym_lt (year_month_of_name a)
                                        (year_month_of_name b))
                      (filtered_monthly yf mf
                         (monthly_summary (dropna_Date df)))).
  { eapply StronglySorted_sublist; [apply filtered_monthly_sublist |].
    apply StronglySorted_fmap_inv, monthly_summary_sorted. }
  set (shown := filtered_monthly yf mf (monthly_summary (dropna_Date df)))
    in *.
  assert (Hshown : forall r, (if negb (empty shown) then last shown else None)
                             = Some r <-> last shown = Some r).
  { intros r. destruct shown; cbn [empty negb]; [| tauto].
    split; discriminate. }
  split; [| split].
  - split.
    + intros [r Hr]. apply Hshown, last_Some_elem_of in Hr.
      exists r. now apply Hmem.
    + intros (r' & Hin & Hp).
      assert (Hr' : r' ∈ shown) by now apply Hmem.
      destruct shown as [|x l] eqn:E; [inversion Hr' |]. cbn [empty negb].
      destruct (last (x :: l)) as [r|] eqn:El; [eauto |].
      apply last_None in El. discriminate.
  - split.
    + intros Hnone r' Hin Hp.
      assert (Hr' : r' ∈ shown) by now apply Hmem.
      destruct shown as [|x l] eqn:E; [inversion Hr' |].
      cbn [empty negb] in Hnone. apply last_None in Hnone. discriminate.
    + intros Hall. destruct shown as [|x l] eqn:E; [reflexivity |].
      exfalso. assert (Hx : x ∈ x :: l) by left.
      apply Hmem in Hx as [Hin Hp]. exact (Hall x Hin Hp).
  - intros r Hr. apply Hshown in Hr.
    pose proof (last_Some_elem_of _ _ Hr) as Hin.
    apply Hmem in Hin as [Hin Hp].
    split; [exact Hin |]. split; [exact Hp |].
    intros r' Hin' Hp'.
    assert (Hr' : r' ∈ shown) by now apply Hmem.
    apply last_Some in Hr as [l' El]. rewrite El in *.
    apply elem_of_app in Hr' as [Hr' | Hr'].
    + right.
      apply (StronglySorted_app_1_elem_of
               (fun a b => ym_lt (year_month_of_name a)
                                 (year_month_of_name b))
               l' [r] r' r Hsorted Hr').
      left.
    + left. now apply list_elem_of_singleton in Hr'.
Qed.

(** The log of April and May 2024 under the year filter 2024: the row of
    May is shown. *)
Lemma latest_month_log_three :
  exists r,
    latest_month (Some 2024) None
      (monthly (build_comprehensive_summary 2024 (mkdate 2024 June 1)
                  log_three)) = Some r
    /\ MonthlyOut.Month r = "May"%string
    /\ MonthlyOut.Total_Downtime_Minutes r = 60.
Proof. eexists. split; [reflexivity |]. split; reflexivity. Qed.

(* ================================================================== *)
(** * The filtered view of the Edit Records page *)


Lemma elem_of_indexed {A} (l : list A) (i : nat) (x : A) :
  (i, x) ∈ indexed l <-> l !! i = Some x.
Proof.
  unfold indexed. rewrite elem_of_lookup_imap. split.
  - now intros (j & y & [= -> ->] & Hj).
  - intros Hi. eauto.
Qed.

Lemma elem_of_filtered_view (yf : option Z) (mf : option string)
    (df : DataFrame) (i : nat) (row : outage) :
  (i, row) ∈ filtered_view yf mf df
  <-> df !! i = Some row /\ passes_filters yf mf row = true.
Proof.
  unfold filtered_view, passes_filters.
  destruct yf as [y|], mf as [m|];
    rewrite ?list_elem_of_filter, elem_of_indexed; cbn [snd];
    rewrite ?Is_true_true, ?andb_true_iff; tauto.
Qed.

(** A selected row without a date: the page raises [ValueError] whatever
    the action, and neither edits nor deletes. *)
Lemma page_submit_undated (yf : option Z) (mf : option string)
    (df : DataFrame) (record_index i : nat) (selected : outage) (f : form) :
  filtered_view yf mf df !! record_index = Some (i, selected) ->
  Date selected = None ->
  edit_page_submit yf mf df record_index f = ValueError
  /\ delete_page_submit yf mf df record_index = ValueError.
Proof.
  intros E Hd. unfold edit_page_submit, delete_page_submit. rewrite E.
  apply list_elem_of_lookup_2, elem_of_filtered_view in E as [Hi _].
  unfold edit_submit, delete_submit. now rewrite Hi, Hd.
Qed.

